(* ===== verification/_CoqProject ===== *)
-Q . S2P
Prelude.v
Scanner.v
GoBinary.v
Tags.v
Utils.v
Values.v
GoStrconv.v
ValueMethods.v
Model.v
Encoder.v
Decoder.v
Codec.v
Robustness.v
Overflow.v
Spec.v
Client.v
Legacy.v
