(* ===== verification/Prelude.v ===== *)
(** * Verification of goIPP: the IPP message codec of tbytes/goIPP

  ** The program

  goIPP is a Go client for the Internet Printing Protocol. A request is
  built in memory ([src/ipp/ippMsg.go], [src/ipp/cups.go]), encoded to
  bytes ([marshallMsg], [src/IppGenerator.go]) and posted over HTTP; a
  reply is decoded by [ParseMessage] ([src/ipp/unMarshall.go]). The
  decoder scans the bytes with a cursor ([src/utils/iter.go]) and turns
  each value into a typed Go value through per-tag closures
  ([src/ipp/ippParser.go]).

  ** The files, in dependency order

  - [Prelude] (this file): Go panics as the error case of a result
    monad [goRes] with the notation [let?] (nil call, failed type
    assertion, slice bounds, index out of range, nil dereference);
    machine integers as [Z] with explicit wrap-around ([u8], [u16],
    [i8], [i16], [i32]); big-endian bytes ([be_bytes], [be_val]) for
    [binary.Write]/[binary.Read]; Go slicing [go_slice] and indexing
    [go_index], [go_nth], which panic out of bounds; bit lemmas
    ([lor_shiftl_low], [lor_bound]); the hint databases [ipp] and
    [ipp_rw] and the tactics [go_inv], [go_simpl], [slice_step].
  - [Scanner]: the byte-scanner interface the decoder relies on, as the
    type classes [ByteScanner] and [ByteScannerLaws], with client lemmas
    (reading a known prefix, draining the input) proved in a Section
    against the interface only.
  - [GoBinary]: [binary.Uvarint] and [binary.Varint] of the Go library,
    which the decoder uses for fixed-width fields, with the lemmas on
    one-byte and truncated varints the decoder's proofs use.
  - [Tags] (Module [Tags]): [constants.go] (tags, operation ids, status
    codes, and as named tables the finishing, orientation, quality,
    job-, printer- and parser-state and CUPS printer-type constants),
    [checkGroupTag], [typeCheck].
  - [Utils] (Modules [Iterator], [Counter]): the cursor of [iter.go]
    as a record with [GetNextOne]/[GetNextN] in explicit state passing,
    its [ByteScanner] instance, and the counter of [util.go]: its
    counting fields ([counter], what the decoder uses) and the whole
    struct with its time fields and callback ([tcounter]), with the
    step relation [tstep] of its methods and reachability [treach].
  - [Values] (Module [Values]): the dynamic value types as the
    inductive [goValue]; what [binary.Write] emits for each
    ([binary_Write_value]); the [Length] closure [refer] installs
    ([refer_Length]); the methods the decoder calls; the decoder's
    dispatch [UnMarshallattribute].
  - [GoStrconv] (Module [Strconv]): [fmt]'s [%x] on byte slices,
    [strconv.Atoi] with [ParseInt]/[ParseUint], and the runtime's
    rune-to-string conversion [encoderune].
  - [ValueMethods] (Module [Methods]): the Go interface [Marshler] as
    a type class with one instance per value type of [ippParser.go],
    its round-trip law [MarshlerRoundTrip] over the values of the Go
    field widths ([GoValid]), the [Marshal] closure
    [refer] installs ([refer_Marshal]), and the [String], [validate],
    [NewResolution], [NewDateTime], [DateTime] methods.
  - [Model] (Module [Model]): [Message], [attributeGroup], [attribute],
    [addValue], [addAttribute], [UUID4], and the requests of [cups.go].
  - [Encoder] (Module [Encoder]): [marshallMsg], [marshallAtrib] and
    the per-value writes, fallible as in Go ([binary.Write] of a nil
    additional value panics), and the bytes their buffer holds when
    they return ([marshallMsg_bytes], related by [marshallMsg_spec]).
  - [Decoder] (Module [Decoder]): [ParseMessage], and the loop of
    [splitAValues] as one iteration [split_body] with its state record
    [split_state], run by [split_loop] with fuel; the step relation
    [body_effect] and its closure [reach].
  - [Codec] (Module [Codec]): the decoder applied to the encoder's
    output, through the frames (one per value) the encoder writes.
  - [Robustness] (Module [Robustness]): the decoder on malformed input
    and the header fields as it reads them.
  - [Overflow] (Module [Overflow]): a fresh request with one attribute
    followed through [addAttribute], [marshallMsg] and [ParseMessage]
    when its 16-bit length fields overflow.
  - [Spec] (Module [Spec]): the encoding the spec (RFC 8010 section
    3.1) describes, over an abstract message model, the abstraction
    [abs_msg] of the code's messages, and the refinement theorems.
  - [Client] (Module [Client]): [CupsServer.DoRequest] composing the
    encoder, the transport (an input: the reply body, or none when the
    post fails) and the decoder, with its I/O as a trace of events, and
    the client methods of [cups.go].
  - [Legacy] (Module [Legacy]): the older top-level copies
    [src/ippParser.go] and [src/ipp.go]: their [Marshler] interface as
    the class [LegacyMarshler] with its instances, the writers, both
    closures of their [refer], and their [DoRequest]; the class
    [LegacyRefines] states that an old writer that returns agrees with
    the new one; the byte accessors; and the old client's [SetServer],
    [CreateRequest] and [GetPrinters].

  ** What the theorems show

  - Round trip ([Codec]): for messages whose frames are well formed
    (fitting lengths, names only on first values, no nil additional
    value, which is when [marshallMsg] returns), decoding what the
    encoder writes gives one
    operation group holding one attribute with all the values of the
    message, then an empty group tagged 3; a missing end tag loses all
    values without an error; the header comes back through varint
    readers; the decoder panics exactly when some value's tag is not
    one of the seven it decodes.
  - Composition ([Client]): the client panics on every reply written in
    the library's own encoding, after creating and writing the dump file
    and posting the request (or, for a request with a nil additional
    value, in the encoder after creating the file) (index [attributeGroups[1].attributes[0]]
    of a two-group result), and survives only replies that decode to at
    least three groups.
  - Decoder invariants ([Decoder]), by rule induction on [reach]: the
    groups hold one attribute each except the last; the attributes form
    a prefix chain (the pending attribute is never reset, because the
    guard [cnt.GTEq(1)] is always false on a fresh counter).
  - Types ([Values], [Model]): the decoder's values have the dynamic
    type of their tag; [addValue] preserves well-formedness (only the
    first value is named).
  - Termination and liveness ([Decoder], [Utils]): every continuing
    iteration consumes a byte, so the fuel [S (length b)] chosen in
    [splitAValues] is never exhausted; byte reads drain an iterator and
    then report the end.
  - Refinement ([Spec]): [marshallMsg] is the spec's encoding of the
    message with its groups merged into one operation group; exact for
    one operation group; one byte shorter per extra group.
  - Equivalence ([Legacy], [ValueMethods]): the old [refer]'s
    [Length] closures are the new ones without uri, and its [Marshal]
    closures the new ones without uri and with two more that never
    return; [integer.String] is a one-to-four byte UTF-8 rune.
  - Values ([Values], [ValueMethods], [Model]): enum, boolean and range
    decoding through varints; the declared lengths of dateTime and
    resolution against the bytes written; which [Marshler]
    implementations round-trip; when [addValue] and the [Marshal]
    closures panic or never return; the [octetString] reader panics on
    what is written; [UUID4] always fails.
  - Overflow ([Overflow]): a name of 2^15 bytes or more ([int16]
    wrap of its length) or a declared value length of 2^15 or more is
    built and encoded without complaint, and the decoder panics on the
    library's own message.
  - Simulation ([Utils]): by rule induction on [treach], no method
    writes [stopTime], so every reachable timed counter is simulated
    by the untimed one at any clock reading, which justifies the
    decoder's use of [Start] without a clock.
  - Errors ([Robustness], [Utils]): panics on a short header, on length
    fields with the sign bit set, on negative [GetNextN] counts; the
    exact behaviour of [GetNextOne] and [GetNextN].

  ** Modelling choices

  [binary.Write] is modelled per dynamic type: a fixed-size value is
  written big-endian, a type without a fixed size (a struct with slice
  fields, the untyped constant [0x0000], which is an [int]) makes it
  return an error and write nothing, and a nil interface makes it panic
  (its error path calls a method on the nil [reflect.Type]). Go slices
  are exactly sized (capacity = length). Logging, printing
  and hex dumps are left out; the slice a dump evaluates
  and the index expressions a [Println] evaluates are kept, since they
  can panic. External inputs are arguments: the transport's reply, the
  random bytes of [UUID4], the clock of [Now] and of the counter's
  [Start] and [Finished] ([time.Time] as nanoseconds since Go's zero
  time). A method that calls
  itself ([integer]/[enum] [MarshalIPP], and two more in the old copy)
  takes the stack depth as fuel and returns [None] at every depth. The
  decoder's fuel is one more than the input length, which is enough by
  the termination theorem. The Go library functions the code calls are
  modelled from the Go library's definitions (64-bit [int]).

  ** Not modelled

  The [Marshal], [Length] and [String] closures [UnMarshallattribute]
  stores on a decoded value are never called and not modelled (only
  its [UnMarshal] closure runs); [refer]'s are, as [refer_Length] and
  [refer_Marshal]. In [src/ipp/] the identity [bytes()]/[len()]
  accessors of the byte-slice types are folded into the methods that
  call them (the top-level copy's are modelled). The top-level package
  declares no [Message], [addAttribute] or tag constants; its client is
  modelled over those of [src/ipp/]. [log.Fatal] on a failed random
  read ends the process. The comment-only files [src/docs.go] and
  [src/ipp/jobOperations.go] hold no code. *)

From Stdlib Require Import ZArith Lia String Ascii.
From stdpp Require Import base list.

Local Open Scope Z_scope.

(** ** Go results: a value, or a run-time panic

  Every fallible step of the Go code either returns normally or panics
  (nil function call, failed type assertion, slice bounds out of range,
  index out of range, nil pointer dereference). No caller recovers, so a panic ends the
  computation: it is the error case of a small error monad. *)

Inductive panic_reason :=
| NilFuncCall
| TypeAssertion
| SliceBounds
| IndexOutOfRange
| NilDeref.

Inductive goRes (A : Type) : Type :=
| Ok (a : A)
| Panic (r : panic_reason).
Arguments Ok {A} a.
Arguments Panic {A} r.

Definition go_bind {A B} (m : goRes A) (k : A -> goRes B) : goRes B :=
  match m with
  | Ok a => k a
  | Panic r => Panic r
  end.

Definition go_map {A B} (f : A -> B) (m : goRes A) : goRes B :=
  go_bind m (fun a => Ok (f a)).

Declare Scope go_scope.
Delimit Scope go_scope with go.
Notation "'let?' x ':=' c 'in' k" := (go_bind c (fun x => k))
  (at level 10, x name, c at level 100, k at level 200) : go_scope.
Notation "'let?' ' p ':=' c 'in' k" :=
  (go_bind c (fun x => match x with p => k end))
  (at level 10, p pattern, c at level 100, k at level 200) : go_scope.

Definition is_ok {A} (m : goRes A) : bool :=
  match m with Ok _ => true | Panic _ => false end.

(** ** Machine integers

  Go's fixed-width integers are kept as [Z] with the wrap-around of a
  conversion written out: [u8]/[u16] for unsigned conversions, [i8],
  [i16], [i32], [i64] for two's-complement conversions. *)

Definition wrap_u (n : Z) (x : Z) : Z := x mod 2 ^ n.
Definition wrap_s (n : Z) (x : Z) : Z :=
  let y := x mod 2 ^ n in
  if 2 ^ (n - 1) <=? y then y - 2 ^ n else y.

Definition u8 := wrap_u 8.
Definition u16 := wrap_u 16.
Definition i8 := wrap_s 8.
Definition i16 := wrap_s 16.
Definition i32 := wrap_s 32.
Definition i64 := wrap_s 64.

(** A byte is a [Z] in [0, 256). *)
Definition is_byte (b : Z) : Prop := 0 <= b < 256.
Definition bytes_ok (l : list Z) : Prop := Forall is_byte l.

#[export] Instance is_byte_dec b : Decision (is_byte b).
Proof. unfold is_byte. apply _. Defined.

(** ** Big-endian byte strings (what [binary.Write] with
  [binary.BigEndian] produces for an integer of [n] bytes, and what
  [binary.Read] / [binary.BigEndian.Uint16] reads back) *)

Fixpoint be_bytes (n : nat) (x : Z) : list Z :=
  match n with
  | O => []
  | S n' => be_bytes n' (Z.shiftr x 8) ++ [Z.land x 255]
  end.

Definition be_val (bs : list Z) : Z :=
  fold_left (fun acc b => Z.lor (Z.shiftl acc 8) b) bs 0.

(** [binary.Read(buf, binary.BigEndian, &xx)] with [xx : int16]: it
  needs two bytes and fails with [io.EOF] otherwise. *)
Definition read_i16 (x : list Z) : option Z :=
  match x with
  | b0 :: b1 :: _ => Some (i16 (be_val [b0; b1]))
  | _ => None
  end.

(** ** Go slices

  [b[lo:hi]] panics unless [0 <= lo <= hi <= cap b]; the buffers of the
  program are exactly sized, so the capacity is the length. *)
Definition go_slice (l : list Z) (lo hi : Z) : goRes (list Z) :=
  if (0 <=? lo) && (lo <=? hi) && (hi <=? Z.of_nat (length l))
  then Ok (take (Z.to_nat (hi - lo)) (drop (Z.to_nat lo) l))
  else Panic SliceBounds.

Definition go_index (l : list Z) (i : Z) : goRes Z :=
  if (0 <=? i) && (i <? Z.of_nat (length l))
  then Ok (nth (Z.to_nat i) l 0)
  else Panic IndexOutOfRange.

(** [xs[i]] on a slice of any element type. *)
Definition go_nth {A} (l : list A) (i : Z) : goRes A :=
  if 0 <=? i then
    match l !! Z.to_nat i with Some x => Ok x | None => Panic IndexOutOfRange end
  else Panic IndexOutOfRange.

(** Go strings are byte strings: [[]byte(s)] and [string(b)]. *)
Definition bytes_of_string (s : string) : list Z :=
  map (fun c => Z.of_nat (nat_of_ascii c)) (list_ascii_of_string s).

(** ** Automation shared by the development *)

Create HintDb ipp discriminated.
Create Rewrite HintDb ipp_rw.

(** ** Generic lemmas: results *)

Lemma go_bind_Ok {A B} (a : A) (k : A -> goRes B) : go_bind (Ok a) k = k a.
Proof. reflexivity. Qed.

Lemma go_bind_Panic {A B} r (k : A -> goRes B) : go_bind (Panic r) k = Panic r.
Proof. reflexivity. Qed.

Lemma go_bind_Ok_inv {A B} (m : goRes A) (k : A -> goRes B) b :
  go_bind m k = Ok b -> exists a, m = Ok a /\ k a = Ok b.
Proof. destruct m; simpl; [eauto | discriminate]. Qed.

#[export] Hint Rewrite @go_bind_Ok @go_bind_Panic : ipp_rw.

(** ** Generic lemmas: machine integers *)

Lemma wrap_u_small n x : 0 <= x < 2 ^ n -> wrap_u n x = x.
Proof. intros. unfold wrap_u. apply Z.mod_small; lia. Qed.

Lemma wrap_s_small n x :
  1 <= n -> -2 ^ (n - 1) <= x < 2 ^ (n - 1) -> wrap_s n x = x.
Proof.
  intros Hn Hx. unfold wrap_s.
  assert (Hp : 2 ^ n = 2 * 2 ^ (n - 1)).
  { rewrite <- Z.pow_succ_r by lia. f_equal; lia. }
  destruct (Z_le_gt_dec 0 x).
  - rewrite Z.mod_small by lia. destruct (Z.leb_spec (2 ^ (n - 1)) x); lia.
  - replace (x mod 2 ^ n) with (x + 2 ^ n).
    + destruct (Z.leb_spec (2 ^ (n - 1)) (x + 2 ^ n)); lia.
    + symmetry. rewrite <- (Z.mod_small (x + 2 ^ n) (2 ^ n)) by lia.
      rewrite Zplus_mod, Z_mod_same_full, Z.add_0_r, Z.mod_mod by lia. reflexivity.
Qed.

Lemma wrap_s_range n x : 1 <= n -> -2 ^ (n - 1) <= wrap_s n x < 2 ^ (n - 1).
Proof.
  intros Hn. unfold wrap_s.
  assert (Hp : 2 ^ n = 2 * 2 ^ (n - 1)).
  { rewrite <- Z.pow_succ_r by lia. f_equal; lia. }
  pose proof (Z.mod_pos_bound x (2 ^ n) ltac:(lia)).
  destruct (Z.leb_spec (2 ^ (n - 1)) (x mod 2 ^ n)); lia.
Qed.

Lemma u16_small x : 0 <= x < 65536 -> u16 x = x.
Proof. intros. apply wrap_u_small. simpl. lia. Qed.

Lemma i16_small x : -32768 <= x < 32768 -> i16 x = x.
Proof. intros. apply wrap_s_small; simpl; lia. Qed.

Lemma i32_small x : -2147483648 <= x < 2147483648 -> i32 x = x.
Proof. intros. apply wrap_s_small; simpl; lia. Qed.

Lemma i8_small x : -128 <= x < 128 -> i8 x = x.
Proof. intros. apply wrap_s_small; simpl; lia. Qed.

(** An [int16] conversion of a 16-bit pattern with the sign bit set. *)
Lemma i16_high x : 32768 <= x < 65536 -> i16 x = x - 65536.
Proof.
  intros Hx. unfold i16, wrap_s. change (2 ^ 16) with 65536. change (2 ^ (16 - 1)) with 32768.
  rewrite Z.mod_small by lia. destruct (Z.leb_spec 32768 x); lia.
Qed.

(** ** Generic lemmas: big-endian bytes *)

Lemma length_be_bytes n x : length (be_bytes n x) = n.
Proof.
  revert x. induction n as [|n IH]; intros x; simpl; [done|].
  rewrite length_app, IH. simpl. lia.
Qed.

Lemma land_255 x : Z.land x 255 = x mod 256.
Proof. change 255 with (Z.ones 8). rewrite Z.land_ones by lia. reflexivity. Qed.

Lemma shiftr_8 x : Z.shiftr x 8 = x / 256.
Proof. rewrite Z.shiftr_div_pow2 by lia. reflexivity. Qed.

Lemma be_bytes_ok n x : bytes_ok (be_bytes n x).
Proof.
  revert x. induction n as [|n IH]; intros x; simpl; [constructor|].
  apply Forall_app; split; [apply IH|].
  constructor; [|constructor]. unfold is_byte. rewrite land_255.
  apply Z.mod_pos_bound; lia.
Qed.

(** Or-ing a value below [2^k] into a shifted value is an addition: the
  bits do not overlap. *)
Lemma lor_shiftl_low a b k :
  0 <= k -> 0 <= b < 2 ^ k -> Z.lor (Z.shiftl a k) b = a * 2 ^ k + b.
Proof.
  intros Hk Hb. rewrite <- Z.add_nocarry_lor.
  - rewrite Z.shiftl_mul_pow2 by lia. reflexivity.
  - apply Z.bits_inj'. intros i Hi. rewrite Z.land_spec, Z.bits_0.
    destruct (Z.lt_ge_cases i k).
    + rewrite Z.shiftl_spec_low by lia. reflexivity.
    + replace b with (b mod 2 ^ k) by (apply Z.mod_small; lia).
      rewrite Z.mod_pow2_bits_high by lia. apply andb_false_r.
Qed.

Lemma lor_shiftl_byte a b : 0 <= b < 256 -> Z.lor (Z.shiftl a 8) b = a * 256 + b.
Proof. intros Hb. apply (lor_shiftl_low a b 8); [lia | exact Hb]. Qed.

(** The or of two [n]-bit values is an [n]-bit value. *)
Lemma lor_low_mul_pow2 a b k :
  0 <= k -> 0 <= b < 2 ^ k -> Z.lor b (a * 2 ^ k) = b + a * 2 ^ k.
Proof.
  intros Hk Hb. pose proof (lor_shiftl_low a b k Hk Hb) as E.
  rewrite Z.shiftl_mul_pow2 in E by lia. rewrite Z.lor_comm, E. lia.
Qed.

Lemma lor_bound a b n :
  0 <= a < 2 ^ n -> 0 <= b < 2 ^ n -> 0 <= Z.lor a b < 2 ^ n.
Proof.
  intros Ha Hb.
  assert (Hn : 0 <= n) by (destruct (Z.lt_ge_cases n 0); [rewrite Z.pow_neg_r in Ha by lia; lia | lia]).
  assert (E : Z.lor a b = Z.lor a b mod 2 ^ n).
  { apply Z.bits_inj'. intros i Hi. destruct (Z.lt_ge_cases i n).
    - rewrite Z.mod_pow2_bits_low by lia. reflexivity.
    - rewrite Z.mod_pow2_bits_high, Z.lor_spec by lia.
      rewrite <- (Z.mod_small a (2 ^ n)), <- (Z.mod_small b (2 ^ n)) by lia.
      rewrite !Z.mod_pow2_bits_high by lia. reflexivity. }
  rewrite E. apply Z.mod_pos_bound. lia.
Qed.

Lemma be_val_snoc l b : be_val (l ++ [b]) = Z.lor (Z.shiftl (be_val l) 8) b.
Proof. unfold be_val. rewrite fold_left_app. reflexivity. Qed.

Lemma be_val_be_bytes n x : be_val (be_bytes n x) = x mod 2 ^ (8 * Z.of_nat n).
Proof.
  revert x. induction n as [|n IH]; intros x.
  - simpl. rewrite Z.mod_1_r. reflexivity.
  - simpl be_bytes. rewrite be_val_snoc, IH, land_255, shiftr_8.
    rewrite lor_shiftl_byte by (apply Z.mod_pos_bound; lia).
    replace (8 * Z.of_nat (S n)) with (8 + 8 * Z.of_nat n) by lia.
    rewrite Z.pow_add_r by lia.
    rewrite (Z.rem_mul_r x (2 ^ 8)) by lia. change (2 ^ 8) with 256. lia.
Qed.

Lemma be_val_bound l : bytes_ok l -> 0 <= be_val l < 2 ^ (8 * Z.of_nat (length l)).
Proof.
  intros Hl. induction l as [|b l IH] using rev_ind.
  - cbv -[Z.le Z.lt]. lia.
  - apply Forall_app in Hl as [Hl Hb]. inversion Hb as [|? ? Hb' _]; subst.
    unfold is_byte in Hb'. specialize (IH Hl).
    rewrite be_val_snoc, lor_shiftl_byte by lia.
    rewrite length_app. simpl length.
    replace (8 * Z.of_nat (length l + 1)) with (8 * Z.of_nat (length l) + 8) by lia.
    rewrite Z.pow_add_r by lia. simpl (2 ^ 8). lia.
Qed.

Lemma be_val_be_bytes_small n x :
  0 <= x < 2 ^ (8 * Z.of_nat n) -> be_val (be_bytes n x) = x.
Proof. intros. rewrite be_val_be_bytes. apply Z.mod_small; lia. Qed.

Lemma read_i16_be_bytes x rest :
  read_i16 (be_bytes 2 x ++ rest) = Some (i16 x).
Proof.
  assert (Hb : be_bytes 2 x = [Z.land (Z.shiftr x 8) 255; Z.land x 255]) by reflexivity.
  rewrite Hb. simpl. rewrite <- Hb, be_val_be_bytes.
  unfold i16, wrap_s. simpl. rewrite Z.mod_mod by lia. reflexivity.
Qed.

(** The first byte [binary.Write] emits is the most significant one. *)
Lemma be_bytes_head n x :
  exists tl, be_bytes (S n) x = (x / 2 ^ (8 * Z.of_nat n)) mod 256 :: tl.
Proof.
  revert x. induction n as [|n IH]; intros x.
  - exists []. simpl. rewrite land_255, Z.div_1_r. reflexivity.
  - destruct (IH (Z.shiftr x 8)) as (tl & Htl).
    exists (tl ++ [Z.land x 255]). change (be_bytes (S (S n)) x) with (be_bytes (S n) (Z.shiftr x 8) ++ [Z.land x 255]).
    rewrite Htl, shiftr_8, Z.div_div by lia.
    replace (8 * Z.of_nat (S n)) with (8 + 8 * Z.of_nat n) by lia.
    rewrite Z.pow_add_r by lia. reflexivity.
Qed.

(** A non-negative [int32] has a first big-endian byte below [0x80]. *)
Lemma be_bytes_4_head x :
  0 <= x < 2 ^ 31 -> exists tl, be_bytes 4 x = x / 2 ^ 24 :: tl /\ 0 <= x / 2 ^ 24 < 128.
Proof.
  intros Hx. destruct (be_bytes_head 3 x) as (tl & ->). exists tl.
  change (8 * Z.of_nat 3) with 24.
  assert (0 <= x / 2 ^ 24 < 128) by (split; [apply Z.div_pos | apply Z.div_lt_upper_bound]; lia).
  rewrite Z.mod_small by lia. auto.
Qed.

(** [binary.Read] of an [int16] from two bytes. *)
Lemma read_i16_bytes h l more :
  0 <= h < 256 -> 0 <= l < 256 -> read_i16 (h :: l :: more) = Some (i16 (h * 256 + l)).
Proof.
  intros Hh Hl. unfold read_i16. f_equal. f_equal.
  change [h; l] with ([h] ++ [l]). rewrite be_val_snoc, lor_shiftl_byte by lia.
  change [h] with ([] ++ [h]). rewrite be_val_snoc, lor_shiftl_byte by lia. reflexivity.
Qed.

#[export] Hint Rewrite length_be_bytes be_val_be_bytes : ipp_rw.
#[export] Hint Resolve be_bytes_ok : ipp.

(** ** Generic lemmas: slices *)

Lemma go_slice_ok l lo hi :
  0 <= lo <= hi -> hi <= Z.of_nat (length l) ->
  go_slice l lo hi = Ok (take (Z.to_nat (hi - lo)) (drop (Z.to_nat lo) l)).
Proof.
  intros H1 H2. unfold go_slice.
  destruct (Z.leb_spec 0 lo), (Z.leb_spec lo hi), (Z.leb_spec hi (Z.of_nat (length l)));
    simpl; try lia; reflexivity.
Qed.

Lemma go_slice_bad l lo hi :
  ~ (0 <= lo <= hi /\ hi <= Z.of_nat (length l)) -> go_slice l lo hi = Panic SliceBounds.
Proof.
  intros H. unfold go_slice.
  destruct (Z.leb_spec 0 lo), (Z.leb_spec lo hi), (Z.leb_spec hi (Z.of_nat (length l)));
    simpl; try reflexivity; lia.
Qed.

Lemma go_slice_app_l l1 l2 lo hi :
  0 <= lo <= hi -> hi <= Z.of_nat (length l1) -> go_slice (l1 ++ l2) lo hi = go_slice l1 lo hi.
Proof.
  intros H1 H2. rewrite !go_slice_ok by (rewrite ?length_app; lia). f_equal.
  rewrite drop_app_le by lia. rewrite take_app_le; [reflexivity|].
  rewrite length_drop. lia.
Qed.

Lemma go_slice_suffix l1 l2 lo hi :
  lo = Z.of_nat (length l1) -> hi = Z.of_nat (length (l1 ++ l2)) ->
  go_slice (l1 ++ l2) lo hi = Ok l2.
Proof.
  intros -> ->. rewrite go_slice_ok by (rewrite ?length_app; lia). f_equal.
  rewrite Nat2Z.id, drop_app_length, length_app.
  replace (Z.to_nat _) with (length l2) by lia. apply take_ge. lia.
Qed.

(** A slice expression returns or panics with a bounds error. *)
Lemma go_slice_cases l lo hi :
  (exists s, go_slice l lo hi = Ok s) \/ go_slice l lo hi = Panic SliceBounds.
Proof. unfold go_slice. destruct (_ && _ && _); eauto. Qed.

Lemma bytes_ok_app l1 l2 : bytes_ok l1 -> bytes_ok l2 -> bytes_ok (l1 ++ l2).
Proof. intros. by apply Forall_app. Qed.

#[export] Hint Resolve bytes_ok_app : ipp.

(** ** Lists *)

(** A [for] loop over a slice that stops at the first element failing a
  test stops exactly when one element fails it. *)
Lemma forallb_false_In {A} (p : A -> bool) (l : list A) :
  forallb p l = false <-> exists x, In x l /\ p x = false.
Proof.
  induction l as [|x l IH]; cbn [forallb In].
  - split; [discriminate | intros (? & [] & _)].
  - rewrite andb_false_iff, IH. split.
    + intros [H | (y & Hy & H)]; eauto.
    + intros (y & [<- | Hy] & H); eauto.
Qed.

(** [slice_step] steps over the first slice expression of a goal
  [... = Panic SliceBounds]: either it panics, which closes the goal,
  or it returns some slice. *)
Ltac slice_step :=
  match goal with
  | |- context [go_slice ?l ?lo ?hi] =>
      let s := fresh "s" in
      destruct (go_slice_cases l lo hi) as [[s ->]| ->]; cbn [go_map go_bind]; [|reflexivity]
  end.

(** [go_simpl] unfolds the result monad on known constructors. *)
Ltac go_simpl := repeat (autorewrite with ipp_rw in *; simpl in *).

(** [go_inv] decomposes hypotheses [let? x := m in k = Ok b] into
  [m = Ok x] and [k x = Ok b], destructing tuples it binds. *)
Ltac go_inv :=
  repeat match goal with
  | H : go_bind ?m ?k = Ok _ |- _ =>
      let a := fresh "r" in
      let Hm := fresh "Hm" in
      destruct (go_bind_Ok_inv m k _ H) as (a & Hm & ?); clear H
  | p : (_ * _)%type |- _ => destruct p
  | H : Ok _ = Ok _ |- _ => injection H as H
  | H : Panic _ = Ok _ |- _ => discriminate H
  | H : context [match (?a, ?b) with _ => _ end] |- _ => cbv beta iota in H
  end.
