(* ===== verification/Scanner.v ===== *)
(** * Scanner: the byte-scanner interface the decoder relies on

  The spec's Byte Scanner is "a cursor over an immutable byte sequence
  exposing take next byte / take next N bytes". [ByteScanner] states
  the operations of such a cursor, [ByteScannerLaws] what the decoder
  needs from them: on a well-formed cursor, taking one byte returns the
  first byte of what is left (or a failure flag at the end), taking [n]
  bytes returns them when that many are left (or a failure flag and no
  move), and a negative count panics. The lemmas of the Section
  [Client] are proved against the interface only; [Utils] shows that
  the iterator of [src/utils/iter.go] implements it, and the decoder's
  proofs use the lemmas through that instance. *)

From Stdlib Require Import ZArith Lia.
From stdpp Require Import base list.
From S2P Require Import Prelude.

Local Open Scope Z_scope.
Local Open Scope go_scope.

Class ByteScanner (S : Type) := {
  sc_wf : S -> Prop;
  sc_rest : S -> list Z;
  sc_next_one : S -> goRes (Z * bool * S);
  sc_next_n : S -> Z -> goRes (list Z * bool * S)
}.

Class ByteScannerLaws (S : Type) `{ByteScanner S} := {
  next_one_law i :
    sc_wf i ->
    match sc_rest i with
    | b :: more => exists i', sc_next_one i = Ok (b, true, i') /\ sc_wf i' /\ sc_rest i' = more
    | [] => exists i', sc_next_one i = Ok (0, false, i') /\ sc_wf i' /\ sc_rest i' = []
    end;
  next_n_law i n :
    sc_wf i -> 0 <= n ->
    if n <=? Z.of_nat (length (sc_rest i))
    then exists i', sc_next_n i n = Ok (take (Z.to_nat n) (sc_rest i), true, i') /\
                    sc_wf i' /\ sc_rest i' = drop (Z.to_nat n) (sc_rest i)
    else exists i', sc_next_n i n = Ok ([], false, i') /\ sc_wf i' /\ sc_rest i' = sc_rest i;
  next_n_negative_law i n : sc_wf i -> n < 0 -> sc_next_n i n = Panic SliceBounds
}.

Section Client.

Context {T : Type} `{ByteScannerLaws T}.

(** Reading a byte the cursor is known to be in front of. *)
Lemma next_one_cons i b more :
  sc_wf i -> sc_rest i = b :: more ->
  exists i', sc_next_one i = Ok (b, true, i') /\ sc_wf i' /\ sc_rest i' = more.
Proof. intros Hw Hr. pose proof (next_one_law i Hw) as L. rewrite Hr in L. exact L. Qed.

(** At the end of the input the read fails without panicking. *)
Lemma next_one_nil i :
  sc_wf i -> sc_rest i = [] ->
  exists i', sc_next_one i = Ok (0, false, i') /\ sc_wf i' /\ sc_rest i' = [].
Proof. intros Hw Hr. pose proof (next_one_law i Hw) as L. rewrite Hr in L. exact L. Qed.

(** Reading [n] bytes the cursor is known to be in front of. *)
Lemma next_n_prefix i n l more :
  sc_wf i -> sc_rest i = l ++ more -> n = Z.of_nat (length l) ->
  exists i', sc_next_n i n = Ok (l, true, i') /\ sc_wf i' /\ sc_rest i' = more.
Proof.
  intros Hw Hr ->. pose proof (next_n_law i (Z.of_nat (length l)) Hw ltac:(lia)) as L.
  rewrite Hr, length_app in L.
  destruct (Z.leb_spec (Z.of_nat (length l)) (Z.of_nat (length l + length more))) as [_|]; [|lia].
  rewrite Nat2Z.id, take_app_length, drop_app_length in L. exact L.
Qed.

(** Asking for more bytes than are left fails without moving. *)
Lemma next_n_short i n :
  sc_wf i -> Z.of_nat (length (sc_rest i)) < n ->
  exists i', sc_next_n i n = Ok ([], false, i') /\ sc_wf i' /\ sc_rest i' = sc_rest i.
Proof.
  intros Hw Hn. pose proof (next_n_law i n Hw ltac:(lia)) as L.
  destruct (Z.leb_spec n (Z.of_nat (length (sc_rest i)))); [lia | exact L].
Qed.

(** Reading the whole input byte by byte: [k] successful reads leave
  the cursor in front of the bytes after the first [k]. *)
Fixpoint read_bytes (k : nat) (i : T) : goRes (list Z * T) :=
  match k with
  | O => Ok ([], i)
  | S k' =>
      let? '(b, ok, i') := sc_next_one i in
      if ok then let? '(bs, i'') := read_bytes k' i' in Ok (b :: bs, i'')
      else Ok ([], i')
  end.

Lemma read_bytes_prefix k i l more :
  sc_wf i -> sc_rest i = l ++ more -> length l = k ->
  exists i', read_bytes k i = Ok (l, i') /\ sc_wf i' /\ sc_rest i' = more.
Proof.
  revert i l. induction k as [|k IH]; intros i l Hw Hr Hl.
  - destruct l; [|discriminate]. exists i. auto.
  - destruct l as [|b l]; [discriminate|]. injection Hl as Hl.
    destruct (next_one_cons i b (l ++ more) Hw Hr) as (i1 & H1 & Hw1 & Hr1).
    destruct (IH i1 l Hw1 Hr1 Hl) as (i2 & H2 & Hw2 & Hr2).
    exists i2. cbn [read_bytes]. rewrite H1, go_bind_Ok. cbv beta iota. rewrite H2, go_bind_Ok. auto.
Qed.

(** Draining the cursor: reading as many bytes as are left delivers
  all of them in order, and the next read reports the end. *)
Lemma read_bytes_drain i :
  sc_wf i ->
  exists i', read_bytes (length (sc_rest i)) i = Ok (sc_rest i, i') /\
    exists i'', sc_next_one i' = Ok (0, false, i'') /\ sc_rest i'' = [].
Proof.
  intros Hw. destruct (read_bytes_prefix (length (sc_rest i)) i (sc_rest i) []
    Hw ltac:(rewrite app_nil_r; reflexivity) eq_refl) as (i' & Hr & Hw' & Hn).
  exists i'. split; [exact Hr|].
  destruct (next_one_nil i' Hw' Hn) as (i'' & H1 & _ & H2). eauto.
Qed.

End Client.
