(* ===== verification/GoBinary.v ===== *)
(** * GoBinary: the [encoding/binary] varint readers the decoder calls

  [ParseMessage] and the [UnMarshalIPP] methods of the value types read
  integers with [binary.Varint] and [binary.Uvarint] (LEB128 varints,
  zig-zag signed), not with fixed-width big-endian reads. This file
  models those two library functions exactly as Go defines them, so
  that the decoder's definitions can call them, with the lemmas the
  decoder's proofs use: one-byte varints, truncated varints and
  zig-zag decoding of small values. *)

From Stdlib Require Import ZArith Lia.
From stdpp Require Import base list.
From S2P Require Import Prelude.

Local Open Scope Z_scope.

(** [binary.Uvarint]: the loop over [buf] with index [i], shift [s] and
  accumulator [x] (a [uint64]). It returns [(0, 0)] when the buffer ends
  before a byte below [0x80], and [(0, -(i+1))] on overflow. *)
Fixpoint uvarint_loop (buf : list Z) (i s x : Z) : Z * Z :=
  match buf with
  | [] => (0, 0)
  | b :: rest =>
      if i =? 10 then (0, - (i + 1))
      else if b <? 128 then
        if (i =? 9) && (1 <? b) then (0, - (i + 1))
        else (Z.lor x (wrap_u 64 (Z.shiftl b s)), i + 1)
      else uvarint_loop rest (i + 1) (s + 7)
             (Z.lor x (wrap_u 64 (Z.shiftl (Z.land b 127) s)))
  end.

Definition Uvarint (buf : list Z) : Z * Z := uvarint_loop buf 0 0 0.

(** [binary.Varint]: zig-zag decoding of the unsigned varint. *)
Definition Varint (buf : list Z) : Z * Z :=
  let (ux, n) := Uvarint buf in
  let x := Z.shiftr ux 1 in
  (if Z.odd ux then Z.lnot x else x, n).

(** Zig-zag decoding of a small value, the form the lemmas state. *)
Definition zigzag (u : Z) : Z := if Z.odd u then - (u / 2) - 1 else u / 2.

Lemma Uvarint_small b rest : 0 <= b < 128 -> Uvarint (b :: rest) = (b, 1).
Proof.
  intros Hb. unfold Uvarint; simpl.
  destruct (Z.ltb_spec b 128); [|lia]. simpl.
  rewrite Z.shiftl_0_r, wrap_u_small by (simpl; lia). reflexivity.
Qed.

Lemma Uvarint_incomplete b : 128 <= b < 256 -> Uvarint [b] = (0, 0).
Proof.
  intros Hb. unfold Uvarint; simpl. destruct (Z.ltb_spec b 128); [lia|]. reflexivity.
Qed.

Lemma Uvarint_nil : Uvarint [] = (0, 0).
Proof. reflexivity. Qed.

Lemma Varint_small b rest : 0 <= b < 128 -> fst (Varint (b :: rest)) = zigzag b.
Proof.
  intros Hb. unfold Varint. rewrite Uvarint_small by lia. simpl fst.
  unfold zigzag. rewrite Z.shiftr_div_pow2 by lia. change (2 ^ 1) with 2.
  destruct (Z.odd b); [|reflexivity]. rewrite Z.lnot_eq_pred_opp. lia.
Qed.

Lemma Varint_incomplete b : 128 <= b < 256 -> fst (Varint [b]) = 0.
Proof. intros Hb. unfold Varint. rewrite Uvarint_incomplete by lia. reflexivity. Qed.

Lemma Varint_nil : fst (Varint []) = 0.
Proof. reflexivity. Qed.

#[export] Hint Rewrite Varint_nil : ipp_rw.

Lemma zigzag_bound u : 0 <= u < 128 -> -64 <= zigzag u < 64.
Proof.
  intros Hu. unfold zigzag.
  pose proof (Z.div_pos u 2 ltac:(lia) ltac:(lia)). pose proof (Z.div_lt_upper_bound u 2 64 ltac:(lia) ltac:(lia)).
  destruct (Z.odd u); lia.
Qed.

(** An odd varint payload decodes to a negative number. *)
Lemma zigzag_odd_neg u : 0 <= u -> Z.odd u = true -> zigzag u < 0.
Proof. intros Hu Ho. unfold zigzag. rewrite Ho. pose proof (Z.div_pos u 2 ltac:(lia) ltac:(lia)). lia. Qed.

Lemma zigzag_even u : Z.odd u = false -> zigzag u = u / 2.
Proof. intros Ho. unfold zigzag. rewrite Ho. reflexivity. Qed.
