(* ===== verification/Tags.v ===== *)
(** * Tags: the tag registry of [src/ipp/constants.go] and the delimiter
  classification [checkGroupTag] of [src/ipp/unMarshall.go]

  The constants are the one-byte delimiter tags (attribute-group
  boundaries, end of attributes) and value tags (attribute syntaxes),
  plus the version, the operation ids the request builders use and the
  tables of operation ids, CUPS operation ids, status codes and the
  other enums of the file (finishings, orientations, qualities, job,
  printer and parser states, CUPS printer-type bits), which no code
  path reads.
  [checkGroupTag] is the decoder's only classification of a tag byte:
  it answers a status string and whether the byte opens a new group. *)

From Stdlib Require Import ZArith Lia String.
From stdpp Require Import base list.
From S2P Require Import Prelude.

Local Open Scope Z_scope.

Module Tags.

(** Version written by [newMessage]. *)
Definition MAJOR_VERSION : Z := 0x02.
Definition MINOR_VERSION : Z := 0x01.

(** Delimiter tags (constants.go, 3.5.1). *)
Definition TAG_ZERO : Z := 0x00.
Definition TAG_OPERATION : Z := 0x01.
Definition TAG_JOB : Z := 0x02.
Definition TAG_END : Z := 0x03.
Definition TAG_PRINTER : Z := 0x04.
Definition TAG_UNSUPPORTED_GROUP : Z := 0x05.
Definition TAG_SUBSCRIPTION : Z := 0x06.
Definition TAG_EVENT_NOTIFICATION : Z := 0x07.
Definition TAG_DOCUMENT_ATTRIBUTES : Z := 0x09.

(** Value tags. *)
Definition TAG_UNSUPPORTED_VALUE : Z := 0x10.
Definition TAG_DEFAULT : Z := 0x11.
Definition TAG_UNKNOWN : Z := 0x12.
Definition TAG_NOVALUE : Z := 0x13.
Definition TAG_NOTSETTABLE : Z := 0x15.
Definition TAG_DELETEATTR : Z := 0x16.
Definition TAG_ADMINDEFINE : Z := 0x17.
Definition TAG_INTEGER : Z := 0x21.
Definition TAG_BOOLEAN : Z := 0x22.
Definition TAG_ENUM : Z := 0x23.
Definition TAG_STRING : Z := 0x30.
Definition TAG_DATE : Z := 0x31.
Definition TAG_RESOLUTION : Z := 0x32.
Definition TAG_RANGE : Z := 0x33.
Definition TAG_BEGIN_COLLECTION : Z := 0x34.
Definition TAG_TEXTLANG : Z := 0x35.
Definition TAG_NAMELANG : Z := 0x36.
Definition TAG_END_COLLECTION : Z := 0x37.
Definition TAG_TEXT : Z := 0x41.
Definition TAG_NAME : Z := 0x42.
Definition TAG_KEYWORD : Z := 0x44.
Definition TAG_URI : Z := 0x45.
Definition TAG_URISCHEME : Z := 0x46.
Definition TAG_CHARSET : Z := 0x47.
Definition TAG_LANGUAGE : Z := 0x48.
Definition TAG_MIMETYPE : Z := 0x49.
Definition TAG_MEMBERNAME : Z := 0x4a.

(** Operation ids used by the request builders of [cups.go]. *)
Definition PRINT_JOB : Z := 0x0002.
Definition GET_PRINTER_ATTRIBUTES : Z := 0x000b.
Definition PAUSE_PRINTER : Z := 0x0010.
Definition CUPS_GET_PRINTERS : Z := 0x4002.

(** The operation ids, CUPS operation ids and status codes of
  constants.go, by name. *)
Definition operation_ids : list (string * Z) :=
  [("PRINT_JOB", 0x0002);
   ("PRINT_URI", 0x0003);
   ("VALIDATE_JOB", 0x0004);
   ("CREATE_JOB", 0x0005);
   ("SEND_DOCUMENT", 0x0006);
   ("SEND_URI", 0x0007);
   ("CANCEL_JOB", 0x0008);
   ("GET_JOB_ATTRIBUTES", 0x0009);
   ("GET_JOBS", 0x000a);
   ("GET_PRINTER_ATTRIBUTES", 0x000b);
   ("HOLD_JOB", 0x000c);
   ("RELEASE_JOB", 0x000d);
   ("RESTART_JOB", 0x000e);
   ("PAUSE_PRINTER", 0x0010);
   ("RESUME_PRINTER", 0x0011);
   ("PURGE_JOBS", 0x0012);
   ("SET_PRINTER_ATTRIBUTES", 0x0013);
   ("SET_JOB_ATTRIBUTES", 0x0014);
   ("GET_PRINTER_SUPPORTED_VALUES", 0x0015);
   ("CREATE_PRINTER_SUBSCRIPTION", 0x0016);
   ("CREATE_JOB_SUBSCRIPTION", 0x0017);
   ("GET_SUBSCRIPTION_ATTRIBUTES", 0x0018);
   ("GET_SUBSCRIPTIONS", 0x0019);
   ("RENEW_SUBSCRIPTION", 0x001a);
   ("CANCEL_SUBSCRIPTION", 0x001b);
   ("GET_NOTIFICATIONS", 0x001c);
   ("SEND_NOTIFICATIONS", 0x001d);
   ("GET_PRINT_SUPPORT_FILES", 0x0021);
   ("ENABLE_PRINTER", 0x0022);
   ("DISABLE_PRINTER", 0x0023);
   ("PAUSE_PRINTER_AFTER_CURRENT_JOB", 0x0024);
   ("HOLD_NEW_JOBS", 0x0025);
   ("RELEASE_HELD_NEW_JOBS", 0x0026);
   ("DEACTIVATE_PRINTER", 0x0027);
   ("ACTIVATE_PRINTER", 0x0028);
   ("RESTART_PRINTER", 0x0029);
   ("SHUTDOWN_PRINTER", 0x002a);
   ("STARTUP_PRINTER", 0x002b);
   ("REPROCESS_JOB", 0x002c);
   ("CANCEL_CURRENT_JOB", 0x002d);
   ("SUSPEND_CURRENT_JOB", 0x002e);
   ("RESUME_JOB", 0x002f);
   ("PROMOTE_JOB", 0x0030);
   ("SCHEDULE_JOB_AFTER", 0x0031);
   ("PRIVATE", 0x4000)]%string.

Definition cups_operation_ids : list (string * Z) :=
  [("CUPS_GET_DEFAULT", 0x4001);
   ("CUPS_GET_PRINTERS", 0x4002);
   ("CUPS_ADD_PRINTER", 0x4003);
   ("CUPS_DELETE_PRINTER", 0x4004);
   ("CUPS_GET_CLASSES", 0x4005);
   ("CUPS_ADD_CLASS", 0x4006);
   ("CUPS_DELETE_CLASS", 0x4007);
   ("CUPS_ACCEPT_JOBS", 0x4008);
   ("CUPS_REJECT_JOBS", 0x4009);
   ("CUPS_SET_DEFAULT", 0x400a);
   ("CUPS_GET_DEVICES", 0x400b);
   ("CUPS_GET_PPDS", 0x400c);
   ("CUPS_MOVE_JOB", 0x400d);
   ("CUPS_AUTHENTICATE_JOB", 0x400e)]%string.

Definition status_codes : list (string * Z) :=
  [("OK", 0x0000);
   ("OK_SUBST", 0x0001);
   ("OK_CONFLICT", 0x0002);
   ("OK_IGNORED_SUBSCRIPTIONS", 0x0003);
   ("OK_IGNORED_NOTIFICATIONS", 0x0004);
   ("OK_TOO_MANY_EVENTS", 0x0005);
   ("OK_BUT_CANCEL_SUBSCRIPTION", 0x0006);
   ("REDIRECTION_OTHER_SITE", 0x0300);
   ("BAD_REQUEST", 0x0400);
   ("FORBIDDEN", 0x0401);
   ("NOT_AUTHENTICATED", 0x0402);
   ("NOT_AUTHORIZED", 0x0403);
   ("NOT_POSSIBLE", 0x0404);
   ("TIMEOUT", 0x0405);
   ("NOT_FOUND", 0x0406);
   ("GONE", 0x0407);
   ("REQUEST_ENTITY", 0x0408);
   ("REQUEST_VALUE", 0x0409);
   ("DOCUMENT_FORMAT", 0x040a);
   ("ATTRIBUTES", 0x040b);
   ("URI_SCHEME", 0x040c);
   ("CHARSET", 0x040d);
   ("CONFLICT", 0x040e);
   ("COMPRESSION_NOT_SUPPORTED", 0x040f);
   ("COMPRESSION_ERROR", 0x0410);
   ("DOCUMENT_FORMAT_ERROR", 0x0411);
   ("DOCUMENT_ACCESS_ERROR", 0x0412);
   ("ATTRIBUTES_NOT_SETTABLE", 0x0413);
   ("IGNORED_ALL_SUBSCRIPTIONS", 0x0414);
   ("TOO_MANY_SUBSCRIPTIONS", 0x0415);
   ("IGNORED_ALL_NOTIFICATIONS", 0x0416);
   ("PRINT_SUPPORT_FILE_NOT_FOUND", 0x0417);
   ("INTERNAL_ERROR", 0x0500);
   ("OPERATION_NOT_SUPPORTED", 0x0501);
   ("SERVICE_UNAVAILABLE", 0x0502);
   ("VERSION_NOT_SUPPORTED", 0x0503);
   ("DEVICE_ERROR", 0x0504);
   ("TEMPORARY_ERROR", 0x0505);
   ("NOT_ACCEPTING", 0x0506);
   ("PRINTER_BUSY", 0x0507);
   ("ERROR_JOB_CANCELLED", 0x0508);
   ("MULTIPLE_JOBS_NOT_SUPPORTED", 0x0509);
   ("PRINTER_IS_DEACTIVATED", 0x50a)]%string.

(** [finishings] enum values. *)
Definition finishings : list (string * Z) :=
  [("FINISHINGS_NONE", 3);
   ("FINISHINGS_STAPLE", 4);
   ("FINISHINGS_PUNCH", 5);
   ("FINISHINGS_COVER", 6);
   ("FINISHINGS_BIND", 7);
   ("FINISHINGS_SADDLE_STITCH", 8);
   ("FINISHINGS_EDGE_STITCH", 9);
   ("FINISHINGS_FOLD", 10);
   ("FINISHINGS_TRIM", 11);
   ("FINISHINGS_BALE", 12);
   ("FINISHINGS_BOOKLET_MAKER", 13);
   ("FINISHINGS_JOB_OFFSET", 14);
   ("FINISHINGS_STAPLE_TOP_LEFT", 20);
   ("FINISHINGS_STAPLE_BOTTOM_LEFT", 21);
   ("FINISHINGS_STAPLE_TOP_RIGHT", 22);
   ("FINISHINGS_STAPLE_BOTTOM_RIGHT", 23);
   ("FINISHINGS_EDGE_STITCH_LEFT", 24);
   ("FINISHINGS_EDGE_STITCH_TOP", 25);
   ("FINISHINGS_EDGE_STITCH_RIGHT", 26);
   ("FINISHINGS_EDGE_STITCH_BOTTOM", 27);
   ("FINISHINGS_STAPLE_DUAL_LEFT", 28);
   ("FINISHINGS_STAPLE_DUAL_TOP", 29);
   ("FINISHINGS_STAPLE_DUAL_RIGHT", 30);
   ("FINISHINGS_STAPLE_DUAL_BOTTOM", 31);
   ("FINISHINGS_BIND_LEFT", 50);
   ("FINISHINGS_BIND_TOP", 51);
   ("FINISHINGS_BIND_RIGHT", 52);
   ("FINISHINGS_BIND_BOTTO", 53)]%string.

(** [orientation-requested] enum values. *)
Definition orientations : list (string * Z) :=
  [("PORTRAIT", 3);
   ("LANDSCAPE", 4);
   ("REVERSE_LANDSCAPE", 5);
   ("REVERSE_PORTRAIT", 6)]%string.

(** [print-quality] enum values. *)
Definition print_qualities : list (string * Z) :=
  [("QUALITY_DRAFT", 3);
   ("QUALITY_NORMAL", 4);
   ("QUALITY_HIGH", 5)]%string.

(** [job-state] enum values. *)
Definition job_states : list (string * Z) :=
  [("JOB_PENDING", 3);
   ("JOB_HELD", 4);
   ("JOB_PROCESSING", 5);
   ("JOB_STOPPED", 6);
   ("JOB_CANCELLED", 7);
   ("JOB_ABORTED", 8);
   ("JOB_COMPLETE", 9)]%string.

(** [printer-state] enum values. *)
Definition printer_states : list (string * Z) :=
  [("PRINTER_IDLE", 3);
   ("PRINTER_PROCESSING", 4);
   ("PRINTER_STOPPED", 5)]%string.

(** Parser states. *)
Definition parser_states : list (string * Z) :=
  [("ERROR", (-1));
   ("IDLE", 0);
   ("HEADER", 1);
   ("ATTRIBUTE", 2);
   ("DATA", 3)]%string.

(** CUPS printer-type bits ([cups_ptype_t]). *)
Definition cups_printer_flags : list (string * Z) :=
  [("CUPS_PRINTER_LOCAL", 0x0000);
   ("CUPS_PRINTER_CLASS", 0x0001);
   ("CUPS_PRINTER_REMOTE", 0x0002);
   ("CUPS_PRINTER_BW", 0x0004);
   ("CUPS_PRINTER_COLOR", 0x0008);
   ("CUPS_PRINTER_DUPLEX", 0x0010);
   ("CUPS_PRINTER_STAPLE", 0x0020);
   ("CUPS_PRINTER_COPIES", 0x0040);
   ("CUPS_PRINTER_COLLATE", 0x0080);
   ("CUPS_PRINTER_PUNCH", 0x0100);
   ("CUPS_PRINTER_COVER", 0x0200);
   ("CUPS_PRINTER_BIND", 0x0400);
   ("CUPS_PRINTER_SORT", 0x0800);
   ("CUPS_PRINTER_SMALL", 0x1000);
   ("CUPS_PRINTER_MEDIUM", 0x2000);
   ("CUPS_PRINTER_LARGE", 0x4000);
   ("CUPS_PRINTER_VARIABLE", 0x8000);
   ("CUPS_PRINTER_IMPLICIT", 0x1000);
   ("CUPS_PRINTER_DEFAULT", 0x2000);
   ("CUPS_PRINTER_FAX", 0x4000);
   ("CUPS_PRINTER_REJECTING", 0x8000);
   ("CUPS_PRINTER_DELETE", 0x1000);
   ("CUPS_PRINTER_NOT_SHARED", 0x2000);
   ("CUPS_PRINTER_AUTHENTICATED", 0x4000);
   ("CUPS_PRINTER_COMMANDS", 0x8000);
   ("CUPS_PRINTER_OPTIONS", 0xe6ff)]%string.

(** Port and size limits. *)
Definition misc_constants : list (string * Z) :=
  [("PORT", 631);
   ("MAX_NAME", 256);
   ("MAX_VALUES", 8)]%string.

(** Tag masks and resolution units. *)
Definition TAG_MASK : Z := 0x7fffffff.
Definition TAG_COPY : Z := -0x7fffffff - 1.
Definition RES_PER_INCH : Z := 3.
Definition RES_PER_CM : Z := 4.

(** [checkGroupTag b]: the switch over the nine assigned group tags.
  The second component ("err" in the source) is [true] exactly when the
  byte is treated as a delimiter. *)
Definition checkGroupTag (b : Z) : string * bool :=
  if b =? 0x01 then ("TAG_OPERATION"%string, true)
  else if b =? 0x02 then ("TAG_JOB"%string, true)
  else if b =? 0x03 then ("TAG_END"%string, true)
  else if b =? 0x04 then ("TAG_PRINTER"%string, true)
  else if b =? 0x05 then ("TAG_UNSUPPORTED_GROUP"%string, true)
  else if b =? 0x06 then ("TAG_SUBSCRIPTION"%string, true)
  else if b =? 0x07 then ("TAG_EVENT_NOTIFICATION"%string, true)
  else if b =? 0x08 then ("0x08"%string, true)
  else if b =? 0x09 then ("TAG_DOCUMENT_ATTRIBUTES"%string, true)
  else (""%string, false).

(** The delimiter test the decoder uses. *)
Definition is_delimiter (b : Z) : bool := snd (checkGroupTag b).

(** [typeCheck] of ippMsg.go: the numeric-range test [ParseMessage] uses
  to set [IsResponse]. *)
Definition typeCheck (i : Z) : bool := (0x0000 <=? i) && (i <=? 0x7FFF).

(** C30. The decoder's delimiter set: a byte opens a new group exactly when
  it is one of 0x01..0x09. The spec's delimiter range is 0x00..0x0F:
  the reserved 0x00 and 0x0A..0x0F are read as value tags. *)
Theorem is_delimiter_spec b : is_delimiter b = true <-> 1 <= b <= 9.
Proof.
  unfold is_delimiter, checkGroupTag.
  repeat match goal with
  | |- context [if ?b0 =? ?k then _ else _] =>
      destruct (Z.eqb_spec b0 k); [subst; simpl; split; [lia | reflexivity]|]
  end.
  simpl. split; [discriminate | lia].
Qed.

End Tags.
