(* ===== verification/Utils.v ===== *)
(** * Utils: the byte scanner ([src/utils/iter.go]) and the step counter
  ([src/utils/util.go]) used by the decoder

  [iterator] is a cursor over an immutable byte slice: [mark] is the
  position of the next byte, [markEnd] the length of the slice,
  [bRemaining] the bytes left, [dBug] a one-shot flag that makes the next
  read dump the rest of the buffer (logging only, but its slice
  expression is evaluated). The counter is a [current] value advanced by
  [by]; the decoder only uses it to decide whether an attribute is the
  first of its group, through [Start] and [GTEq] on the counting fields
  ([counter]). The whole struct ([tcounter]) adds the start, end and
  stop times and the callback [Lp] stores; the clock is an input of
  [Start] and [Finished]. All are records with explicit state passing:
  every method returns its result with the new record. The
  iterator is an instance of the [ByteScanner] interface of [Scanner],
  whose client lemmas give its liveness: byte reads drain it. *)

From Stdlib Require Import ZArith Lia.
From stdpp Require Import base list.
From S2P Require Import Prelude Scanner.

Local Open Scope Z_scope.
Local Open Scope go_scope.

Module Iterator.

Record iterator := mkIter {
  mark : Z;
  markEnd : Z;
  bRemaining : Z;
  srcIn : list Z;
  dBug : bool
}.

Definition NewIterator (b : list Z) : iterator :=
  mkIter 0 (Z.of_nat (length b)) (Z.of_nat (length b)) b false.

Definition DeBug (i : iterator) : iterator :=
  mkIter (mark i) (markEnd i) (bRemaining i) (srcIn i) true.

(** [deBug]: evaluates [i.srcIn[i.mark:]], prints it, clears the flag. *)
Definition deBug (i : iterator) : goRes iterator :=
  let? _ := go_slice (srcIn i) (mark i) (Z.of_nat (length (srcIn i))) in
  Ok (mkIter (mark i) (markEnd i) (bRemaining i) (srcIn i) false).

Definition pre_read (i : iterator) : goRes iterator :=
  if dBug i then deBug i else Ok i.

(** The cursor after consuming [n] bytes. *)
Definition advance (i : iterator) (n : Z) : iterator :=
  mkIter (mark i + n) (markEnd i) (bRemaining i - n) (srcIn i) (dBug i).

Definition GetNextOne (i0 : iterator) : goRes (Z * bool * iterator) :=
  let? i := pre_read i0 in
  if mark i + 1 <=? markEnd i then
    let? f := go_index (srcIn i) (mark i) in
    Ok (f, true, advance i 1)
  else Ok (0, false, i).

Definition GetNextN (i0 : iterator) (it : Z) : goRes (list Z * bool * iterator) :=
  let? i := pre_read i0 in
  if mark i + it <? markEnd i then
    let? s := go_slice (srcIn i) (mark i) (mark i + it) in
    Ok (s, true, advance i it)
  else if markEnd i <? mark i + it then Ok ([], false, i)
  else
    let? s := go_slice (srcIn i) (mark i) (mark i + it) in
    Ok (s, true, advance i it).

(** The scanner invariant: the cursor is inside the slice, the end mark
  is the slice length and [bRemaining] counts the bytes left. *)
Definition iter_wf (i : iterator) : Prop :=
  0 <= mark i <= markEnd i /\ markEnd i = Z.of_nat (length (srcIn i)) /\
  bRemaining i = markEnd i - mark i.

(** The bytes not yet consumed. *)
Definition rest (i : iterator) : list Z := drop (Z.to_nat (mark i)) (srcIn i).

Definition remaining (i : iterator) : Z := markEnd i - mark i.

Lemma pre_read_wf i : iter_wf i ->
  exists i', pre_read i = Ok i' /\ iter_wf i' /\ mark i' = mark i /\
    srcIn i' = srcIn i /\ markEnd i' = markEnd i.
Proof.
  intros (H1 & H2 & H3). unfold pre_read, deBug.
  destruct (dBug i).
  - rewrite go_slice_ok by lia. simpl. eexists; split; [reflexivity|].
    unfold iter_wf; simpl; repeat split; lia.
  - eexists; split; [reflexivity|]. unfold iter_wf; repeat split; lia.
Qed.

Lemma NewIterator_wf b : iter_wf (NewIterator b).
Proof. unfold iter_wf, NewIterator; simpl; lia. Qed.

Lemma advance_wf i n : iter_wf i -> 0 <= n -> mark i + n <= markEnd i -> iter_wf (advance i n).
Proof. unfold iter_wf, advance; simpl; lia. Qed.

Lemma rest_NewIterator b : rest (NewIterator b) = b.
Proof. reflexivity. Qed.

(** The iterator with the debug flag cleared: what a read leaves. *)
Definition quiet (i : iterator) : iterator :=
  mkIter (mark i) (markEnd i) (bRemaining i) (srcIn i) false.

Lemma pre_read_quiet i : iter_wf i -> pre_read i = Ok (quiet i).
Proof.
  intros (H1 & H2 & H3). destruct i as [m e r s [|]]; unfold pre_read, deBug; simpl in *.
  - rewrite go_slice_ok by lia. reflexivity.
  - reflexivity.
Qed.

Lemma quiet_wf i : iter_wf i -> iter_wf (quiet i).
Proof. unfold iter_wf, quiet; simpl; lia. Qed.

Lemma length_rest i : iter_wf i -> Z.of_nat (length (rest i)) = remaining i.
Proof. intros (H1 & H2 & H3). unfold rest, remaining. rewrite length_drop. lia. Qed.

Lemma rest_advance i n :
  iter_wf i -> 0 <= n -> rest (advance i n) = drop (Z.to_nat n) (rest i).
Proof.
  intros Hwf Hn. destruct Hwf as (H1 & _). unfold rest, advance; simpl.
  rewrite drop_drop. f_equal. lia.
Qed.

Lemma rest_quiet i : rest (quiet i) = rest i.
Proof. reflexivity. Qed.

Lemma remaining_advance i n : remaining (advance i n) = remaining i - n.
Proof. unfold remaining, advance; simpl. lia. Qed.

Lemma remaining_quiet i : remaining (quiet i) = remaining i.
Proof. reflexivity. Qed.

#[export] Hint Resolve NewIterator_wf advance_wf quiet_wf : ipp.
#[export] Hint Rewrite rest_quiet remaining_quiet remaining_advance : ipp_rw.

Lemma GetNextOne_eq i :
  iter_wf i ->
  GetNextOne i = match rest i with
                 | b :: _ => Ok (b, true, advance (quiet i) 1)
                 | [] => Ok (0, false, quiet i)
                 end.
Proof.
  intros Hwf. pose proof (length_rest i Hwf) as Hlen.
  destruct Hwf as (H1 & H2 & H3).
  unfold GetNextOne. rewrite pre_read_quiet by (repeat split; lia). simpl.
  unfold remaining, rest in *.
  destruct (Z.leb_spec (mark i + 1) (markEnd i)).
  - destruct (lookup_lt_is_Some_2 (srcIn i) (Z.to_nat (mark i))) as [x Hx]; [lia|].
    rewrite (drop_S _ x) by exact Hx.
    unfold go_index. destruct (Z.leb_spec 0 (mark i)), (Z.ltb_spec (mark i) (Z.of_nat (length (srcIn i)))); try lia.
    simpl. erewrite nth_lookup_Some by exact Hx. reflexivity.
  - rewrite drop_ge by lia. reflexivity.
Qed.

Lemma GetNextN_eq i n :
  iter_wf i -> 0 <= n ->
  GetNextN i n = if n <=? remaining i
                 then Ok (take (Z.to_nat n) (rest i), true, advance (quiet i) n)
                 else Ok ([], false, quiet i).
Proof.
  intros Hwf Hn. destruct Hwf as (H1 & H2 & H3).
  unfold GetNextN. rewrite pre_read_quiet by (repeat split; lia). simpl.
  unfold remaining, rest.
  destruct (Z.ltb_spec (mark i + n) (markEnd i)).
  - rewrite go_slice_ok by lia. simpl.
    destruct (Z.leb_spec n (markEnd i - mark i)); [|lia].
    replace (mark i + n - mark i) with n by lia. reflexivity.
  - destruct (Z.ltb_spec (markEnd i) (mark i + n)).
    + destruct (Z.leb_spec n (markEnd i - mark i)); [lia|]. reflexivity.
    + rewrite go_slice_ok by lia. simpl.
      destruct (Z.leb_spec n (markEnd i - mark i)); [|lia].
      replace (mark i + n - mark i) with n by lia. reflexivity.
Qed.

Lemma GetNextN_neg i n :
  iter_wf i -> n < 0 -> GetNextN i n = Panic SliceBounds.
Proof.
  intros Hwf Hn. destruct Hwf as (H1 & H2 & H3).
  unfold GetNextN. rewrite pre_read_quiet by (repeat split; lia). simpl.
  destruct (Z.ltb_spec (mark i + n) (markEnd i)); [|lia].
  rewrite go_slice_bad by lia. reflexivity.
Qed.

(** [GetNextOne] never panics on a well-formed cursor: it returns the
  next byte and advances by one, or [(0, false)] at the end. *)
Lemma GetNextOne_spec i :
  iter_wf i ->
  GetNextOne i = match rest i with
                 | b :: _ => Ok (b, true, advance (quiet i) 1)
                 | [] => Ok (0, false, quiet i)
                 end.
Proof. exact (GetNextOne_eq i). Qed.

(** [GetNextN] with a non-negative count: the next [n] bytes when that
  many remain, otherwise [(nil, false)] and no move. *)
Lemma GetNextN_spec i n :
  iter_wf i -> 0 <= n ->
  GetNextN i n = if n <=? remaining i
                 then Ok (take (Z.to_nat n) (rest i), true, advance (quiet i) n)
                 else Ok ([], false, quiet i).
Proof. exact (GetNextN_eq i n). Qed.

(** A negative count makes the slice expression [srcIn[mark:mark+it]]
  invert its bounds: the read panics. *)
Lemma GetNextN_negative i n :
  iter_wf i -> n < 0 -> GetNextN i n = Panic SliceBounds.
Proof. exact (GetNextN_neg i n). Qed.

Lemma GetNextOne_spec_witness :
  GetNextOne (NewIterator [7; 8]) =
    match rest (NewIterator [7; 8]) with
    | b :: _ => Ok (b, true, advance (quiet (NewIterator [7; 8])) 1)
    | [] => Ok (0, false, quiet (NewIterator [7; 8]))
    end.
Proof. apply GetNextOne_spec. apply NewIterator_wf. Defined.

Lemma GetNextN_spec_witness :
  GetNextN (NewIterator [1; 2; 3]) 2 =
    (if 2 <=? remaining (NewIterator [1; 2; 3])
     then Ok (take (Z.to_nat 2) (rest (NewIterator [1; 2; 3])), true,
              advance (quiet (NewIterator [1; 2; 3])) 2)
     else Ok ([], false, quiet (NewIterator [1; 2; 3]))).
Proof. apply GetNextN_spec; [apply NewIterator_wf | lia]. Defined.

Lemma GetNextN_negative_witness :
  GetNextN (NewIterator [1; 2; 3]) (-1) = Panic SliceBounds.
Proof. apply GetNextN_negative; [apply NewIterator_wf | lia]. Defined.

(** What a sequence of reads does to a cursor: same slice, the cursor
  only moves forward, the invariant holds. *)
Definition consumed (i i' : iterator) : Prop :=
  iter_wf i' /\ srcIn i' = srcIn i /\ markEnd i' = markEnd i /\ mark i <= mark i'.

Lemma consumed_refl i : iter_wf i -> consumed i i.
Proof. intros H. split; [exact H|]. repeat split; lia. Qed.

Lemma consumed_trans i1 i2 i3 : consumed i1 i2 -> consumed i2 i3 -> consumed i1 i3.
Proof.
  intros (H1 & H2 & H3 & H4) (H5 & H6 & H7 & H8).
  split; [exact H5|]. repeat split; [congruence | congruence | lia].
Qed.

Lemma DeBug_wf i : iter_wf i -> iter_wf (DeBug i).
Proof. unfold iter_wf, DeBug; simpl; lia. Qed.

Lemma DeBug_consumed i i' : consumed (DeBug i) i' -> consumed i i'.
Proof. unfold consumed. destruct i; simpl. tauto. Qed.

Lemma GetNextOne_consumed i b ok i' :
  iter_wf i -> GetNextOne i = Ok (b, ok, i') ->
  consumed i i' /\ (ok = true -> mark i' = mark i + 1) /\ (ok = false -> b = 0).
Proof.
  intros Hwf H. rewrite (GetNextOne_eq i Hwf) in H.
  pose proof (length_rest i Hwf) as Hl. destruct Hwf as (H1 & H2 & H3).
  unfold consumed, iter_wf, remaining in *.
  destruct (rest i) eqn:E; injection H as <- <- <-; simpl in *; repeat split;
    try lia; discriminate.
Qed.

Lemma GetNextN_consumed i n x ok i' :
  iter_wf i -> GetNextN i n = Ok (x, ok, i') -> consumed i i'.
Proof.
  intros Hwf H. destruct (Z.lt_ge_cases n 0).
  - rewrite GetNextN_neg in H by assumption. discriminate.
  - rewrite (GetNextN_eq i n Hwf) in H by assumption.
    destruct Hwf as (H1 & H2 & H3). unfold consumed, iter_wf, remaining in *.
    destruct (Z.leb_spec n (markEnd i - mark i)); injection H as <- <- <-; simpl; repeat split; lia.
Qed.

#[export] Hint Resolve consumed_refl DeBug_wf : ipp.

Lemma rest_DeBug i : rest (DeBug i) = rest i.
Proof. reflexivity. Qed.

(** ** The iterator implements the byte-scanner interface *)

#[export] Instance iterator_scanner : ByteScanner iterator := {|
  sc_wf := iter_wf;
  sc_rest := rest;
  sc_next_one := GetNextOne;
  sc_next_n := GetNextN
|}.

#[export] Instance iterator_scanner_laws : ByteScannerLaws iterator.
Proof.
  split; cbn [sc_wf sc_rest sc_next_one sc_next_n iterator_scanner].
  - intros i Hw. pose proof (length_rest i Hw) as Hl. rewrite (GetNextOne_eq i Hw).
    destruct (rest i) as [|b more] eqn:Hr; eexists; (split; [reflexivity|]).
    + split; [apply quiet_wf, Hw | rewrite rest_quiet; exact Hr].
    + split.
      * apply advance_wf; [apply quiet_wf, Hw | lia |]. simpl in Hl. unfold remaining in Hl. simpl. lia.
      * rewrite rest_advance by (apply quiet_wf, Hw || lia). rewrite rest_quiet, Hr. reflexivity.
  - intros i n Hw Hn. pose proof (length_rest i Hw) as Hl. rewrite (GetNextN_eq i n Hw Hn), Hl.
    destruct (Z.leb_spec n (remaining i)); eexists; (split; [reflexivity|]).
    + split; [apply advance_wf; [apply quiet_wf, Hw | lia | unfold remaining in *; simpl; lia]|].
      rewrite rest_advance by (apply quiet_wf, Hw || lia). rewrite rest_quiet. reflexivity.
    + split; [apply quiet_wf, Hw | apply rest_quiet].
  - exact GetNextN_neg.
Qed.

(** The two reads the decoder's proofs use, through the interface. *)
Lemma GetNextOne_cons i b more :
  iter_wf i -> rest i = b :: more ->
  exists i', GetNextOne i = Ok (b, true, i') /\ iter_wf i' /\ rest i' = more.
Proof. exact (next_one_cons i b more). Qed.

Lemma GetNextN_prefix i n l more :
  iter_wf i -> rest i = l ++ more -> n = Z.of_nat (length l) ->
  exists i', GetNextN i n = Ok (l, true, i') /\ iter_wf i' /\ rest i' = more.
Proof. exact (next_n_prefix i n l more). Qed.

(** C32. A fresh iterator is drained by byte reads: for every input,
  [length b] calls of [GetNextOne] return every byte of [b] in order,
  and the call after them reports the end of the input (false, no
  panic). *)
Theorem GetNextOne_drains b :
  exists i', read_bytes (length b) (NewIterator b) = Ok (b, i') /\
    exists i'', GetNextOne i' = Ok (0, false, i'') /\ rest i'' = [].
Proof.
  pose proof (read_bytes_drain (NewIterator b) (NewIterator_wf b)) as H.
  cbn [sc_rest iterator_scanner] in H. rewrite rest_NewIterator in H. exact H.
Qed.

End Iterator.

Module Counter.

(** The timing fields of [counter] only feed [Finished]'s comparison
  with a zero [stopTime], which is never after the current time; they
  are left out. *)
Record counter := mkCounter {
  current : Z;
  by_ : Z;
  end_ : Z;
  finished : bool
}.

Definition Start (i : Z) : counter := mkCounter 0 i 0 false.

Definition Finished (c : counter) : bool * counter :=
  let c := if end_ c <=? current c then mkCounter (current c) (by_ c) (end_ c) true else c in
  (finished c, c).

Definition plus (c : counter) : bool * counter :=
  Finished (mkCounter (current c + by_ c) (by_ c) (end_ c) (finished c)).

Definition minus (c : counter) : bool * counter :=
  Finished (mkCounter (current c - by_ c) (by_ c) (end_ c) (finished c)).

Definition Plus (c : counter) : bool * counter := plus c.

(** [Minus] calls [plus], as in the source. *)
Definition Minus (c : counter) : bool * counter := plus c.

Definition Get (c : counter) : Z := current c.

(** [Max] and [Lp] set the bound [end]; [Lp] also stores a callback
  [fc] that nothing calls, left out with the timing fields. *)
Definition Max (c : counter) (i : Z) : counter := mkCounter (current c) (by_ c) i (finished c).
Definition Lp (c : counter) (i : Z) : counter := mkCounter (current c) (by_ c) i (finished c).
Definition GT (c : counter) (i : Z) : bool := i <? current c.
Definition GTEq (c : counter) (i : Z) : bool := i <=? current c.
Definition LT (c : counter) (i : Z) : bool := current c <? i.
Definition LTEq (c : counter) (i : Z) : bool := current c <=? i.

(** [Eq] tests [current <= i], as in the source. *)
Definition Eq (c : counter) (i : Z) : bool := current c <=? i.

(** ** The whole [counter] struct

  [time.Time] is an instant in nanoseconds since Go's zero time
  (January 1, year 1, UTC): the zero [Time] is 0, a reading of
  [time.Now()] is an input [now >= 0], and [t.After(u)] is [u < t].
  The callback type [func(a, b interface{}) interface{}] is [I -> I -> I]
  over the type [I] of Go interface values. The counting fields [end],
  [current], [by] and [finished] form the [counter] above, which is
  what the decoder uses ([Start] without its clock). *)
Definition gotime := Z.
Definition zero_time : gotime := 0.
Definition After (t u : gotime) : bool := u <? t.

Section Timed.
Context {I : Type}.

Record tcounter := mkTCounter {
  startTime : gotime;
  endTime : gotime;
  stopTime : gotime;
  count : counter;
  fc : option (I -> I -> I)
}.

Definition with_count (c : tcounter) (k : counter) : tcounter :=
  mkTCounter (startTime c) (endTime c) (stopTime c) k (fc c).

(** [Start(i)] at clock [now]: [by], [current], [finished] and
  [startTime] are set, every other field is its zero value. *)
Definition TStart (now : gotime) (i : Z) : tcounter :=
  mkTCounter now zero_time zero_time (Start i) None.

(** [Finished] at clock [now]: the stop-time test, then the bound test,
  each setting [finished]. *)
Definition TFinished (now : gotime) (c : tcounter) : bool * tcounter :=
  let k := count c in
  let k := if After (stopTime c) now then mkCounter (current k) (by_ k) (end_ k) true else k in
  let '(b, k) := Finished k in (b, with_count c k).

Definition Tplus (now : gotime) (c : tcounter) : bool * tcounter :=
  let k := count c in
  TFinished now (with_count c (mkCounter (current k + by_ k) (by_ k) (end_ k) (finished k))).

Definition Tminus (now : gotime) (c : tcounter) : bool * tcounter :=
  let k := count c in
  TFinished now (with_count c (mkCounter (current k - by_ k) (by_ k) (end_ k) (finished k))).

Definition TPlus (now : gotime) (c : tcounter) : bool * tcounter := Tplus now c.

(** [Minus] calls [plus]. *)
Definition TMinus (now : gotime) (c : tcounter) : bool * tcounter := Tplus now c.

Definition SetEnd (c : tcounter) (t : gotime) : tcounter :=
  mkTCounter (startTime c) t (stopTime c) (count c) (fc c).

Definition TMax (c : tcounter) (i : Z) : tcounter := with_count c (Max (count c) i).

Definition TLp (c : tcounter) (f : I -> I -> I) (i : Z) : tcounter :=
  mkTCounter (startTime c) (endTime c) (stopTime c) (Lp (count c) i) (Some f).

(** The methods that change a counter, each at any clock reading. *)
Inductive tstep : tcounter -> tcounter -> Prop :=
| ts_Finished now c : tstep c (snd (TFinished now c))
| ts_plus now c : tstep c (snd (Tplus now c))
| ts_minus now c : tstep c (snd (Tminus now c))
| ts_Plus now c : tstep c (snd (TPlus now c))
| ts_Minus now c : tstep c (snd (TMinus now c))
| ts_SetEnd c t : tstep c (SetEnd c t)
| ts_Max c i : tstep c (TMax c i)
| ts_Lp c f i : tstep c (TLp c f i).

(** The counters a program can hold: [Start] and any sequence of
  method calls. *)
Inductive treach : tcounter -> Prop :=
| tr_Start now i : treach (TStart now i)
| tr_step c c' : treach c -> tstep c c' -> treach c'.

(** A method's result seen through the counting fields. *)
Definition proj (r : bool * tcounter) : bool * counter := (fst r, count (snd r)).

Lemma After_zero_time now : 0 <= now -> After zero_time now = false.
Proof. intros H. unfold After, zero_time. apply Z.ltb_ge. exact H. Qed.

(** With a stop time that is not after the clock, [Finished] is the
  untimed one on the counting fields. *)
Lemma TFinished_proj now c :
  After (stopTime c) now = false -> proj (TFinished now c) = Finished (count c).
Proof. intros H. unfold TFinished. rewrite H. reflexivity. Qed.

Lemma Tplus_proj now c :
  After (stopTime c) now = false -> proj (Tplus now c) = plus (count c).
Proof. intros H. unfold Tplus. rewrite TFinished_proj by exact H. reflexivity. Qed.

Lemma Tminus_proj now c :
  After (stopTime c) now = false -> proj (Tminus now c) = minus (count c).
Proof. intros H. unfold Tminus. rewrite TFinished_proj by exact H. reflexivity. Qed.

(** C14. The counter of [util.go] with its time fields is simulated by
  the untimed [counter] the decoder uses: in every state a program can
  reach from [Start] by method calls, [stopTime] is still the zero
  time, so at any clock reading [Finished], [plus] and [minus] return
  the untimed results and leave the untimed counting fields; the
  stop-time test of [Finished] never fires. *)
Theorem counter_refines c now :
  treach c -> 0 <= now ->
  stopTime c = zero_time /\
  proj (TFinished now c) = Finished (count c) /\
  proj (Tplus now c) = plus (count c) /\
  proj (Tminus now c) = minus (count c).
Proof.
  intros Hr Hn.
  (* No method writes [stopTime]. *)
  assert (Hs : stopTime c = zero_time)
    by (induction Hr as [t0 i | c c' _ IH Hstep]; [reflexivity | destruct Hstep; exact IH]).
  assert (Ha : After (stopTime c) now = false) by (rewrite Hs; exact (After_zero_time now Hn)).
  split; [exact Hs|]. split; [exact (TFinished_proj now c Ha)|].
  split; [exact (Tplus_proj now c Ha) | exact (Tminus_proj now c Ha)].
Qed.

End Timed.

Arguments tcounter : clear implicits.

(** A counter started at clock 5 with step 1, bounded at 2, then
  incremented at clock 7: reachable, and [Finished] at clock 9 agrees
  with the untimed counter. *)
Definition example_tcounter : tcounter unit := snd (Tplus 7 (TMax (TStart 5 1) 2)).

Lemma counter_refines_witness :
  treach example_tcounter /\ 0 <= 9 /\
  stopTime example_tcounter = zero_time /\
  proj (TFinished 9 example_tcounter) = Finished (count example_tcounter) /\
  proj (Tplus 9 example_tcounter) = plus (count example_tcounter) /\
  proj (Tminus 9 example_tcounter) = minus (count example_tcounter).
Proof.
  assert (H : treach example_tcounter)
    by (eapply tr_step; [eapply tr_step; [apply tr_Start | apply ts_Max] | apply ts_plus]).
  split; [exact H|]. split; [lia|]. apply (counter_refines _ 9 H). lia.
Defined.

End Counter.
