(* ===== verification/Values.v ===== *)
(** * Values: the attribute value syntaxes of [src/ipp/ippParser.go]

  The Go code stores an attribute value as [interface{}] holding one of
  the package's named types ([charset], [keyword], [integer], [enum],
  [ippBoolean], [octetString], [dateTime], [resolution],
  [rangeOfInteger], ...). [goValue] is that interface: one constructor
  per dynamic type, plus [VNil] for the nil interface. The file models
  - [binary_Write_value]: what [binary.Write(b, binary.BigEndian, v)]
    emits for each dynamic type (the encoder's only way of serialising a
    value: the [MarshalIPP] methods are never called by it);
  - [refer_Length]: the [Length] closure [refer] installs for a tag,
    with its type assertion, which [addValue] calls at once;
  - the [MarshalIPP]/[UnMarshalIPP] methods of the types (little-endian
    writers, [binary.Varint] readers, the slice arithmetic of the
    composite types), and the decoder's dispatch [UnMarshallattribute]
    of [src/ipp/unMarshall.go]. *)

From Stdlib Require Import ZArith Lia String.
From stdpp Require Import base list.
From S2P Require Import Prelude GoBinary Tags.
Import Tags.

Local Open Scope Z_scope.
Local Open Scope go_scope.

Module Values.

(** ** The Go types *)

(** [octetString] (also the layout of [textWithLanguage] and
  [nameWithLanguage]): two [signedShort] lengths as given by the
  caller, a [naturalLanguage] and a [textWithoutLanguage]. *)
Record octetString := mkOctetString {
  os_nameLength : Z;
  os_name : list Z;
  os_valueLength : Z;
  os_value : list Z
}.

(** [dateTime]: a [signedShort] year and eight [signedByte] fields
  (the RFC 1903 minutes-from-UTC octet is missing). *)
Record dateTime := mkDateTime {
  year : Z; month : Z; day : Z; hour : Z; minutes : Z; seconds : Z;
  deciSeconds : Z; UTC : Z; hoursFrUTC : Z
}.

Record resolution := mkResolution {
  crossFeedDirection : Z; feedDirection : Z; units : Z
}.

Record rangeOfInteger := mkRange { lowerBound : Z; upperBound : Z }.

(** The dynamic type held by [attributeValue.value]. *)
Inductive goValue :=
| VNil
| VCharset (b : list Z)
| VNaturalLanguage (b : list Z)
| VMimeMediaType (b : list Z)
| VKeyword (b : list Z)
| VUri (b : list Z)
| VUriScheme (b : list Z)
| VTextWithoutLanguage (b : list Z)
| VNameWithoutLanguage (b : list Z)
| VInteger (i : Z)
| VEnum (i : Z)
| VBoolean (b : Z)
| VOctetString (o : octetString)
| VTextWithLanguage (o : octetString)
| VNameWithLanguage (o : octetString)
| VDateTime (d : dateTime)
| VResolution (r : resolution)
| VRangeOfInteger (r : rangeOfInteger).

(** [attributeValue] of ippMsg.go without its four closures, which are
  functions of the tag ([refer_Length] models the one that is called). *)
Record attributeValue := mkAV {
  valueTag : Z;
  valueTagStr : string;
  nameLength : Z;
  name : list Z;
  valueLength : Z;
  value : goValue
}.

(** ** [binary.Write] with big-endian order on a dynamic value

  A named byte slice is written as its bytes, a named [int32] as four
  bytes, an [int8] as one, a struct of fixed-size fields field by field;
  a struct holding a slice is not fixed-size: [binary.Write] returns an
  error and writes nothing ([Ok None]). A nil interface has no type:
  the error path formats [reflect.TypeOf(data).String()], a method call
  on a nil [reflect.Type], and panics. *)
Definition binary_Write_value (v : goValue) : goRes (option (list Z)) :=
  match v with
  | VNil => Panic NilDeref
  | VCharset b | VNaturalLanguage b | VMimeMediaType b | VKeyword b
  | VUri b | VUriScheme b | VTextWithoutLanguage b | VNameWithoutLanguage b => Ok (Some b)
  | VInteger i | VEnum i => Ok (Some (be_bytes 4 i))
  | VBoolean b => Ok (Some (be_bytes 1 b))
  | VOctetString _ | VTextWithLanguage _ | VNameWithLanguage _ => Ok None
  | VDateTime d =>
      Ok (Some (be_bytes 2 (year d) ++ be_bytes 1 (month d) ++ be_bytes 1 (day d) ++
                be_bytes 1 (hour d) ++ be_bytes 1 (minutes d) ++ be_bytes 1 (seconds d) ++
                be_bytes 1 (deciSeconds d) ++ be_bytes 1 (UTC d) ++ be_bytes 1 (hoursFrUTC d)))
  | VResolution r =>
      Ok (Some (be_bytes 4 (crossFeedDirection r) ++ be_bytes 4 (feedDirection r) ++
                be_bytes 1 (units r)))
  | VRangeOfInteger r => Ok (Some (be_bytes 4 (lowerBound r) ++ be_bytes 4 (upperBound r)))
  end.

(** ** [refer] then [Length()]: the declared value length

  [refer] installs a [Length] closure for twelve tags; a closure that
  reads the value asserts its dynamic type first. Any other tag leaves
  [Length] nil and calling it panics. *)
Definition refer_Length (tag : Z) (v : goValue) : goRes Z :=
  if tag =? TAG_STRING then
    match v with
    | VOctetString o => Ok (u16 (2 + 2 + Z.of_nat (length (os_name o)) + Z.of_nat (length (os_value o))))
    | _ => Panic TypeAssertion
    end
  else if tag =? TAG_DATE then Ok 9
  else if tag =? TAG_RESOLUTION then Ok 11
  else if tag =? TAG_RANGE then Ok 8
  else if tag =? TAG_TEXTLANG then
    match v with
    | VTextWithLanguage o => Ok (u16 (i16 (4 + os_nameLength o + os_valueLength o)))
    | _ => Panic TypeAssertion
    end
  else if tag =? TAG_LANGUAGE then
    match v with VNaturalLanguage b => Ok (u16 (Z.of_nat (length b))) | _ => Panic TypeAssertion end
  else if tag =? TAG_KEYWORD then
    match v with VKeyword b => Ok (u16 (Z.of_nat (length b))) | _ => Panic TypeAssertion end
  else if tag =? TAG_NAMELANG then
    match v with
    | VNameWithLanguage o => Ok (u16 (i16 (4 + os_nameLength o + os_valueLength o)))
    | _ => Panic TypeAssertion
    end
  else if tag =? TAG_INTEGER then Ok 4
  else if tag =? TAG_BOOLEAN then Ok 1
  else if tag =? TAG_ENUM then Ok 4
  else if tag =? TAG_CHARSET then
    match v with VCharset b => Ok (u16 (Z.of_nat (length b))) | _ => Panic TypeAssertion end
  else if tag =? TAG_URI then
    match v with VUri b => Ok (u16 (Z.of_nat (length b))) | _ => Panic TypeAssertion end
  else Panic NilFuncCall.

(** ** Methods of the fixed-width types *)

(** [signedShort.bytes], [signedInteger.bytes], [signedByte.bytes]:
  [binary.Write] in little-endian order. *)
Definition le_bytes (n : nat) (x : Z) : list Z := rev (be_bytes n x).
Definition signedShort_bytes (x : Z) : list Z := le_bytes 2 x.
Definition signedInteger_bytes (x : Z) : list Z := le_bytes 4 x.
Definition signedByte_bytes (x : Z) : list Z := le_bytes 1 x.

(** [signedByte.UnMarshall] and [signedInteger.UnMarshall]: a varint
  read, truncated to the width. *)
Definition signedByte_UnMarshall (b : list Z) : Z := i8 (fst (Varint b)).
Definition signedInteger_UnMarshall (b : list Z) : Z := i32 (fst (Varint b)).

Definition ippBoolean_UnMarshalIPP (b : list Z) : Z := signedByte_UnMarshall b.

(** The boolean octets of [ippParser.go]'s constant block, which no
  method reads: [String] compares with the literals. *)
Definition ippTrue : Z := 0x01.
Definition ippFalse : Z := 0x00.

Definition ippBoolean_String (b : Z) : string :=
  if b =? 0x00 then "false" else if b =? 0x01 then "true" else "".

Definition enum_UnMarshalIPP (b : list Z) : Z := i32 (fst (Varint b)).

(** [integer.MarshalIPP] and [enum.MarshalIPP] call themselves: each
  unfolding is one more call; no amount of stack returns a result. *)
Fixpoint integer_MarshalIPP (depth : nat) (i : Z) : option (list Z) :=
  match depth with
  | O => None
  | S d => integer_MarshalIPP d i
  end.

Fixpoint enum_MarshalIPP (depth : nat) (e : Z) : option (list Z) :=
  match depth with
  | O => None
  | S d => enum_MarshalIPP d e
  end.

(** ** Methods of the composite types *)

Definition octetString_MarshalIPP (o : octetString) : list Z :=
  signedShort_bytes (os_nameLength o) ++ os_name o ++
  signedShort_bytes (os_valueLength o) ++ os_value o.

Definition octetString_len (o : octetString) : Z :=
  u16 (2 + 2 + Z.of_nat (length (os_name o)) + Z.of_nat (length (os_value o))).

(** [octetString.UnMarshalIPP] (and the identical methods of
  [textWithLanguage] and [nameWithLanguage]): the name is [b[3:ll]] and
  the text [b[ll+4:]], with [int16] index arithmetic. *)
Definition octetString_UnMarshalIPP (b : list Z) : goRes octetString :=
  let? h := go_slice b 0 2 in
  let ll := i16 (fst (Varint h)) in
  let? nm := go_slice b 3 ll in
  let? m := go_slice b (i16 (ll + 1)) (i16 (ll + 3)) in
  let lb := fst (Varint m) in
  let? vl := go_slice b (i16 (ll + 4)) (Z.of_nat (length b)) in
  Ok (mkOctetString ll nm (i16 lb) vl).

Definition textWithLanguage_length (o : octetString) : Z :=
  u16 (i16 (4 + os_nameLength o + os_valueLength o)).

Definition dateTime_MarshalIPP (d : dateTime) : list Z :=
  signedShort_bytes (year d) ++ signedByte_bytes (month d) ++ signedByte_bytes (day d) ++
  signedByte_bytes (hour d) ++ signedByte_bytes (minutes d) ++
  signedByte_bytes (seconds d) ++ signedByte_bytes (deciSeconds d) ++
  signedByte_bytes (UTC d) ++ signedByte_bytes (hoursFrUTC d).

(** [dateTime.UnMarshalIPP] reads bit-like offsets [dt[:16]],
  [dt[17:24]], ..., [dt[73:80]] of the byte slice. *)
Definition dateTime_UnMarshalIPP (dt : list Z) : goRes dateTime :=
  let rd lo hi := go_map (fun s => fst (Varint s)) (go_slice dt lo hi) in
  let? a := rd 0 16 in
  let? mo := rd 17 24 in
  let? dy := rd 25 32 in
  let? hr := rd 33 40 in
  let? mi := rd 41 48 in
  let? se := rd 49 56 in
  let? ds := rd 57 64 in
  let? ut := rd 65 72 in
  let? hu := rd 73 80 in
  Ok (mkDateTime (i16 a) (i8 mo) (i8 dy) (i8 hr) (i8 mi) (i8 se) (i8 ds) (i8 ut) (i8 hu)).

Definition resolution_MarshalIPP (r : resolution) : list Z :=
  signedInteger_bytes (crossFeedDirection r) ++ signedInteger_bytes (feedDirection r) ++
  signedByte_bytes (units r).

Definition resolution_UnMarshalIPP (b : list Z) : goRes resolution :=
  let? s := go_slice b 0 4 in
  let? d := go_slice b 5 8 in
  let? e := go_slice b 9 (Z.of_nat (length b)) in
  Ok (mkResolution (signedInteger_UnMarshall s) (signedInteger_UnMarshall d)
                   (signedByte_UnMarshall e)).

Definition rangeOfInteger_MarshalIPP (r : rangeOfInteger) : list Z :=
  signedInteger_bytes (lowerBound r) ++ signedInteger_bytes (upperBound r).

(** [rangeOfInteger.UnMarshalIPP] reads both bounds from the whole
  slice. *)
Definition rangeOfInteger_UnMarshalIPP (b : list Z) : rangeOfInteger :=
  mkRange (signedInteger_UnMarshall b) (signedInteger_UnMarshall b).

(** ** [UnMarshallattribute]: the decoder's per-value dispatch

  Each case sets the tag and its name, installs closures, and calls
  [a.UnMarshal(bts)]. The closures of [integer], [octetString],
  [dateTime], [resolution], [textWithLanguage] and [nameWithLanguage]
  start with [a.value.(T)] while [a.value] is still nil: a failed type
  assertion. A tag without a case leaves [UnMarshal] nil. The returned
  value has no name and a zero [valueLength]. *)
Definition decoded (tag : Z) (str : string) (v : goValue) : goRes attributeValue :=
  Ok (mkAV tag str 0 [] 0 v).

Definition UnMarshallattribute (bi : Z) (bts : list Z) : goRes attributeValue :=
  if bi =? 0x21 then Panic TypeAssertion
  else if bi =? 0x22 then decoded TAG_BOOLEAN "TAG_BOOLEAN" (VBoolean (ippBoolean_UnMarshalIPP bts))
  else if bi =? 0x23 then decoded TAG_ENUM "TAG_ENUM" (VEnum (enum_UnMarshalIPP bts))
  else if bi =? 0x30 then Panic TypeAssertion
  else if bi =? 0x31 then Panic TypeAssertion
  else if bi =? 0x32 then Panic TypeAssertion
  else if bi =? 0x33 then
    decoded TAG_RANGE "TAG_RANGE" (VRangeOfInteger (rangeOfInteger_UnMarshalIPP bts))
  else if bi =? 0x35 then Panic TypeAssertion
  else if bi =? 0x36 then Panic TypeAssertion
  else if bi =? 0x47 then decoded TAG_CHARSET "TAG_CHARSET" (VCharset bts)
  else if bi =? 0x48 then decoded TAG_LANGUAGE "TAG_LANGUAGE" (VNaturalLanguage bts)
  else if bi =? 0x44 then decoded TAG_KEYWORD "TAG_KEYWORD" (VKeyword bts)
  else if bi =? 0x49 then decoded TAG_MIMETYPE "TAG_MIMETYPE" (VMimeMediaType bts)
  else Panic NilFuncCall.

(** The tags [UnMarshallattribute] decodes without panicking. *)
Definition decodable_tag (t : Z) : bool :=
  bool_decide (t ∈ [0x22; 0x23; 0x33; 0x47; 0x48; 0x44; 0x49]).

(** The syntax a value type stands for: the value tag RFC 8010 gives it
  (the spec's table of value variants). *)
Definition syntax_tag (v : goValue) : Z :=
  match v with
  | VNil => TAG_NOVALUE
  | VCharset _ => TAG_CHARSET
  | VNaturalLanguage _ => TAG_LANGUAGE
  | VMimeMediaType _ => TAG_MIMETYPE
  | VKeyword _ => TAG_KEYWORD
  | VUri _ => TAG_URI
  | VUriScheme _ => TAG_URISCHEME
  | VTextWithoutLanguage _ => TAG_TEXT
  | VNameWithoutLanguage _ => TAG_NAME
  | VInteger _ => TAG_INTEGER
  | VEnum _ => TAG_ENUM
  | VBoolean _ => TAG_BOOLEAN
  | VOctetString _ => TAG_STRING
  | VTextWithLanguage _ => TAG_TEXTLANG
  | VNameWithLanguage _ => TAG_NAMELANG
  | VDateTime _ => TAG_DATE
  | VResolution _ => TAG_RESOLUTION
  | VRangeOfInteger _ => TAG_RANGE
  end.

(** The tags [refer] installs a [Length] closure for, and among them the
  ones whose closure asserts the value's dynamic type. *)
Definition refer_tags : list Z :=
  [TAG_STRING; TAG_DATE; TAG_RESOLUTION; TAG_RANGE; TAG_TEXTLANG; TAG_LANGUAGE; TAG_KEYWORD;
   TAG_NAMELANG; TAG_INTEGER; TAG_BOOLEAN; TAG_ENUM; TAG_CHARSET; TAG_URI].

Definition asserting_tags : list Z :=
  [TAG_STRING; TAG_TEXTLANG; TAG_LANGUAGE; TAG_KEYWORD; TAG_NAMELANG; TAG_CHARSET; TAG_URI].

Definition mem (t : Z) (l : list Z) : bool := existsb (Z.eqb t) l.

(** Why [Length()] panics, if it does. *)
Definition refer_error (t : Z) (v : goValue) : option panic_reason :=
  if negb (mem t refer_tags) then Some NilFuncCall
  else if mem t asserting_tags && negb (syntax_tag v =? t) then Some TypeAssertion
  else None.

(** ** Properties of the value codecs *)

Lemma refer_Length_Panic t v r :
  refer_Length t v = Panic r <-> refer_error t v = Some r.
Proof.
  unfold refer_Length, refer_error, mem, refer_tags, asserting_tags. cbn [existsb].
  repeat match goal with
  | |- context [if t =? ?c then _ else _] =>
      let E := fresh "E" in destruct (t =? c) eqn:E; [apply Z.eqb_eq in E; subst t|rewrite ?E]
  end; cbn [orb andb negb]; try (split; congruence);
  destruct v; cbn; split; congruence.
Qed.


Lemma signedShort_bytes_small n : 0 <= n < 128 -> signedShort_bytes n = [n; 0].
Proof.
  intros Hn. unfold signedShort_bytes, le_bytes. simpl.
  rewrite !land_255, shiftr_8, (Z.div_small n 256), (Z.mod_small n 256) by lia. reflexivity.
Qed.

(** Which tags the decoder's dispatch accepts: [UnMarshallattribute]
  returns a value exactly for the tags boolean, enum, rangeOfInteger,
  charset, naturalLanguage, keyword and mimeMediaType, whatever the
  bytes (no length is checked); every other tag panics, integer,
  octetString, dateTime, resolution and the with-language syntaxes
  included. *)
Lemma UnMarshallattribute_ok bi bts :
  is_ok (UnMarshallattribute bi bts) = decodable_tag bi.
Proof.
  unfold UnMarshallattribute, decodable_tag, decoded.
  repeat match goal with |- context [if bi =? ?c then _ else _] => destruct (Z.eqb_spec bi c) as [->|]; [reflexivity|] end.
  symmetry. apply bool_decide_eq_false. rewrite !elem_of_cons, elem_of_nil. tauto.
Qed.

(** A four-byte big-endian integer as the varint readers see it: only
  the first byte counts, read as a zig-zag varint. *)
Lemma Varint_be_bytes_4 x :
  0 <= x < 2 ^ 31 -> i32 (fst (Varint (be_bytes 4 x))) = zigzag (x / 2 ^ 24).
Proof.
  intros Hx. destruct (be_bytes_4_head x Hx) as (tl & -> & Hh).
  rewrite Varint_small by lia. pose proof (zigzag_bound _ Hh). apply i32_small. lia.
Qed.

Lemma Varint_be_bytes_4_app x more :
  0 <= x < 2 ^ 31 -> i32 (fst (Varint (be_bytes 4 x ++ more))) = zigzag (x / 2 ^ 24).
Proof.
  intros Hx. destruct (be_bytes_4_head x Hx) as (tl & Htl & Hh).
  rewrite Htl, <- app_comm_cons, Varint_small by lia. pose proof (zigzag_bound _ Hh). apply i32_small. lia.
Qed.

(** The decoder's values are typed: whatever the bytes, a value
  [UnMarshallattribute] returns carries the tag it was read under, and
  its dynamic Go type is the syntax of that tag. *)
Lemma UnMarshallattribute_tag bi bts av :
  UnMarshallattribute bi bts = Ok av -> valueTag av = bi /\ syntax_tag (value av) = bi.
Proof.
  unfold UnMarshallattribute, decoded.
  repeat match goal with |- context [if bi =? ?c then _ else _] =>
    destruct (Z.eqb_spec bi c) as [->|]; [intros H; first [discriminate H | injection H as <-; split; reflexivity]|] end.
  all: discriminate.
Qed.

(** C12. Type preservation of the decoder's dispatch: a value that
  [UnMarshallattribute] returns is stored under the tag byte it was read
  with, its Go dynamic type is the one that tag's syntax names, and that
  tag is one of the seven the dispatch decodes. *)
Theorem UnMarshallattribute_typed bi bts av :
  UnMarshallattribute bi bts = Ok av ->
  valueTag av = bi /\ syntax_tag (value av) = bi /\ decodable_tag bi = true.
Proof.
  intros H. destruct (UnMarshallattribute_tag bi bts av H) as [H1 H2].
  split; [exact H1|]. split; [exact H2|].
  rewrite <- (UnMarshallattribute_ok bi bts), H. reflexivity.
Qed.

(** C22. Enum values do not survive the wire: the four big-endian bytes
  [binary.Write] emits for a non-negative enum are decoded by
  [enum.UnMarshalIPP] as a zig-zag varint of their first byte, so every
  enum below [2^24] (all the enums of IPP) decodes as 0. *)
Theorem UnMarshallattribute_enum e :
  0 <= e < 2 ^ 31 ->
  UnMarshallattribute TAG_ENUM (be_bytes 4 e) =
    decoded TAG_ENUM "TAG_ENUM" (VEnum (zigzag (e / 2 ^ 24))).
Proof. intros He. unfold UnMarshallattribute, enum_UnMarshalIPP. simpl Z.eqb. cbv iota. rewrite Varint_be_bytes_4 by exact He. reflexivity. Qed.

(** C23. A boolean octet below [0x80] is decoded as a zig-zag varint: the
  wire value true (1) becomes -1, which [ippBoolean.String] prints as
  the empty string. *)
Theorem UnMarshallattribute_boolean b :
  0 <= b < 128 ->
  UnMarshallattribute TAG_BOOLEAN (be_bytes 1 b) =
    decoded TAG_BOOLEAN "TAG_BOOLEAN" (VBoolean (zigzag b)).
Proof.
  intros Hb. unfold UnMarshallattribute, ippBoolean_UnMarshalIPP, signedByte_UnMarshall. simpl Z.eqb. cbv iota.
  replace (be_bytes 1 b) with [b] by (simpl; rewrite land_255, Z.mod_small by lia; reflexivity).
  rewrite Varint_small by lia. pose proof (zigzag_bound b Hb). rewrite i8_small by lia. reflexivity.
Qed.

(** [rangeOfInteger.UnMarshalIPP] reads both bounds from the whole
  value: the eight bytes written for a range with a non-negative lower
  bound decode to a range whose two bounds are both the varint of the
  lower bound's first byte; the upper bound is lost. *)
Theorem UnMarshallattribute_range lo hi :
  0 <= lo < 2 ^ 31 ->
  UnMarshallattribute TAG_RANGE (be_bytes 4 lo ++ be_bytes 4 hi) =
    decoded TAG_RANGE "TAG_RANGE"
      (VRangeOfInteger (mkRange (zigzag (lo / 2 ^ 24)) (zigzag (lo / 2 ^ 24)))).
Proof.
  intros Hl. unfold UnMarshallattribute, rangeOfInteger_UnMarshalIPP, signedInteger_UnMarshall.
  simpl Z.eqb. cbv iota. rewrite Varint_be_bytes_4_app by exact Hl. reflexivity.
Qed.

(** C24. The declared value length against the bytes written: for a value
  stored under its own syntax's tag, the length [refer]'s [Length]
  closure declares equals the number of bytes [binary.Write] emits for
  it exactly when the syntax is neither dateTime (declared 9, written
  10) nor resolution (declared 11, written 9). *)
Theorem refer_Length_written v len bs :
  refer_Length (syntax_tag v) v = Ok len -> binary_Write_value v = Ok (Some bs) ->
  Z.of_nat (length bs) < 65536 ->
  (len = Z.of_nat (length bs) <-> syntax_tag v <> TAG_DATE /\ syntax_tag v <> TAG_RESOLUTION).
Proof.
  intros Hr Hw Hl.
  destruct v; cbn in Hr, Hw; simplify_eq; cbn [syntax_tag];
    rewrite ?length_app, ?length_be_bytes, ?u16_small by lia; cbn; split; intros; try lia; try easy.
Qed.

(** C31. [octetString.UnMarshalIPP] does not read back what
  [octetString.MarshalIPP] writes: the little-endian name length [n] is
  read as a zig-zag varint, giving the end index of [b[3:ll]] below 3
  whenever [n] is odd or at most 4, and the slice panics. *)
Theorem octetString_UnMarshalIPP_MarshalIPP o :
  0 <= os_nameLength o < 128 ->
  Z.odd (os_nameLength o) = true \/ os_nameLength o <= 4 ->
  octetString_UnMarshalIPP (octetString_MarshalIPP o) = Panic SliceBounds.
Proof.
  intros Hn Hodd. unfold octetString_UnMarshalIPP, octetString_MarshalIPP.
  rewrite signedShort_bytes_small by exact Hn. simpl app.
  rewrite go_slice_ok by (cbn [length]; rewrite ?Nat2Z.inj_succ; lia). simpl. rewrite Varint_small by lia.
  pose proof (zigzag_bound _ Hn). rewrite i16_small by lia.
  rewrite go_slice_bad; [reflexivity|].
  destruct Hodd as [Ho|Hs].
  - pose proof (zigzag_odd_neg (os_nameLength o) ltac:(lia) Ho). lia.
  - destruct (Z.odd (os_nameLength o)) eqn:Ho.
    + pose proof (zigzag_odd_neg (os_nameLength o) ltac:(lia) Ho). lia.
    + rewrite zigzag_even by exact Ho.
      pose proof (Z.div_le_upper_bound (os_nameLength o) 2 2 ltac:(lia) ltac:(lia)). lia.
Qed.

(** ** Instances of the value properties *)

Definition str_bytes_abc : list Z := [97; 98; 99].


Lemma UnMarshallattribute_enum_witness :
  0 <= 3 < 2 ^ 31 /\
  UnMarshallattribute TAG_ENUM (be_bytes 4 3) = decoded TAG_ENUM "TAG_ENUM" (VEnum (zigzag (3 / 2 ^ 24))).
Proof. split; [lia | apply (UnMarshallattribute_enum 3); lia]. Defined.

Lemma UnMarshallattribute_boolean_witness :
  0 <= 1 < 128 /\
  UnMarshallattribute TAG_BOOLEAN (be_bytes 1 1) = decoded TAG_BOOLEAN "TAG_BOOLEAN" (VBoolean (zigzag 1)).
Proof. split; [lia | apply (UnMarshallattribute_boolean 1); lia]. Defined.

Lemma UnMarshallattribute_range_witness :
  0 <= 1 < 2 ^ 31 /\
  UnMarshallattribute TAG_RANGE (be_bytes 4 1 ++ be_bytes 4 100) =
    decoded TAG_RANGE "TAG_RANGE" (VRangeOfInteger (mkRange (zigzag (1 / 2 ^ 24)) (zigzag (1 / 2 ^ 24)))).
Proof. split; [lia | apply (UnMarshallattribute_range 1 100); lia]. Defined.

Lemma UnMarshallattribute_typed_witness :
  UnMarshallattribute TAG_KEYWORD (str_bytes_abc) = decoded TAG_KEYWORD "TAG_KEYWORD" (VKeyword str_bytes_abc) /\
  syntax_tag (VKeyword str_bytes_abc) = TAG_KEYWORD.
Proof.
  assert (H : UnMarshallattribute TAG_KEYWORD str_bytes_abc = Ok (mkAV TAG_KEYWORD "TAG_KEYWORD" 0 [] 0 (VKeyword str_bytes_abc)))
    by reflexivity.
  split; [exact H|]. exact (proj1 (proj2 (UnMarshallattribute_typed _ _ _ H))).
Defined.

(** 9 November 2026, 12:00:00.0 UTC. *)
Definition example_date : dateTime := mkDateTime 2026 11 9 12 0 0 0 43 0.

Definition example_date_bytes : list Z := [7; 234; 11; 9; 12; 0; 0; 0; 43; 0].

Lemma refer_Length_written_witness :
  refer_Length (syntax_tag (VDateTime example_date)) (VDateTime example_date) = Ok 9 /\
  binary_Write_value (VDateTime example_date) = Ok (Some example_date_bytes) /\
  Z.of_nat (length example_date_bytes) < 65536 /\
  (9 = Z.of_nat (length example_date_bytes) <->
   syntax_tag (VDateTime example_date) <> TAG_DATE /\ syntax_tag (VDateTime example_date) <> TAG_RESOLUTION).
Proof.
  assert (H1 : refer_Length (syntax_tag (VDateTime example_date)) (VDateTime example_date) = Ok 9) by reflexivity.
  assert (H2 : binary_Write_value (VDateTime example_date) = Ok (Some example_date_bytes)) by reflexivity.
  assert (H3 : Z.of_nat (length example_date_bytes) < 65536) by (simpl; lia).
  split; [exact H1|]. split; [exact H2|]. split; [exact H3|].
  exact (refer_Length_written _ _ _ H1 H2 H3).
Defined.

(** A natural-language octet string "en-us" with text "abc". *)
Definition example_octetString : octetString :=
  mkOctetString 5 [101; 110; 45; 117; 115] 3 [97; 98; 99].

Lemma octetString_UnMarshalIPP_MarshalIPP_witness :
  0 <= os_nameLength example_octetString < 128 /\
  (Z.odd (os_nameLength example_octetString) = true \/ os_nameLength example_octetString <= 4) /\
  octetString_UnMarshalIPP (octetString_MarshalIPP example_octetString) = Panic SliceBounds.
Proof.
  assert (H1 : 0 <= os_nameLength example_octetString < 128) by (simpl; lia).
  assert (H2 : Z.odd (os_nameLength example_octetString) = true \/ os_nameLength example_octetString <= 4)
    by (left; reflexivity).
  split; [exact H1|]. split; [exact H2|]. exact (octetString_UnMarshalIPP_MarshalIPP _ H1 H2).
Defined.

End Values.
