(* ===== verification/GoStrconv.v ===== *)
(** * GoStrconv: [fmt]'s [%x] on a byte slice and [strconv.Atoi]

  [UUID4] of [src/ipp/ippMsg.go] formats its random bytes with
  [fmt.Sprintf("%x-%x-%x-%x-%x", ...)] and parses the result with
  [strconv.Atoi]. Both are Go library functions; this file models them
  as the Go library defines them (64-bit [int]), on strings as byte
  lists:
  - [hex_bytes]: [%x] of a [[]byte], two lower-case hex digits per byte
    ([fmtSbx]: [digits[b>>4]], [digits[b&0xF]]);
  - [Atoi]: the fast path for strings of 1 to 18 bytes, else
    [ParseInt(s, 10, 0)] over [ParseUint], with their syntax and range
    errors and the values they return with them. *)

From Stdlib Require Import ZArith Lia.
From stdpp Require Import base list.
From S2P Require Import Prelude.

Local Open Scope Z_scope.

Module Strconv.

(** ** [%x] *)

Definition hex_digit (d : Z) : Z := if d <? 10 then 48 + d else 87 + d.

Definition hex_byte (b : Z) : list Z := [hex_digit (Z.shiftr b 4); hex_digit (Z.land b 15)].

Definition hex_bytes (bs : list Z) : list Z := concat (map hex_byte bs).

(** ** [strconv] *)

Inductive num_error := ErrSyntax | ErrRange.

Definition maxUint64 : Z := 2 ^ 64 - 1.

(** [cutoff] of [ParseUint] for base 10: the smallest [n] with
  [n * 10] above [maxUint64]. *)
Definition cutoff10 : Z := maxUint64 / 10 + 1.

(** [lower(c)] of [strconv]: [c | ('x' - 'X')]. *)
Definition lower (c : Z) : Z := Z.lor c 32.

(** The digit value of a byte in base 10 ([None]: not a digit or a
  letter). Letters give 10..35, which base 10 rejects. *)
Definition digit_of (c : Z) : option Z :=
  if (48 <=? c) && (c <=? 57) then Some (c - 48)
  else if (97 <=? lower c) && (lower c <=? 122) then Some (lower c - 97 + 10)
  else None.

(** The loop of [ParseUint(s, 10, 64)] from accumulator [n]. *)
Fixpoint parse_uint10 (s : list Z) (n : Z) : Z * option num_error :=
  match s with
  | [] => (n, None)
  | c :: rest =>
      match digit_of c with
      | None => (0, Some ErrSyntax)
      | Some d =>
          if 10 <=? d then (0, Some ErrSyntax)
          else if cutoff10 <=? n then (maxUint64, Some ErrRange)
          else
            let n1 := wrap_u 64 (n * 10 + d) in
            if (n1 <? n * 10 mod 2 ^ 64) || (maxUint64 <? n1) then (maxUint64, Some ErrRange)
            else parse_uint10 rest n1
      end
  end.

Definition ParseUint10 (s : list Z) : Z * option num_error :=
  match s with
  | [] => (0, Some ErrSyntax)
  | _ => parse_uint10 s 0
  end.

(** [ParseInt(s, 10, 0)] with a 64-bit [int]. *)
Definition ParseInt10 (s : list Z) : Z * option num_error :=
  match s with
  | [] => (0, Some ErrSyntax)
  | c :: rest =>
      let '(neg, digits) :=
        if c =? 43 then (false, rest) else if c =? 45 then (true, rest) else (false, s) in
      let '(un, err) := ParseUint10 digits in
      match err with
      | Some ErrSyntax => (0, Some ErrSyntax)
      | _ =>
          if negb neg && (2 ^ 63 <=? un) then (2 ^ 63 - 1, Some ErrRange)
          else if neg && (2 ^ 63 <? un) then (- 2 ^ 63, Some ErrRange)
          else ((if neg then - un else un), err)
      end
  end.

(** The fast path of [Atoi]: an optional sign and decimal digits only. *)
Fixpoint atoi_fast_loop (s : list Z) (n : Z) : Z * option num_error :=
  match s with
  | [] => (n, None)
  | c :: rest =>
      let ch := wrap_u 8 (c - 48) in
      if 9 <? ch then (0, Some ErrSyntax) else atoi_fast_loop rest (n * 10 + ch)
  end.

Definition Atoi (s : list Z) : Z * option num_error :=
  let sLen := length s in
  if (0 <? sLen)%nat && (sLen <? 19)%nat then
    match s with
    | [] => (0, Some ErrSyntax)
    | c :: rest =>
        if (c =? 45) || (c =? 43) then
          match rest with
          | [] => (0, Some ErrSyntax)
          | _ => let '(n, e) := atoi_fast_loop rest 0 in
                 match e with
                 | Some _ => (0, e)
                 | None => ((if c =? 45 then - n else n), None)
                 end
          end
        else atoi_fast_loop s 0
    end
  else ParseInt10 s.

(** ** [string(r)] of a rune: the runtime's [encoderune]

  [uint32(r)] selects the form; negative runes, runes above [0x10FFFF]
  and surrogates are replaced by [RuneError] (U+FFFD). Each byte is a
  [byte(...)] conversion of a shifted rune. *)
Definition runeError : Z := 0xFFFD.

Definition encode3 (r : Z) : list Z :=
  [Z.lor 0xE0 (u8 (Z.shiftr r 12)); Z.lor 0x80 (Z.land (u8 (Z.shiftr r 6)) 0x3F);
   Z.lor 0x80 (Z.land (u8 r) 0x3F)].

Definition encoderune (r : Z) : list Z :=
  let i := wrap_u 32 r in
  if i <=? 0x7F then [u8 r]
  else if i <=? 0x7FF then [Z.lor 0xC0 (u8 (Z.shiftr r 6)); Z.lor 0x80 (Z.land (u8 r) 0x3F)]
  else if (0x10FFFF <? i) || ((0xD800 <=? i) && (i <=? 0xDFFF)) then encode3 runeError
  else if i <=? 0xFFFF then encode3 r
  else [Z.lor 0xF0 (u8 (Z.shiftr r 18)); Z.lor 0x80 (Z.land (u8 (Z.shiftr r 12)) 0x3F);
        Z.lor 0x80 (Z.land (u8 (Z.shiftr r 6)) 0x3F); Z.lor 0x80 (Z.land (u8 r) 0x3F)].

(** ** Lemmas *)

Definition is_hex_char (c : Z) : Prop := (48 <= c <= 57) \/ (97 <= c <= 102).

Lemma hex_digit_char d : 0 <= d < 16 -> is_hex_char (hex_digit d).
Proof. intros Hd. unfold hex_digit, is_hex_char. destruct (Z.ltb_spec d 10); lia. Qed.

Lemma hex_byte_chars b : is_byte b -> Forall is_hex_char (hex_byte b).
Proof.
  intros Hb. unfold is_byte in Hb. unfold hex_byte.
  rewrite Z.shiftr_div_pow2 by lia. change 15 with (Z.ones 4). rewrite Z.land_ones by lia.
  pose proof (Z.mod_pos_bound b (2 ^ 4) ltac:(lia)).
  assert (0 <= b / 2 ^ 4 < 16) by (split; [apply Z.div_pos | apply Z.div_lt_upper_bound]; simpl; lia).
  simpl in *. constructor; [|constructor; [|constructor]]; apply hex_digit_char; lia.
Qed.

Lemma hex_bytes_chars bs : bytes_ok bs -> Forall is_hex_char (hex_bytes bs).
Proof.
  induction 1 as [|b bs Hb _ IH]; [constructor|]. cbn [hex_bytes map concat].
  apply Forall_app. split; [apply hex_byte_chars; exact Hb | exact IH].
Qed.

Lemma length_hex_bytes bs : length (hex_bytes bs) = (2 * length bs)%nat.
Proof.
  induction bs as [|b bs IH]; [reflexivity|]. cbn [hex_bytes map concat].
  rewrite length_app. unfold hex_bytes in IH. rewrite IH. simpl. lia.
Qed.

Lemma lower_dash : lower 45 = 45.
Proof. reflexivity. Qed.

(** A hex digit is a decimal digit or a letter base 10 rejects. *)
Lemma digit_of_hex c :
  is_hex_char c ->
  (digit_of c = Some (c - 48) /\ 0 <= c - 48 < 10) \/ (exists d, digit_of c = Some d /\ 10 <= d).
Proof.
  intros [Hc|Hc].
  - left. unfold digit_of. destruct (Z.leb_spec 48 c), (Z.leb_spec c 57); [|lia ..]. auto with zarith.
  - right. assert (c = 97 \/ c = 98 \/ c = 99 \/ c = 100 \/ c = 101 \/ c = 102) as Hcs by lia.
    destruct_or! Hcs; subst; (eexists; split; [reflexivity | apply Z.leb_le; reflexivity]).
Qed.

Lemma digit_of_dash : digit_of 45 = None.
Proof. reflexivity. Qed.

(** [ParseUint]'s loop over at most eight hex digits followed by a
  dash: a letter or the dash is a syntax error, and the digits read
  before it stay far below the overflow cutoff. *)
Lemma parse_uint10_hex_dash h rest n :
  Forall is_hex_char h -> 0 <= n -> (n + 1) * 10 ^ Z.of_nat (length h) <= 10 ^ 8 ->
  parse_uint10 (h ++ 45 :: rest) n = (0, Some ErrSyntax).
Proof.
  intros Hh. revert n. induction Hh as [|c h Hc Hh IH]; intros n Hn Hb; [reflexivity|].
  cbn [app parse_uint10]. cbn [length] in Hb. rewrite Nat2Z.inj_succ, Z.pow_succ_r in Hb by lia.
  pose proof (Z.pow_pos_nonneg 10 (Z.of_nat (length h)) ltac:(lia) ltac:(lia)) as Hp.
  destruct (digit_of_hex c Hc) as [[-> Hd] | (d & -> & Hd)].
  - assert (Hn8 : n < 10 ^ 8) by nia. change (10 ^ 8) with 100000000 in *.
    assert (Hcut : cutoff10 = 1844674407370955162) by reflexivity.
    assert (Hmax : maxUint64 = 18446744073709551615) by reflexivity.
    destruct (Z.leb_spec 10 (c - 48)); [lia|].
    destruct (Z.leb_spec cutoff10 n); [lia|].
    rewrite wrap_u_small by (change (2 ^ 64) with 18446744073709551616; lia).
    rewrite (Z.mod_small (n * 10)) by (change (2 ^ 64) with 18446744073709551616; lia).
    destruct (Z.ltb_spec (n * 10 + (c - 48)) (n * 10)); [lia|].
    destruct (Z.ltb_spec maxUint64 (n * 10 + (c - 48))); [lia|].
    apply IH; nia.
  - destruct (Z.leb_spec 10 d); [reflexivity | lia].
Qed.

(** [Atoi] of a string of at least 19 bytes that starts with eight hex
  digits and a dash: the slow path, a syntax error, and 0. *)
Lemma Atoi_hex_dash h rest :
  Forall is_hex_char h -> length h = 8%nat -> (10 <= length rest)%nat ->
  Atoi (h ++ 45 :: rest) = (0, Some ErrSyntax).
Proof.
  intros Hh Hl Hr. unfold Atoi.
  rewrite length_app. cbn [length].
  destruct (Nat.ltb_spec (length h + S (length rest)) 19); [lia|]. rewrite andb_false_r.
  destruct h as [|c h']; [discriminate|]. inversion Hh as [|? ? Hc Hh']; subst.
  assert (Hs : (c =? 43) = false /\ (c =? 45) = false)
    by (destruct Hc; split; apply Z.eqb_neq; lia).
  cbn [ParseInt10 app]. destruct Hs as [-> ->]. cbn [ParseUint10].
  rewrite app_comm_cons, (parse_uint10_hex_dash (c :: h') rest 0 Hh ltac:(lia)) by (rewrite Hl; simpl; lia).
  reflexivity.
Qed.

Lemma u8_byte x : is_byte (u8 x).
Proof. unfold is_byte, u8, wrap_u. apply Z.mod_pos_bound. lia. Qed.

Lemma lor_byte a b : is_byte a -> is_byte b -> is_byte (Z.lor a b).
Proof. unfold is_byte. intros Ha Hb. apply (lor_bound a b 8); simpl; lia. Qed.

Lemma land_3F_byte a : is_byte (Z.land a 0x3F).
Proof.
  unfold is_byte. change 0x3F with (Z.ones 6). rewrite Z.land_ones by lia.
  pose proof (Z.mod_pos_bound a (2 ^ 6) ltac:(lia)). simpl in *. lia.
Qed.

Local Hint Resolve u8_byte lor_byte land_3F_byte : ipp.
Local Hint Extern 1 (is_byte _) => (unfold is_byte; lia) : ipp.
Local Hint Extern 1 (0 <= _) => lia : ipp.

(** Every rune is encoded as one to four bytes. *)
Lemma encoderune_bytes r :
  (1 <= length (encoderune r) <= 4)%nat /\ bytes_ok (encoderune r).
Proof.
  unfold encoderune, encode3.
  repeat match goal with |- context [if ?c then _ else _] => destruct c end;
    (split; [simpl; lia | unfold bytes_ok; repeat (apply List.Forall_cons; [eauto 6 with ipp|]); apply List.Forall_nil]).
Qed.

(** A rune below 128 is its own byte. *)
Lemma encoderune_ascii r : 0 <= r < 128 -> encoderune r = [r].
Proof.
  intros Hr. unfold encoderune.
  rewrite (wrap_u_small 32 r) by (simpl; lia). destruct (Z.leb_spec r 0x7F); [|lia].
  unfold u8. rewrite wrap_u_small by (simpl; lia). reflexivity.
Qed.

End Strconv.
