(* ===== verification/ValueMethods.v ===== *)
(** * ValueMethods: the [Marshler] interface of [src/ipp/ippParser.go]
  and the methods of the value types it is implemented by

  [Marshler] is the Go interface [MarshalIPP() ([]byte, error)] /
  [UnMarshalIPP([]byte) error]. Here it is a type class over the Go
  named types: [MarshalIPP] takes a call-depth budget (the goroutine's
  stack), because [integer.MarshalIPP] and [enum.MarshalIPP] call
  themselves and never return ([None]); [UnMarshalIPP] takes the
  receiver's value and returns its new value, or the panic of a slice
  expression. [MarshlerRoundTrip] is the law the spec asks of every
  value codec, decoding what was encoded; it is proved for the byte
  string types, and the theorems of the file show which other
  implementations break it.

  The file also holds the value methods the decoder and the builders do
  not call: [String()] (a rune conversion for [integer], [enum] and
  [rangeOfInteger]), [octetString.validate], [NewResolution],
  [NewDateTime] and [DateTime] of a [time.Time], and the [Marshal]
  closure [refer] installs next to [Length] ([refer_Marshal]), a
  dispatch through the class. *)

From Stdlib Require Import ZArith Lia String.
From stdpp Require Import base list.
From S2P Require Import Prelude GoBinary Tags Values GoStrconv.
Import Tags Values Strconv.

Local Open Scope Z_scope.
Local Open Scope go_scope.

Module Methods.

(** ** The interface *)

Class Marshler (T : Type) := {
  MarshalIPP : nat -> T -> option (list Z);
  UnMarshalIPP : list Z -> T -> goRes T
}.

(** The values a Go variable of the type can hold: the fields at their
  declared widths ([int8], [int16], [int32]) and byte slices of bytes. *)
Class GoValid (T : Type) := go_valid : T -> bool.

Definition in_int (w : Z) (x : Z) : bool := (- 2 ^ (w - 1) <=? x) && (x <? 2 ^ (w - 1)).
Definition bytes_valid (l : list Z) : bool := forallb (fun b => (0 <=? b) && (b <? 256)) l.

(** The law the spec asks of a value codec: decoding what was encoded
  gives back every value of the type. *)
Class MarshlerRoundTrip (T : Type) `{Marshler T} `{GoValid T} := {
  unmarshal_marshal d x y bs : go_valid x = true -> MarshalIPP d x = Some bs -> UnMarshalIPP bs y = Ok x
}.

(** ** The byte string types *)

Record keyword := Keyword { keyword_b : list Z }.
Record uri := Uri { uri_b : list Z }.
Record uriScheme := UriScheme { uriScheme_b : list Z }.
Record charset := Charset { charset_b : list Z }.
Record naturalLanguage := NaturalLanguage { naturalLanguage_b : list Z }.
Record mimeMediaType := MimeMediaType { mimeMediaType_b : list Z }.

(** [buf := []byte{}; buf = append(buf, []byte(i)...)]. *)
Definition keyword_MarshalIPP (i : keyword) : list Z := [] ++ keyword_b i.
Definition keyword_UnMarshalIPP (b : list Z) (_ : keyword) : keyword := Keyword b.
Definition keyword_String (i : keyword) : list Z := keyword_b i.
Definition uri_MarshalIPP (i : uri) : list Z := [] ++ uri_b i.
Definition uri_UnMarshalIPP (b : list Z) (_ : uri) : uri := Uri b.
Definition uriScheme_MarshalIPP (i : uriScheme) : list Z := [] ++ uriScheme_b i.
Definition uriScheme_UnMarshalIPP (b : list Z) (_ : uriScheme) : uriScheme := UriScheme b.
Definition charset_MarshalIPP (i : charset) : list Z := [] ++ charset_b i.
Definition charset_UnMarshalIPP (b : list Z) (_ : charset) : charset := Charset b.
Definition naturalLanguage_MarshalIPP (i : naturalLanguage) : list Z := [] ++ naturalLanguage_b i.
Definition naturalLanguage_UnMarshalIPP (b : list Z) (_ : naturalLanguage) : naturalLanguage :=
  NaturalLanguage b.
Definition mimeMediaType_MarshalIPP (i : mimeMediaType) : list Z := [] ++ mimeMediaType_b i.
Definition mimeMediaType_UnMarshalIPP (b : list Z) (_ : mimeMediaType) : mimeMediaType :=
  MimeMediaType b.

#[export] Instance keyword_marshler : Marshler keyword :=
  {| MarshalIPP _ i := Some (keyword_MarshalIPP i); UnMarshalIPP b i := Ok (keyword_UnMarshalIPP b i) |}.
#[export] Instance uri_marshler : Marshler uri :=
  {| MarshalIPP _ i := Some (uri_MarshalIPP i); UnMarshalIPP b i := Ok (uri_UnMarshalIPP b i) |}.
#[export] Instance uriScheme_marshler : Marshler uriScheme :=
  {| MarshalIPP _ i := Some (uriScheme_MarshalIPP i); UnMarshalIPP b i := Ok (uriScheme_UnMarshalIPP b i) |}.
#[export] Instance charset_marshler : Marshler charset :=
  {| MarshalIPP _ i := Some (charset_MarshalIPP i); UnMarshalIPP b i := Ok (charset_UnMarshalIPP b i) |}.
#[export] Instance naturalLanguage_marshler : Marshler naturalLanguage :=
  {| MarshalIPP _ i := Some (naturalLanguage_MarshalIPP i);
     UnMarshalIPP b i := Ok (naturalLanguage_UnMarshalIPP b i) |}.
#[export] Instance mimeMediaType_marshler : Marshler mimeMediaType :=
  {| MarshalIPP _ i := Some (mimeMediaType_MarshalIPP i);
     UnMarshalIPP b i := Ok (mimeMediaType_UnMarshalIPP b i) |}.

#[export] Instance keyword_valid : GoValid keyword := fun i => bytes_valid (keyword_b i).
#[export] Instance uri_valid : GoValid uri := fun i => bytes_valid (uri_b i).
#[export] Instance uriScheme_valid : GoValid uriScheme := fun i => bytes_valid (uriScheme_b i).
#[export] Instance charset_valid : GoValid charset := fun i => bytes_valid (charset_b i).
#[export] Instance naturalLanguage_valid : GoValid naturalLanguage := fun i => bytes_valid (naturalLanguage_b i).
#[export] Instance mimeMediaType_valid : GoValid mimeMediaType := fun i => bytes_valid (mimeMediaType_b i).

(** ** The integer types *)

Record integer := Integer { integer_v : Z }.
Record enum := Enum { enum_v : Z }.
Record ippBoolean := IppBoolean { ippBoolean_v : Z }.

(** [integer.UnMarshalIPP] ignores its argument. *)
Definition integer_UnMarshalIPP (_ : list Z) (i : integer) : integer := i.

(** [string(i)] on an [int32]: the UTF-8 encoding of the rune. *)
Definition integer_String (i : integer) : list Z := encoderune (integer_v i).
Definition enum_String (e : enum) : list Z := encoderune (enum_v e).

(** [ippBoolean.bytes] and [MarshalIPP]: the [signedByte] writer. *)
Definition ippBoolean_bytes (i : ippBoolean) : list Z := signedByte_bytes (ippBoolean_v i).
Definition ippBoolean_MarshalIPP (i : ippBoolean) : list Z := ippBoolean_bytes i.

#[export] Instance integer_marshler : Marshler integer :=
  {| MarshalIPP d i := integer_MarshalIPP d (integer_v i);
     UnMarshalIPP b i := Ok (integer_UnMarshalIPP b i) |}.
#[export] Instance enum_marshler : Marshler enum :=
  {| MarshalIPP d e := enum_MarshalIPP d (enum_v e);
     UnMarshalIPP b _ := Ok (Enum (enum_UnMarshalIPP b)) |}.
#[export] Instance ippBoolean_marshler : Marshler ippBoolean :=
  {| MarshalIPP _ i := Some (ippBoolean_MarshalIPP i);
     UnMarshalIPP b _ := Ok (IppBoolean (ippBoolean_UnMarshalIPP b)) |}.

#[export] Instance integer_valid : GoValid integer := fun i => in_int 32 (integer_v i).
#[export] Instance enum_valid : GoValid enum := fun e => in_int 32 (enum_v e).
#[export] Instance ippBoolean_valid : GoValid ippBoolean := fun i => in_int 8 (ippBoolean_v i).

(** ** The composite types *)

Record textWithLanguage := TextWithLanguage { twl : octetString }.
Record nameWithLanguage := NameWithLanguage { nwl : octetString }.

(** The two with-language types repeat [octetString]'s methods. *)
Definition textWithLanguage_MarshalIPP (t : textWithLanguage) : list Z :=
  signedShort_bytes (os_nameLength (twl t)) ++ os_name (twl t) ++
  signedShort_bytes (os_valueLength (twl t)) ++ os_value (twl t).
Definition textWithLanguage_UnMarshalIPP (b : list Z) (_ : textWithLanguage) : goRes textWithLanguage :=
  let? o := octetString_UnMarshalIPP b in Ok (TextWithLanguage o).
Definition nameWithLanguage_length (o : nameWithLanguage) : Z :=
  u16 (i16 (4 + os_nameLength (nwl o) + os_valueLength (nwl o))).
Definition nameWithLanguage_MarshalIPP (t : nameWithLanguage) : list Z :=
  signedShort_bytes (os_nameLength (nwl t)) ++ os_name (nwl t) ++
  signedShort_bytes (os_valueLength (nwl t)) ++ os_value (nwl t).
Definition nameWithLanguage_UnMarshalIPP (b : list Z) (_ : nameWithLanguage) : goRes nameWithLanguage :=
  let? o := octetString_UnMarshalIPP b in Ok (NameWithLanguage o).

(** [signedShort.len()]: the length of its little-endian bytes. *)
Definition signedShort_len (x : Z) : Z := Z.of_nat (length (signedShort_bytes x)).

(** [signedInteger.len()], which nothing calls. *)
Definition signedInteger_len (x : Z) : Z := Z.of_nat (length (signedInteger_bytes x)).

(** [octetString.validate]: [4 + a.len() + c.len() == a.len()]. *)
Definition octetString_validate (o : octetString) : bool :=
  4 + signedShort_len (os_nameLength o) + signedShort_len (os_valueLength o) =?
  signedShort_len (os_nameLength o).

#[export] Instance octetString_marshler : Marshler octetString :=
  {| MarshalIPP _ o := Some (octetString_MarshalIPP o); UnMarshalIPP b _ := octetString_UnMarshalIPP b |}.
#[export] Instance textWithLanguage_marshler : Marshler textWithLanguage :=
  {| MarshalIPP _ t := Some (textWithLanguage_MarshalIPP t); UnMarshalIPP := textWithLanguage_UnMarshalIPP |}.
#[export] Instance nameWithLanguage_marshler : Marshler nameWithLanguage :=
  {| MarshalIPP _ t := Some (nameWithLanguage_MarshalIPP t); UnMarshalIPP := nameWithLanguage_UnMarshalIPP |}.
#[export] Instance dateTime_marshler : Marshler dateTime :=
  {| MarshalIPP _ d := Some (dateTime_MarshalIPP d); UnMarshalIPP b _ := dateTime_UnMarshalIPP b |}.
#[export] Instance resolution_marshler : Marshler resolution :=
  {| MarshalIPP _ r := Some (resolution_MarshalIPP r); UnMarshalIPP b _ := resolution_UnMarshalIPP b |}.
#[export] Instance rangeOfInteger_marshler : Marshler rangeOfInteger :=
  {| MarshalIPP _ r := Some (rangeOfInteger_MarshalIPP r);
     UnMarshalIPP b _ := Ok (rangeOfInteger_UnMarshalIPP b) |}.

#[export] Instance octetString_valid : GoValid octetString := fun o =>
  in_int 16 (os_nameLength o) && bytes_valid (os_name o) &&
  in_int 16 (os_valueLength o) && bytes_valid (os_value o).
#[export] Instance textWithLanguage_valid : GoValid textWithLanguage := fun t => go_valid (twl t).
#[export] Instance nameWithLanguage_valid : GoValid nameWithLanguage := fun t => go_valid (nwl t).
#[export] Instance resolution_valid : GoValid resolution := fun r =>
  in_int 32 (crossFeedDirection r) && in_int 32 (feedDirection r) && in_int 8 (units r).
#[export] Instance rangeOfInteger_valid : GoValid rangeOfInteger := fun r =>
  in_int 32 (lowerBound r) && in_int 32 (upperBound r).

(** [rangeOfInteger.String]: two rune conversions around " to ". *)
Definition rangeOfInteger_String (o : rangeOfInteger) : list Z :=
  encoderune (lowerBound o) ++ bytes_of_string " to " ++ encoderune (upperBound o).

(** [NewResolution] with Go [int] arguments. *)
Definition NewResolution (crossFdDirection feedDirection unit : Z) : resolution :=
  mkResolution (i32 crossFdDirection) (i32 feedDirection) (i8 unit).

(** ** [refer]'s [Marshal] closure

  Next to [Length], [refer] installs a [Marshal] closure for each of
  its thirteen tags: a type assertion on [a.value], then the asserted
  type's [MarshalIPP] ([charset] and [uri] return [b.bytes()], the
  slice itself). Nothing in the package calls it. [None] is a call
  that never returns, [Some (Panic r)] one that panics. *)
Definition refer_Marshal (depth : nat) (tag : Z) (v : goValue) : option (goRes (list Z)) :=
  let call r := option_map Ok r in
  let bad := Some (Panic TypeAssertion) in
  if tag =? TAG_STRING then
    match v with VOctetString o => call (MarshalIPP depth o) | _ => bad end
  else if tag =? TAG_DATE then
    match v with VDateTime d => call (MarshalIPP depth d) | _ => bad end
  else if tag =? TAG_RESOLUTION then
    match v with VResolution r => call (MarshalIPP depth r) | _ => bad end
  else if tag =? TAG_RANGE then
    match v with VRangeOfInteger r => call (MarshalIPP depth r) | _ => bad end
  else if tag =? TAG_TEXTLANG then
    match v with VTextWithLanguage o => call (MarshalIPP depth (TextWithLanguage o)) | _ => bad end
  else if tag =? TAG_LANGUAGE then
    match v with VNaturalLanguage b => call (MarshalIPP depth (NaturalLanguage b)) | _ => bad end
  else if tag =? TAG_KEYWORD then
    match v with VKeyword b => call (MarshalIPP depth (Keyword b)) | _ => bad end
  else if tag =? TAG_NAMELANG then
    match v with VNameWithLanguage o => call (MarshalIPP depth (NameWithLanguage o)) | _ => bad end
  else if tag =? TAG_INTEGER then
    match v with VInteger i => call (MarshalIPP depth (Integer i)) | _ => bad end
  else if tag =? TAG_BOOLEAN then
    match v with VBoolean b => call (MarshalIPP depth (IppBoolean b)) | _ => bad end
  else if tag =? TAG_ENUM then
    match v with VEnum e => call (MarshalIPP depth (Enum e)) | _ => bad end
  else if tag =? TAG_CHARSET then
    match v with VCharset b => Some (Ok b) | _ => bad end
  else if tag =? TAG_URI then
    match v with VUri b => Some (Ok b) | _ => bad end
  else Some (Panic NilFuncCall).

(** ** Dates *)

(** The [time.Time] accessors [DateTime] reads; [zone_offset] is the
  second result of [d.Zone()], in seconds east of UTC. *)
Record time := mkTime {
  t_year : Z; t_month : Z; t_day : Z; t_hour : Z; t_minute : Z; t_second : Z;
  t_nanosecond : Z; zone_offset : Z
}.

Definition NewDateTime : dateTime := mkDateTime 0 0 0 0 0 0 0 0 0.

(** [DateTime]: every field is a Go conversion of the accessor; the
  direction octet is always ['-'] (0x2d) and the offset is divided by
  60 with Go's truncating division. *)
Definition DateTime (d : time) : dateTime :=
  mkDateTime (i16 (t_year d)) (i8 (t_month d)) (i8 (t_day d)) (i8 (t_hour d))
             (i8 (t_minute d)) (i8 (t_second d)) (i8 (t_nanosecond d)) (i8 0x002d)
             (i8 (Z.quot (zone_offset d) 60)).

(** [Now] is [DateTime(time.Now())]: the clock is its input. *)
Definition Now (clock : time) : dateTime := DateTime clock.

(** ** The round-trip law *)

Section RoundTripClient.
Context {T : Type} `{MarshlerRoundTrip T}.

(** A codec that decodes what it encodes writes distinct values
  distinctly. *)
Lemma MarshalIPP_injective d1 d2 x y bs :
  go_valid x = true -> go_valid y = true ->
  MarshalIPP d1 x = Some bs -> MarshalIPP d2 y = Some bs -> x = y.
Proof.
  intros Vx Vy Hx Hy. pose proof (unmarshal_marshal d1 x x bs Vx Hx) as E1.
  pose proof (unmarshal_marshal d2 y x bs Vy Hy) as E2. congruence.
Qed.

End RoundTripClient.

Ltac roundtrip_bytes := constructor; intros d [b] y bs _ E; injection E as <-; reflexivity.

#[export] Instance keyword_roundtrip : MarshlerRoundTrip keyword.
Proof. roundtrip_bytes. Qed.
#[export] Instance uri_roundtrip : MarshlerRoundTrip uri.
Proof. roundtrip_bytes. Qed.
#[export] Instance uriScheme_roundtrip : MarshlerRoundTrip uriScheme.
Proof. roundtrip_bytes. Qed.
#[export] Instance charset_roundtrip : MarshlerRoundTrip charset.
Proof. roundtrip_bytes. Qed.
#[export] Instance naturalLanguage_roundtrip : MarshlerRoundTrip naturalLanguage.
Proof. roundtrip_bytes. Qed.
#[export] Instance mimeMediaType_roundtrip : MarshlerRoundTrip mimeMediaType.
Proof. roundtrip_bytes. Qed.

Lemma integer_MarshalIPP_diverges d i : integer_MarshalIPP d i = None.
Proof. induction d; [reflexivity | exact IHd]. Qed.

Lemma enum_MarshalIPP_diverges d e : enum_MarshalIPP d e = None.
Proof. induction d; [reflexivity | exact IHd]. Qed.

(** A law fails as soon as one value is decoded to something else. *)
Lemma roundtrip_counterexample {T} `{Marshler T} `{GoValid T} d (x y : T) bs :
  go_valid x = true -> MarshalIPP d x = Some bs -> UnMarshalIPP bs y <> Ok x -> ~ MarshlerRoundTrip T.
Proof. intros Hv Hm Hu [Hl]. exact (Hu (Hl d x y bs Hv Hm)). Qed.

Ltac refute_roundtrip x :=
  eapply (roundtrip_counterexample 0 x x);
  [vm_compute; reflexivity | vm_compute; reflexivity | vm_compute; discriminate].

Definition os_example : octetString := mkOctetString 2 [101; 110] 1 [120].


(** [integer.String] is a rune conversion: it returns the one to
  four bytes of the UTF-8 encoding of the integer read as a code point
  (U+FFFD for negative numbers, surrogates and numbers above U+10FFFF),
  so an integer below 128 prints as the single character of that code,
  not as its decimal digits. *)
Theorem integer_String_utf8 i :
  (1 <= length (integer_String i) <= 4)%nat /\ bytes_ok (integer_String i) /\
  (0 <= integer_v i < 128 -> integer_String i = [integer_v i]).
Proof.
  unfold integer_String. destruct (encoderune_bytes (integer_v i)) as [Hl Hb].
  split; [exact Hl|]. split; [exact Hb|]. apply encoderune_ascii.
Qed.

Lemma integer_String_utf8_witness :
  0 <= integer_v (Integer 42) < 128 /\ integer_String (Integer 42) = [42].
Proof.
  assert (H : 0 <= integer_v (Integer 42) < 128) by (simpl; lia).
  split; [exact H | exact (proj2 (proj2 (integer_String_utf8 (Integer 42))) H)].
Defined.

(** The panics of the [Marshal] closure: nil for a tag [refer] has no
  case for, a failed assertion for a value of another syntax. Unlike
  [Length], whose closures for the fixed-size syntaxes never look at
  the value, every [Marshal] closure asserts. *)
Definition marshal_fault (t : Z) (v : goValue) : option panic_reason :=
  if negb (mem t refer_tags) then Some NilFuncCall
  else if negb (syntax_tag v =? t) then Some TypeAssertion
  else None.

(** C25. What a call of [refer]'s [Marshal] closure does, at any stack
  depth: it panics exactly as [marshal_fault] says; when the tag has a
  case and the value its syntax, it never returns for integer and enum
  (their [MarshalIPP] call themselves) and returns bytes for the eleven
  other syntaxes. *)
Theorem refer_Marshal_outcome d t v :
  match refer_Marshal d t v with
  | Some (Panic r) => marshal_fault t v = Some r
  | None => marshal_fault t v = None /\ (t = TAG_INTEGER \/ t = TAG_ENUM)
  | Some (Ok _) => marshal_fault t v = None /\ t <> TAG_INTEGER /\ t <> TAG_ENUM
  end.
Proof.
  unfold refer_Marshal, marshal_fault, mem, refer_tags. cbn [existsb].
  repeat match goal with
  | |- context [if t =? ?c then _ else _] =>
      let E := fresh "E" in destruct (t =? c) eqn:E; [apply Z.eqb_eq in E; subst t|rewrite ?E]
  end; cbn [orb negb]; [destruct v; cbn;
    rewrite ?integer_MarshalIPP_diverges, ?enum_MarshalIPP_diverges;
    vm_compute; repeat split; (reflexivity || discriminate || (right; reflexivity) || (left; reflexivity)) ..
  | reflexivity].
Qed.

(** [octetString.validate] compares [4 + 2 + 2] with [2]: it is false
  for every value. *)
Lemma octetString_validate_false o : octetString_validate o = false.
Proof. reflexivity. Qed.

(** [DateTime] writes the nanoseconds truncated to a byte as the
  deci-seconds, always ['-'] as the direction, and the zone offset in
  minutes as the hours: 12:30:00.999999999 in UTC+1 gives
  deci-seconds -1 (the low byte 0xFF of the nanoseconds) and an offset
  octet of 60. *)
Example DateTime_half_past_noon :
  DateTime (mkTime 2026 11 9 12 30 0 999999999 3600) =
    mkDateTime 2026 11 9 12 30 0 (-1) 45 60.
Proof. reflexivity. Qed.

End Methods.
