(* ===== verification/Model.v ===== *)
(** * Model: the message, attribute-group and attribute structures of
  [src/ipp/ippMsg.go] with their builder operations, and the requests
  the CUPS client of [src/ipp/cups.go] builds with them

  [attribute] is an ordered list of [attributeValue]s; [addValue] names
  only the first one (later values get name length 0, the IPP
  "additional value" form) and stores the declared value length the tag's
  [Length] closure computes. [Message.addAttribute] wraps every new
  attribute in a fresh operation-attributes group. All builders are
  fallible: [addValue] panics when the tag has no [Length] closure or the
  value's dynamic type does not match the tag. [UUID4], the request-id
  generator [newID] does not call, is modelled with its random bytes as
  input. *)

From Stdlib Require Import ZArith Lia String.
From stdpp Require Import base list.
From S2P Require Import Prelude GoBinary Tags Values GoStrconv.
Import Tags Values Strconv.

Local Open Scope Z_scope.
Local Open Scope go_scope.

Module Model.

Record attribute := mkAttr { values : list attributeValue }.

Record attributeGroup := mkGroup {
  beginAttributeGroupTag : Z;
  attributes : list attribute
}.

Record Message := mkMsg {
  majorVer : Z;
  minorVer : Z;
  operationIdStatusCode : Z;
  operationOrStatusCode : Z;
  requestId : Z;
  attributeGroups : list attributeGroup;
  endAttributeTag : Z;
  Data : list Z;
  IsResponse : bool
}.

Definition NewAttribute : attribute := mkAttr [].

(** [attributeValue.Str]: the tag's name and the value's name, each
  followed by " - " ([valueTagStr] is a Go string, [name] bytes). *)
Definition Str (a : attributeValue) : list Z :=
  bytes_of_string (valueTagStr a) ++ bytes_of_string " - " ++ name a ++ bytes_of_string " - ".

Definition appendValue (i : attribute) (av : attributeValue) : attribute :=
  mkAttr (values i ++ [av]).

(** [addValue]: an additional value (the attribute already holds one)
  keeps an empty name and name length 0 whatever [name] is passed; the
  first value stores [name] and [int16(len(name))]. Both store
  [valueLength = Length()]. *)
Definition addValue (i : attribute) (tag : Z) (nm : list Z) (val : goValue) : goRes attribute :=
  if 0 <? Z.of_nat (length (values i)) then
    let? len := refer_Length tag val in
    Ok (mkAttr (values i ++ [mkAV tag "" 0 [] len val]))
  else
    let? len := refer_Length tag val in
    Ok (mkAttr (values i ++ [mkAV tag "" (i16 (Z.of_nat (length nm))) nm len val])).

Definition AddValue := addValue.

Definition newAg (a : attribute) : attributeGroup := mkGroup TAG_OPERATION [a].

Definition with_groups (m : Message) (gs : list attributeGroup) : Message :=
  mkMsg (majorVer m) (minorVer m) (operationIdStatusCode m) (operationOrStatusCode m)
        (requestId m) gs (endAttributeTag m) (Data m) (IsResponse m).

Definition AppendAttribute (m : Message) (a : attribute) : Message :=
  with_groups m (attributeGroups m ++ [newAg a]).

Definition addAttribute (m : Message) (tag : Z) (nm : list Z) (val : goValue) : goRes Message :=
  let? a := addValue NewAttribute tag nm val in
  Ok (with_groups m (attributeGroups m ++ [newAg a])).

Definition AddAttribute := addAttribute.

(** [newID] is a stub that always answers 1. *)
Definition newID : Z := 1.

(** [UUID4], the generator [newID] would call: [rnd] is the buffer
  [io.ReadFull(rand.Reader, b)] fills ([b := make([]byte, 16)]; a
  failed read ends the process in [log.Fatal]). It sets the version
  and variant bits, formats the bytes as a dashed hex string and parses
  that string as a decimal [int]. *)
Definition UUID4 (rnd : list Z) : goRes (Z * option num_error) :=
  let b := rnd in
  let? b6 := go_index b 6 in
  let b := <[6%nat := Z.lor (Z.land b6 15) 64]> b in
  let? b8 := go_index b 8 in
  let b := <[8%nat := Z.lor (Z.land b8 (Z.lnot 64)) 128]> b in
  let? s0 := go_slice b 0 4 in
  let? s1 := go_slice b 4 6 in
  let? s2 := go_slice b 6 8 in
  let? s3 := go_slice b 8 10 in
  let? s4 := go_slice b 10 (Z.of_nat (length b)) in
  let str := hex_bytes s0 ++ [45] ++ hex_bytes s1 ++ [45] ++ hex_bytes s2 ++ [45] ++
             hex_bytes s3 ++ [45] ++ hex_bytes s4 in
  let '(uid, err) := Atoi str in
  Ok (i32 uid, err).

Definition newMessage (idStatusCode : Z) : Message :=
  mkMsg (i8 MAJOR_VERSION) (i8 MINOR_VERSION) idStatusCode 0 newID [] TAG_END [] false.

Definition NewMessage := newMessage.
Definition NewRequest := newMessage.
Definition NewResponse := newMessage.

(** ** The requests of the CUPS client ([cups.go]): the message each
  method hands to [DoRequest]. *)

Definition CreateRequest (operationId : Z) : Message := newMessage operationId.

Definition str := bytes_of_string.

Definition GetPrinters_request : goRes Message :=
  let m := CreateRequest CUPS_GET_PRINTERS in
  let? m := addAttribute m TAG_CHARSET (str "attributes-charset") (VCharset (str "utf-8")) in
  let? m := addAttribute m TAG_LANGUAGE (str "attributes-natural-language")
                         (VNaturalLanguage (str "en-us")) in
  let? m := addAttribute m TAG_KEYWORD (str "requested-attributes") (VKeyword (str "printer-name")) in
  let? m := addAttribute m TAG_ENUM (str "printer-type") (VEnum 0) in
  addAttribute m TAG_ENUM (str "printer-type-mask") (VEnum 1).

Definition GetPrinterAttributes_request : goRes Message :=
  let m := CreateRequest GET_PRINTER_ATTRIBUTES in
  let? m := addAttribute m TAG_CHARSET (str "attributes-charset") (VCharset (str "utf-8")) in
  let? m := addAttribute m TAG_LANGUAGE (str "attributes-natural-language")
                         (VNaturalLanguage (str "en-us")) in
  let? m := addAttribute m TAG_URI (str "printer-uri") (VUri (str "ipp://192.168.1.1:631/ipp/")) in
  let a := NewAttribute in
  let? a := AddValue a TAG_KEYWORD (str "requested-attributes") (VKeyword (str "copies-supported")) in
  let? a := AddValue a TAG_KEYWORD [] (VKeyword (str "document-format-supported")) in
  let? a := AddValue a TAG_KEYWORD [] (VKeyword (str "printer-is-accepting-jobs")) in
  let? a := AddValue a TAG_KEYWORD [] (VKeyword (str "printer-state")) in
  let? a := AddValue a TAG_KEYWORD [] (VKeyword (str "printer-state-message")) in
  let? a := AddValue a TAG_KEYWORD [] (VKeyword (str "printer-state-reasons")) in
  Ok (AppendAttribute m a).

Definition PrintTestPage_request : goRes Message :=
  let m := CreateRequest PAUSE_PRINTER in
  let? m := addAttribute m TAG_CHARSET (str "attributes-charset") (VCharset (str "utf-8")) in
  addAttribute m TAG_LANGUAGE (str "attributes-natural-language") (VNaturalLanguage (str "en-us")).

(** ** Well-formedness of an attribute built by [addValue]

  Only the first value is named (with its name length); every additional
  value has name length 0 and no name. *)
Definition additional (v : attributeValue) : Prop := nameLength v = 0 /\ name v = [].

Definition attr_wf (a : attribute) : Prop :=
  match values a with
  | [] => True
  | v0 :: vs => nameLength v0 = i16 (Z.of_nat (length (name v0))) /\ Forall additional vs
  end.

(** The value [addValue] appends: named when it is the first. *)
Definition added_value (a : attribute) (tag : Z) (nm : list Z) (val : goValue) (len : Z)
  : attributeValue :=
  match values a with
  | [] => mkAV tag "" (i16 (Z.of_nat (length nm))) nm len val
  | _ :: _ => mkAV tag "" 0 [] len val
  end.

Lemma addValue_spec a tag nm val len :
  refer_Length tag val = Ok len ->
  addValue a tag nm val = Ok (mkAttr (values a ++ [added_value a tag nm val len])).
Proof.
  intros Hl. unfold addValue, added_value.
  destruct (values a) as [|v vs] eqn:E; simpl; rewrite Hl; reflexivity.
Qed.

Lemma addValue_error a tag nm val r :
  refer_Length tag val = Panic r -> addValue a tag nm val = Panic r.
Proof.
  intros Hl. unfold addValue. destruct (values a); simpl; rewrite Hl; reflexivity.
Qed.

Lemma attr_wf_snoc a v :
  attr_wf a -> values a <> [] -> additional v -> attr_wf (mkAttr (values a ++ [v])).
Proof.
  unfold attr_wf. destruct (values a) as [|v0 vs]; simpl; [congruence|].
  intros [H0 Hs] _ Hv. split; [exact H0|]. apply Forall_app; auto.
Qed.

(** C3. [addValue] keeps an attribute well formed: whatever names the
  caller passes, only the first value of an attribute carries a name
  (with its [int16] length), and every later value is an additional
  value with name length 0 and no name. *)
Theorem addValue_preserves_wf a tag nm val a' :
  attr_wf a -> addValue a tag nm val = Ok a' -> attr_wf a'.
Proof.
  intros Hwf Hadd. destruct (refer_Length tag val) as [len|r] eqn:Hl.
  - rewrite (addValue_spec _ _ _ _ len Hl) in Hadd. injection Hadd as <-.
    unfold added_value. destruct (values a) as [|v0 vs] eqn:E.
    + simpl. unfold attr_wf. simpl. split; [reflexivity | constructor].
    + rewrite <- E. apply attr_wf_snoc; [exact Hwf | congruence | split; reflexivity].
  - rewrite (addValue_error _ _ _ _ r Hl) in Hadd. discriminate.
Qed.

(** C26. When [addValue] panics: with a nil-function call for every tag
  [refer] has no [Length] closure for (nameWithoutLanguage,
  textWithoutLanguage, mimeMediaType, uriScheme and the out-of-band
  tags among them), with a failed type assertion when the closure reads
  a value of another type; otherwise it returns. *)
Theorem addValue_panics a tag nm val r :
  addValue a tag nm val = Panic r <-> refer_error tag val = Some r.
Proof.
  rewrite <- refer_Length_Panic. destruct (refer_Length tag val) as [len|r'] eqn:Hl.
  - rewrite (addValue_spec _ _ _ _ len Hl). split; discriminate.
  - rewrite (addValue_error _ _ _ _ r' Hl). split; congruence.
Qed.

(** C29. [UUID4] never produces an id: whatever the sixteen random bytes,
  the formatted string has a dash after eight hex digits (or a letter
  before it), so [strconv.Atoi] fails with a syntax error and [UUID4]
  returns 0 with that error. *)
Theorem UUID4_fails rnd :
  length rnd = 16%nat -> bytes_ok rnd -> UUID4 rnd = Ok (0, Some ErrSyntax).
Proof.
  intros Hl Hb.
  do 16 (destruct rnd as [|? rnd]; [discriminate|]). destruct rnd; [|discriminate].
  match goal with |- UUID4 [?x0; ?x1; ?x2; ?x3; ?x4; ?x5; ?x6; ?x7; ?x8; ?x9; ?x10; ?x11; ?x12; ?x13; ?x14; ?x15] = _ =>
    transitivity (let '(uid, err) :=
                    Atoi (hex_bytes [x0; x1; x2; x3] ++ 45 ::
                          (hex_bytes [x4; x5] ++ [45] ++ hex_bytes [Z.lor (Z.land x6 15) 64; x7] ++ [45] ++
                           hex_bytes [Z.lor (Z.land x8 (Z.lnot 64)) 128; x9] ++ [45] ++
                           hex_bytes [x10; x11; x12; x13; x14; x15])) in Ok (i32 uid, err));
    [reflexivity|] end.
  rewrite Atoi_hex_dash.
  - reflexivity.
  - apply hex_bytes_chars. unfold bytes_ok in *. do 4 (inversion Hb as [|? ? ? Hb']; subst; clear Hb; rename Hb' into Hb; constructor; [assumption|]). constructor.
  - reflexivity.
  - rewrite !length_app, !length_hex_bytes. simpl. lia.
Qed.

Definition wf_example_first : attributeValue :=
  mkAV TAG_KEYWORD "" 3 (str "abc") 2 (VKeyword (str "xy")).

Lemma addValue_preserves_wf_witness :
  attr_wf (mkAttr [wf_example_first]) /\
  addValue (mkAttr [wf_example_first]) TAG_KEYWORD (str "ignored") (VKeyword (str "uvw")) =
    Ok (mkAttr [wf_example_first; mkAV TAG_KEYWORD "" 0 [] 3 (VKeyword (str "uvw"))]) /\
  attr_wf (mkAttr [wf_example_first; mkAV TAG_KEYWORD "" 0 [] 3 (VKeyword (str "uvw"))]).
Proof.
  assert (H0 : attr_wf (mkAttr [wf_example_first])) by (split; [reflexivity | constructor]).
  assert (H1 : addValue (mkAttr [wf_example_first]) TAG_KEYWORD (str "ignored") (VKeyword (str "uvw")) =
    Ok (mkAttr [wf_example_first; mkAV TAG_KEYWORD "" 0 [] 3 (VKeyword (str "uvw"))])) by reflexivity.
  split; [exact H0 | split; [exact H1 | exact (addValue_preserves_wf _ _ _ _ _ H0 H1)]].
Defined.

Definition uuid_example_bytes : list Z :=
  [18; 52; 86; 120; 154; 188; 222; 240; 1; 35; 69; 103; 137; 171; 205; 239].

Lemma UUID4_fails_witness :
  length uuid_example_bytes = 16%nat /\ bytes_ok uuid_example_bytes /\
  UUID4 uuid_example_bytes = Ok (0, Some ErrSyntax).
Proof.
  assert (H1 : length uuid_example_bytes = 16%nat) by reflexivity.
  assert (H2 : bytes_ok uuid_example_bytes) by (apply (bool_decide_unpack _); vm_compute; reflexivity).
  split; [exact H1 | split; [exact H2 | exact (UUID4_fails _ H1 H2)]].
Defined.

End Model.
