(* ===== verification/Encoder.v ===== *)
(** * Encoder: [marshallMsg] and [marshallAtrib] of [src/IppGenerator.go]

  The encoder writes with [binary.Write(b, binary.BigEndian, x)]: the
  two version bytes, the 16-bit operation id or status code, the 32-bit
  request id, then the attribute section, the end-of-attributes tag 3
  and the document data. The attribute section starts with one
  operation-attributes tag 0x01 and then the frames of every attribute of
  every group: no group's own tag is written. A frame is
  [value-tag, name-length, name, value-length, value] for the first
  value of an attribute and [value-tag, 0x0000, value-length, value] for
  the others; the value bytes are whatever [binary.Write] produces for
  the dynamic type, and the value length is the one stored by
  [addValue], not the number of bytes written. *)

From Stdlib Require Import ZArith Lia String.
From stdpp Require Import base list.
From S2P Require Import Prelude GoBinary Tags Values Model.
Import Tags Values Model.

Local Open Scope Z_scope.
Local Open Scope go_scope.

Module Encoder.

(** [binary.Write(b, binary.BigEndian, 0x0000)]: an untyped constant is
  an [int], which has no fixed size: an error, nothing written. *)
Definition binary_Write_int_const : option (list Z) := None.

(** [v.value] is nil. *)
Definition is_nil (v : goValue) : bool := match v with VNil => true | _ => false end.

(** ** The bytes the buffer receives

  The [_bytes] functions give what [marshallAtrib] and [marshallMsg]
  write into their buffer when they return (they are related to the Go
  functions below by [marshallMsg_spec]); [value_bytes] is what the
  [binary.Write] of [v.value] (or of the constant [0x0000] for a nil
  first value) leaves in the buffer, nothing on a [binary.Write] error. *)
Definition value_bytes (first : bool) (v : goValue) : list Z :=
  if first && is_nil v then default [] binary_Write_int_const
  else match binary_Write_value v with Ok (Some w) => w | _ => [] end.

(** One iteration of [for iii, v := range a.values]. *)
Definition marshal_value_bytes (iii : nat) (v : attributeValue) : list Z :=
  if (iii =? 0)%nat then
    be_bytes 1 (valueTag v) ++ be_bytes 2 (nameLength v) ++ name v ++
    be_bytes 2 (valueLength v) ++ value_bytes true (value v)
  else
    be_bytes 1 (valueTag v) ++ be_bytes 2 0 ++ be_bytes 2 (valueLength v) ++
    value_bytes false (value v).

Fixpoint marshal_values_bytes (iii : nat) (vs : list attributeValue) : list Z :=
  match vs with
  | [] => []
  | v :: vs' => marshal_value_bytes iii v ++ marshal_values_bytes (S iii) vs'
  end.

Definition marshal_attribute_bytes (a : attribute) : list Z := marshal_values_bytes 0 (values a).

Definition marshal_group_bytes (ag : attributeGroup) : list Z :=
  concat (map marshal_attribute_bytes (attributes ag)).

Definition marshallAtrib_bytes (im : Message) : list Z :=
  be_bytes 1 TAG_OPERATION ++ concat (map marshal_group_bytes (attributeGroups im)).

Definition marshallMsg_bytes (im : Message) : list Z :=
  let x := marshallAtrib_bytes im in
  be_bytes 1 (majorVer im) ++ be_bytes 1 (minorVer im) ++
  be_bytes 2 (operationIdStatusCode im) ++ be_bytes 4 (requestId im) ++
  x ++ be_bytes 1 3 ++ Data im.

(** ** The functions of [src/IppGenerator.go]

  The first-value branch tests [v.value == nil] and writes the constant
  [0x0000] instead; the additional-value branch writes [v.value] as it
  is, and [binary_Write_value] panics on a nil interface. *)
Definition value_write (first : bool) (v : goValue) : goRes (list Z) :=
  if first && is_nil v then Ok (default [] binary_Write_int_const)
  else let? w := binary_Write_value v in Ok (default [] w).

(** One iteration of [for iii, v := range a.values]. *)
Definition marshal_value (iii : nat) (v : attributeValue) : goRes (list Z) :=
  if (iii =? 0)%nat then
    let? vb := value_write true (value v) in
    Ok (be_bytes 1 (valueTag v) ++ be_bytes 2 (nameLength v) ++ name v ++
        be_bytes 2 (valueLength v) ++ vb)
  else
    let? vb := value_write false (value v) in
    Ok (be_bytes 1 (valueTag v) ++ be_bytes 2 0 ++ be_bytes 2 (valueLength v) ++ vb).

Fixpoint marshal_values (iii : nat) (vs : list attributeValue) : goRes (list Z) :=
  match vs with
  | [] => Ok []
  | v :: vs' =>
      let? b := marshal_value iii v in
      let? r := marshal_values (S iii) vs' in
      Ok (b ++ r)
  end.

Definition marshal_attribute (a : attribute) : goRes (list Z) := marshal_values 0 (values a).

(** A [for] loop over a slice whose body writes into the buffer. *)
Fixpoint write_all {A} (f : A -> goRes (list Z)) (l : list A) : goRes (list Z) :=
  match l with
  | [] => Ok []
  | x :: l' => let? b := f x in let? r := write_all f l' in Ok (b ++ r)
  end.

Definition marshal_group (ag : attributeGroup) : goRes (list Z) :=
  write_all marshal_attribute (attributes ag).

Definition marshallAtrib (im : Message) : goRes (list Z) :=
  let? gs := write_all marshal_group (attributeGroups im) in
  Ok (be_bytes 1 TAG_OPERATION ++ gs).

Definition marshallMsg (im : Message) : goRes (list Z) :=
  let? x := marshallAtrib im in
  Ok (be_bytes 1 (majorVer im) ++ be_bytes 1 (minorVer im) ++
      be_bytes 2 (operationIdStatusCode im) ++ be_bytes 4 (requestId im) ++
      x ++ be_bytes 1 3 ++ Data im).

(** The messages [marshallMsg] returns on: no additional value is nil. *)
Definition writable_attr (a : attribute) : bool :=
  forallb (fun v => negb (is_nil (value v))) (tail (values a)).

(** All attributes of a message, in order, across its groups. *)
Definition all_attributes (m : Message) : list attribute :=
  concat (map attributes (attributeGroups m)).

Definition writable (m : Message) : bool := forallb writable_attr (all_attributes m).

(** The eight header bytes. *)
Definition header_bytes (m : Message) : list Z :=
  be_bytes 1 (majorVer m) ++ be_bytes 1 (minorVer m) ++
  be_bytes 2 (operationIdStatusCode m) ++ be_bytes 4 (requestId m).

Lemma length_header_bytes m : length (header_bytes m) = 8%nat.
Proof. unfold header_bytes. rewrite !length_app, !length_be_bytes. reflexivity. Qed.

Lemma marshal_groups_flat gs :
  concat (map marshal_group_bytes gs) = concat (map marshal_attribute_bytes (concat (map attributes gs))).
Proof.
  induction gs as [|g gs IH]; simpl; [reflexivity|].
  rewrite IH, map_app, concat_app. reflexivity.
Qed.

Lemma marshallMsg_eq m :
  marshallMsg_bytes m = header_bytes m ++ [TAG_OPERATION] ++
                  concat (map marshal_attribute_bytes (all_attributes m)) ++ [TAG_END] ++ Data m.
Proof.
  unfold marshallMsg_bytes, marshallAtrib_bytes, header_bytes, all_attributes.
  rewrite marshal_groups_flat. rewrite <- !app_assoc. reflexivity.
Qed.

(** ** [marshallMsg] against the buffer contents *)

Lemma marshal_values_S_spec k vs :
  marshal_values (S k) vs =
    if forallb (fun v => negb (is_nil (value v))) vs then Ok (marshal_values_bytes (S k) vs)
    else Panic NilDeref.
Proof.
  revert k. induction vs as [|v vs IH]; intros k; [reflexivity|].
  cbn [marshal_values forallb]. rewrite IH. unfold marshal_value, value_write.
  cbn [Nat.eqb marshal_values_bytes]. unfold marshal_value_bytes, value_bytes. cbn [Nat.eqb].
  destruct (value v); destruct (forallb _ vs); reflexivity.
Qed.

Lemma marshal_attribute_spec a :
  marshal_attribute a =
    if writable_attr a then Ok (marshal_attribute_bytes a) else Panic NilDeref.
Proof.
  unfold marshal_attribute, marshal_attribute_bytes, writable_attr.
  destruct (values a) as [|v vs]; [reflexivity|]. cbn [marshal_values tail].
  rewrite marshal_values_S_spec. unfold marshal_value, value_write.
  cbn [Nat.eqb marshal_values_bytes]. unfold marshal_value_bytes, value_bytes. cbn [Nat.eqb].
  destruct (value v); destruct (forallb _ vs); reflexivity.
Qed.

Lemma write_all_spec {A} (f : A -> goRes (list Z)) (ok : A -> bool) (g : A -> list Z) l :
  (forall x, f x = if ok x then Ok (g x) else Panic NilDeref) ->
  write_all f l = if forallb ok l then Ok (concat (map g l)) else Panic NilDeref.
Proof.
  intros Hf. induction l as [|x l IH]; [reflexivity|].
  cbn [write_all forallb map concat]. rewrite Hf, IH.
  destruct (ok x), (forallb ok l); reflexivity.
Qed.

Lemma forallb_concat_map_attributes (p : attribute -> bool) gs :
  forallb p (concat (map attributes gs)) = forallb (fun g => forallb p (attributes g)) gs.
Proof.
  induction gs as [|g gs IH]; [reflexivity|]. cbn [map concat forallb].
  rewrite forallb_app, IH. reflexivity.
Qed.

(** [marshallAtrib] and [marshallMsg] return exactly on the writable
  messages, and then their buffers hold the [_bytes] functions. *)
Lemma marshallAtrib_spec m :
  marshallAtrib m = if writable m then Ok (marshallAtrib_bytes m) else Panic NilDeref.
Proof.
  unfold marshallAtrib, marshal_group, writable, all_attributes.
  rewrite (write_all_spec marshal_group (fun g => forallb writable_attr (attributes g)) marshal_group_bytes)
    by (intros g; exact (write_all_spec _ _ _ _ marshal_attribute_spec)).
  rewrite forallb_concat_map_attributes.
  destruct (forallb _ _); reflexivity.
Qed.

Lemma marshallMsg_spec m :
  marshallMsg m = if writable m then Ok (marshallMsg_bytes m) else Panic NilDeref.
Proof.
  unfold marshallMsg. rewrite marshallAtrib_spec. destruct (writable m); reflexivity.
Qed.

Lemma is_nil_spec v : is_nil v = true <-> v = VNil.
Proof. destruct v; cbn; split; congruence. Qed.

Lemma writable_false m :
  writable m = false <->
  exists a v, In a (all_attributes m) /\ In v (tail (values a)) /\ value v = VNil.
Proof.
  unfold writable, writable_attr. rewrite forallb_false_In. split.
  - intros (a & Ha & H). apply forallb_false_In in H as (v & Hv & H).
    apply negb_false_iff, is_nil_spec in H. eauto.
  - intros (a & v & Ha & Hv & H). exists a. split; [exact Ha|].
    apply forallb_false_In. exists v. split; [exact Hv|]. apply negb_false_iff, is_nil_spec, H.
Qed.

(** C10. When [marshallMsg] panics: the first-value branch tests
  [v.value == nil] and writes the constant [0x0000] instead, but the
  additional-value branch hands a nil [v.value] to [binary.Write], which
  dereferences a nil [reflect.Type]: [marshallMsg] panics with a nil
  dereference exactly when some attribute has a nil additional value,
  never for another reason, and otherwise returns the bytes
  [marshallMsg_bytes] describes. *)
Theorem marshallMsg_nil_panic m :
  (forall r, marshallMsg m = Panic r <->
     r = NilDeref /\ exists a v, In a (all_attributes m) /\ In v (tail (values a)) /\ value v = VNil) /\
  (forall b, marshallMsg m = Ok b -> b = marshallMsg_bytes m).
Proof.
  pose proof (writable_false m) as Hw. rewrite marshallMsg_spec. destruct (writable m).
  - split; [|intros b E; injection E as <-; reflexivity].
    intros r. split; [discriminate | intros [_ H]; apply Hw in H; discriminate].
  - split; [|discriminate]. intros r. split.
    + intros E. injection E as <-. split; [reflexivity | apply Hw; reflexivity].
    + intros [-> _]. reflexivity.
Qed.

(** A nil additional value the builder accepts: the [Length] closure of
  [TAG_INTEGER] returns 4 without looking at the value, so
  [AddValue(TAG_INTEGER, "copies", nil)] on an integer attribute
  returns. *)
Definition nil_additional_attr : attribute :=
  match (let? a := addValue NewAttribute TAG_INTEGER (str "copies") (VInteger 1) in
         addValue a TAG_INTEGER (str "copies") VNil) with
  | Ok a => a
  | Panic _ => NewAttribute
  end.

Definition nil_additional : Message :=
  mkMsg 1 1 0x4002 0 1 [mkGroup TAG_OPERATION [nil_additional_attr]] TAG_END [] false.

Lemma marshallMsg_nil_panic_witness :
  marshallMsg nil_additional = Panic NilDeref.
Proof.
  apply (proj1 (marshallMsg_nil_panic nil_additional) NilDeref). split; [reflexivity|].
  exists nil_additional_attr, (mkAV TAG_INTEGER "" 0 [] 4 VNil).
  split; [left; reflexivity|]. split; [left; reflexivity | reflexivity].
Defined.

End Encoder.
