(* ===== verification/Decoder.v ===== *)
(** * Decoder: [ParseMessage] and [splitAValues] of [src/ipp/unMarshall.go]

  [ParseMessage] reads the header with varint readers on one-, one-,
  one- and four-byte slices, sets [IsResponse] with [typeCheck], and
  hands the bytes after the header to [splitAValues]. [splitAValues] is
  a loop over the scanner of [Utils]: its state is the groups closed so
  far ([ags]), the open group ([ag]), the pending attribute ([v]), the
  last tag read ([vTag]) and the scanner. One iteration ([split_body])
  reads a tag; a delimiter closes the open group (appending the pending
  attribute to it) and opens a new one; any other tag reads a name length,
  a name when it is not zero, a value length and a value, decodes the
  value with [UnMarshallattribute] and appends it to the pending
  attribute. The loop runs while [vTag] is not the end tag 3 and leaves
  on [break] when a read fails. The Go [for] loop is [split_loop], with
  a fuel argument that [splitAValues] sets to one more than the input
  length: [splitAValues_terminates] shows it is always enough, and
  [split_loop_fuel_irrelevant] that any larger bound gives the same
  result. The step relation [body_effect] and its closure [reach] carry
  the invariants of the loop ([splitAValues_group_shape],
  [splitAValues_prefix_chain]). *)

From Stdlib Require Import ZArith Lia String.
From stdpp Require Import base list.
From S2P Require Import Prelude GoBinary Tags Utils Values Model.
Import Tags Values Model Iterator Counter.

Local Open Scope Z_scope.
Local Open Scope go_scope.

Module Decoder.

Record split_state := mkSplit {
  s_it : iterator;
  s_ags : list attributeGroup;
  s_ag : attributeGroup;
  s_v : attribute;
  s_vTag : Z
}.

(** How an iteration ends: [continue] or [break]. *)
Inductive ctl :=
| Continue (s : split_state)
| Break (s : split_state).

Definition with_name (av : attributeValue) (nm : list Z) (nl : Z) : attributeValue :=
  mkAV (valueTag av) (valueTagStr av) nl nm (valueLength av) (value av).

(** The tail of an iteration that read a value tag and a name length:
  [value-length], [value], decode, append. The named branch sets the
  scanner's debug flag before the value read ([dbg]). *)
Definition read_value (dbg : bool) (it : iterator) (ags : list attributeGroup)
    (ag : attributeGroup) (v : attribute) (vTag : Z) (nm : list Z) (nl : Z) : goRes ctl :=
  let? '(x, _, it) := GetNextN it 2 in
  match read_i16 x with
  | None => Ok (Break (mkSplit it ags ag v vTag))
  | Some vLength =>
      let it := if dbg then DeBug it else it in
      let? '(val, ok, it) := GetNextN it vLength in
      if negb ok then Ok (Break (mkSplit it ags ag v vTag))
      else
        let? av := UnMarshallattribute vTag val in
        Ok (Continue (mkSplit it ags ag (appendValue v (with_name av nm nl)) vTag))
  end.

(** One iteration of the [for vTag != TAG_END] loop. *)
Definition split_body (s : split_state) : goRes ctl :=
  let it := DeBug (s_it s) in
  let? '(vTag, ok, it) := GetNextOne it in
  if is_delimiter vTag then
    let closed := mkGroup (beginAttributeGroupTag (s_ag s)) (attributes (s_ag s) ++ [s_v s]) in
    Ok (Continue (mkSplit it (s_ags s ++ [closed]) (mkGroup vTag []) (s_v s) vTag))
  else if negb ok then Ok (Break (mkSplit it (s_ags s) (s_ag s) (s_v s) vTag))
  else
    let? '(x, ok, it) := GetNextN it 2 in
    if negb ok then Ok (Break (mkSplit it (s_ags s) (s_ag s) (s_v s) vTag))
    else
      let cnt := Start 1 in
      let nLength := default 0 (read_i16 x) in
      if negb (nLength =? 0) then
        let '(ag, v) :=
          if GTEq cnt 1
          then (mkGroup (beginAttributeGroupTag (s_ag s)) (attributes (s_ag s) ++ [s_v s]),
                NewAttribute)
          else (s_ag s, s_v s) in
        let? '(n, ok, it) := GetNextN it nLength in
        if negb ok then Ok (Break (mkSplit it (s_ags s) ag v vTag))
        else read_value true it (s_ags s) ag v vTag n nLength
      else read_value false it (s_ags s) (s_ag s) (s_v s) vTag [] 0.

Inductive loop_out :=
| LoopDone (s : split_state)
| LoopFuel (s : split_state).

Fixpoint split_loop (fuel : nat) (s : split_state) : goRes loop_out :=
  if s_vTag s =? TAG_END then Ok (LoopDone s)
  else
    match fuel with
    | O => Ok (LoopFuel s)
    | S f =>
        let? c := split_body s in
        match c with
        | Continue s' => split_loop f s'
        | Break s' => Ok (LoopDone s')
        end
    end.

Definition loop_state (r : loop_out) : split_state :=
  match r with LoopDone s | LoopFuel s => s end.

(** Before the loop: the first byte opens the first group, whatever it
  is (a wrong or missing byte is only logged). *)
Definition split_init (b : list Z) : goRes split_state :=
  let util := NewIterator b in
  let? '(bt, _, util) := GetNextOne util in
  Ok (mkSplit util [] (mkGroup bt []) NewAttribute 0).

Definition splitAValues (b : list Z) : goRes (list attributeGroup) :=
  let? s := split_init b in
  let? r := split_loop (S (length b)) s in
  let s := loop_state r in
  Ok (s_ags s ++ [s_ag s]).

Definition ParseMessage (b : list Z) : goRes Message :=
  let? s0 := go_slice b 0 1 in
  let majorVer := i8 (fst (Varint s0)) in
  let? s1 := go_slice b 1 2 in
  let minorVer := i8 (fst (Varint s1)) in
  let? s3 := go_slice b 3 4 in
  let ii := fst (Uvarint s3) in
  let? s4 := go_slice b 4 8 in
  let requestId := i32 (fst (Varint s4)) in
  let? body := go_slice b 8 (Z.of_nat (length b)) in
  let? ags := splitAValues body in
  Ok (mkMsg majorVer minorVer (u16 ii) 0 requestId ags 0 [] (typeCheck (u16 ii))).

(** ** The loop as a step relation

  What one iteration does to the decoder's data, whatever bytes it
  reads: close the open group (with the pending attribute) and open a
  new one, append a value to the pending attribute, or leave the data as
  it is (a [break]). *)

Definition close_group (ag : attributeGroup) (v : attribute) : attributeGroup :=
  mkGroup (beginAttributeGroupTag ag) (attributes ag ++ [v]).

Inductive body_effect (s : split_state) : split_state -> Prop :=
| eff_close it t :
    body_effect s (mkSplit it (s_ags s ++ [close_group (s_ag s) (s_v s)]) (mkGroup t []) (s_v s) t)
| eff_append it t av :
    body_effect s (mkSplit it (s_ags s) (s_ag s) (appendValue (s_v s) av) t)
| eff_stay it t :
    body_effect s (mkSplit it (s_ags s) (s_ag s) (s_v s) t).

(** Reachability: the reflexive-transitive closure of [body_effect]. *)
Inductive reach : split_state -> split_state -> Prop :=
| reach_refl s : reach s s
| reach_step s s' s'' : body_effect s s' -> reach s' s'' -> reach s s''.

Definition ctl_state (c : ctl) : split_state :=
  match c with Continue s | Break s => s end.

Definition is_continue (c : ctl) : bool :=
  match c with Continue _ => true | Break _ => false end.

(** The dead branch: a fresh counter [Start(1)] is never [>= 1]. *)
Lemma GTEq_Start_1 : GTEq (Start 1) 1 = false.
Proof. reflexivity. Qed.

Lemma read_value_effect d it ags ag v t nm nl c :
  read_value d it ags ag v t nm nl = Ok c ->
  s_ags (ctl_state c) = ags /\ s_ag (ctl_state c) = ag /\ s_vTag (ctl_state c) = t /\
  (s_v (ctl_state c) = v \/ exists av, s_v (ctl_state c) = appendValue v av).
Proof.
  unfold read_value. intros H. go_inv.
  destruct (read_i16 _); go_inv; subst; simpl; [|repeat split; auto].
  destruct (negb _); go_inv; subst; simpl; repeat split; eauto.
Qed.

Lemma split_body_effect s c : split_body s = Ok c -> body_effect s (ctl_state c).
Proof.
  unfold split_body. rewrite GTEq_Start_1. intros H. go_inv.
  repeat match goal with
  | H : (if ?b then _ else _) = Ok _ |- _ => destruct b; go_inv
  | H : read_value _ _ _ _ _ _ _ _ = Ok _ |- _ =>
      apply read_value_effect in H as (Ha & Hg & Ht & [Hv | [av Hv]]);
      destruct (ctl_state c); simpl in *; subst; constructor
  end; subst; constructor.
Qed.

Lemma split_loop_reach fuel s r : split_loop fuel s = Ok r -> reach s (loop_state r).
Proof.
  revert s. induction fuel as [|f IH]; intros s H; simpl in H.
  - destruct (s_vTag s =? TAG_END); injection H as <-; constructor.
  - destruct (s_vTag s =? TAG_END); [injection H as <-; constructor|].
    destruct (split_body s) as [c|] eqn:Hb; simpl in H; [|discriminate].
    pose proof (split_body_effect _ _ Hb) as He.
    destruct c; simpl in He.
    + econstructor; [exact He | apply IH; exact H].
    + injection H as <-. econstructor; [exact He | constructor].
Qed.

(** Invariants of the loop are proved on [body_effect] once and carried
  along [reach] by rule induction. *)
Section LoopInvariant.
Context (I : split_state -> Prop).
Hypothesis I_step : forall s s', I s -> body_effect s s' -> I s'.

Lemma reach_invariant s s' : reach s s' -> I s -> I s'.
Proof. induction 1; eauto. Qed.
End LoopInvariant.

(** ** Termination: every [continue] consumes input *)

(** [scan_facts] turns each successful read on a well-formed cursor into
  the [consumed] fact for its result cursor. *)
Ltac scan_facts :=
  repeat match goal with
  | Hw : iter_wf ?i, H : GetNextN ?i ?n = Ok (?x, ?b, ?i') |- _ =>
      let Hc := fresh "Hc" in
      pose proof (GetNextN_consumed i n x b i' Hw H) as Hc; clear H;
      assert (iter_wf i') by apply Hc
  | Hw : iter_wf ?i, H : GetNextOne ?i = Ok (?x, ?b, ?i') |- _ =>
      let Hc := fresh "Hc" in
      pose proof (GetNextOne_consumed i x b i' Hw H) as Hc; clear H;
      assert (iter_wf i') by apply Hc
  end.

Lemma read_value_consumed d it ags ag v t nm nl c :
  iter_wf it -> read_value d it ags ag v t nm nl = Ok c -> consumed it (s_it (ctl_state c)).
Proof.
  unfold read_value. intros Hwf H. go_inv. scan_facts.
  destruct (read_i16 _); go_inv; subst; simpl; [|assumption].
  destruct d; cbv beta iota zeta in *;
    [match goal with Hw1 : iter_wf ?i1, Hc : consumed it ?i1 |- _ => pose proof (DeBug_wf _ Hw1) end|];
    go_inv; scan_facts;
    repeat match goal with Hc : consumed (DeBug _) _ |- _ => apply DeBug_consumed in Hc end;
    destruct (negb _); go_inv; subst; simpl; eauto using consumed_trans.
Qed.

Lemma split_body_progress s c :
  iter_wf (s_it s) -> split_body s = Ok c ->
  consumed (s_it s) (s_it (ctl_state c)) /\
  (is_continue c = true -> mark (s_it s) < mark (s_it (ctl_state c))).
Proof.
  unfold split_body. rewrite GTEq_Start_1. intros Hwf H.
  pose proof (DeBug_wf _ Hwf) as Hwd. go_inv. scan_facts.
  match goal with Hc : consumed (DeBug _) ?i1 /\ (?o = true -> _) /\ (_ -> ?t = 0) |- _ =>
    destruct Hc as (Hc1 & Hok & Hz); apply DeBug_consumed in Hc1;
    rename i1 into it1; rename o into ok1; rename t into tag1 end.
  assert (Hstrict : forall i', consumed it1 i' -> ok1 = true ->
            consumed (s_it s) i' /\ mark (s_it s) < mark i').
  { intros i' Hc' Ho. split; [eauto using consumed_trans|].
    specialize (Hok Ho). destruct Hc' as (_ & _ & _ & ?). destruct (s_it s); simpl in *. lia. }
  destruct (is_delimiter tag1) eqn:Hd.
  - go_inv. subst. simpl. destruct ok1.
    + destruct (Hstrict it1) as [? ?]; auto using consumed_refl.
    + rewrite (Hz eq_refl) in Hd. discriminate.
  - destruct ok1; simpl in *; [|go_inv; subst; simpl; split; [assumption|discriminate]].
    go_inv. scan_facts.
    repeat match goal with
    | H : (if ?b then _ else _) = Ok _ |- _ => destruct b; go_inv; scan_facts
    | H : read_value _ _ _ _ _ _ _ _ = Ok _ |- _ =>
        let Hr := fresh "Hr" in
        pose proof (fun Hw => read_value_consumed _ _ _ _ _ _ _ _ _ Hw H) as Hr; clear H;
        specialize (Hr ltac:(assumption))
    end; subst; simpl;
    match goal with |- consumed _ ?i' /\ _ =>
      destruct (Hstrict i') as [? ?]; [eauto using consumed_trans | reflexivity | split; auto]
    end.
Qed.

Lemma split_init_spec b :
  exists it bt, split_init b = Ok (mkSplit it [] (mkGroup bt []) NewAttribute 0) /\
    iter_wf it /\ remaining it <= Z.of_nat (length b).
Proof.
  unfold split_init. pose proof (NewIterator_wf b) as Hw.
  rewrite (GetNextOne_eq _ Hw). unfold rest, remaining, NewIterator; simpl.
  destruct b as [|x b]; simpl; eexists _, _; split; try reflexivity;
    unfold iter_wf, quiet, advance; simpl; lia.
Qed.

(** The group tag [splitAValues] reads before its loop. *)
Lemma split_init_cons g more :
  exists it, split_init (g :: more) = Ok (mkSplit it [] (mkGroup g []) NewAttribute 0) /\
    iter_wf it /\ rest it = more.
Proof.
  destruct (GetNextOne_cons (NewIterator (g :: more)) g more (NewIterator_wf _) eq_refl)
    as (it1 & H1 & Hw1 & Hr1).
  exists it1. unfold split_init. rewrite H1, go_bind_Ok. auto.
Qed.

Lemma remaining_nonneg i : iter_wf i -> 0 <= remaining i.
Proof. unfold iter_wf, remaining. lia. Qed.

Lemma consumed_remaining i i' : consumed i i' -> remaining i' <= remaining i.
Proof. unfold consumed, remaining. lia. Qed.

(** Each loop iteration strictly decreases the bytes left, so a fuel
  larger than the bytes left is never exhausted. *)
Lemma split_loop_no_fuel_out fuel s s' :
  iter_wf (s_it s) -> remaining (s_it s) < Z.of_nat fuel ->
  split_loop fuel s <> Ok (LoopFuel s').
Proof.
  revert s. induction fuel as [|f IH]; intros s Hw Hr; simpl.
  - pose proof (remaining_nonneg _ Hw). lia.
  - destruct (s_vTag s =? TAG_END); [discriminate|].
    destruct (split_body s) as [c|] eqn:Hb; simpl; [|discriminate].
    destruct (split_body_progress s c Hw Hb) as [Hc Hs].
    destruct c as [s1|s1]; simpl in *; [|discriminate].
    apply IH; [apply Hc|]. specialize (Hs eq_refl).
    destruct Hc as (_ & _ & He & _). unfold remaining in *. lia.
Qed.

Lemma split_loop_fuel_irrelevant f1 f2 s :
  iter_wf (s_it s) -> remaining (s_it s) < Z.of_nat f1 -> remaining (s_it s) < Z.of_nat f2 ->
  split_loop f1 s = split_loop f2 s.
Proof.
  revert f2 s. induction f1 as [|f1 IH]; intros f2 s Hw H1 H2.
  - pose proof (remaining_nonneg _ Hw). lia.
  - destruct f2 as [|f2]; [pose proof (remaining_nonneg _ Hw); lia|]. simpl.
    destruct (s_vTag s =? TAG_END); [reflexivity|].
    destruct (split_body s) as [c|] eqn:Hb; simpl; [|reflexivity].
    destruct (split_body_progress s c Hw Hb) as [Hc Hs].
    destruct c as [s1|s1]; simpl in *; [|reflexivity].
    specialize (Hs eq_refl). destruct Hc as (Hw1 & _ & He & _).
    apply IH; [exact Hw1 | unfold remaining in *; lia ..].
Qed.

(** ** Invariants of the decoder's data *)

(** Every closed group holds exactly one attribute; the open group none. *)
Definition one_attr_groups (s : split_state) : Prop :=
  Forall (fun g => length (attributes g) = 1%nat) (s_ags s) /\ attributes (s_ag s) = [].

Lemma one_attr_groups_step s s' : one_attr_groups s -> body_effect s s' -> one_attr_groups s'.
Proof.
  intros [Hf Ha] He. inversion He; subst; simpl; split; auto.
  apply Forall_app; split; [exact Hf|]. constructor; [|constructor].
  simpl. rewrite Ha. reflexivity.
Qed.

(** The values of the attributes of a list of groups, in order. *)
Definition attr_values (gs : list attributeGroup) : list (list attributeValue) :=
  map values (concat (map attributes gs)).

(** Every list of the sequence is a prefix of every later one. *)
Definition prefix_chain (l : list (list attributeValue)) : Prop :=
  forall i j x y, (i <= j)%nat -> l !! i = Some x -> l !! j = Some y -> x `prefix_of` y.

Lemma prefix_chain_snoc l y :
  prefix_chain l -> Forall (fun x => x `prefix_of` y) l -> prefix_chain (l ++ [y]).
Proof.
  intros Hc Hy i j x z Hij Hi Hj.
  destruct (decide (j < length l)%nat).
  - rewrite lookup_app_l in Hi by lia. rewrite lookup_app_l in Hj by lia. eauto.
  - rewrite lookup_app_r in Hj by lia. apply list_lookup_singleton_Some in Hj as [_ <-].
    destruct (decide (i < length l)%nat).
    + rewrite lookup_app_l in Hi by lia.
      rewrite Forall_lookup in Hy. eauto.
    + rewrite lookup_app_r in Hi by lia. apply list_lookup_singleton_Some in Hi as [_ <-].
      reflexivity.
Qed.

Definition chain_inv (s : split_state) : Prop :=
  prefix_chain (attr_values (s_ags s ++ [s_ag s])) /\
  Forall (fun x => x `prefix_of` values (s_v s)) (attr_values (s_ags s ++ [s_ag s])).

Lemma attr_values_close ags ag v t :
  attr_values ((ags ++ [close_group ag v]) ++ [mkGroup t []]) =
  attr_values (ags ++ [ag]) ++ [values v].
Proof.
  unfold attr_values, close_group. rewrite !map_app, !concat_app, !map_app. simpl.
  rewrite !app_nil_r, !map_app, <- app_assoc. reflexivity.
Qed.

Lemma chain_inv_step s s' : chain_inv s -> body_effect s s' -> chain_inv s'.
Proof.
  intros [Hc Hp] He. inversion He; subst; unfold chain_inv; simpl.
  - rewrite attr_values_close. split.
    + apply prefix_chain_snoc; assumption.
    + apply Forall_app; split; [exact Hp | constructor; [reflexivity | constructor]].
  - split; [exact Hc|]. eapply Forall_impl; [exact Hp|].
    intros x Hx. unfold appendValue; simpl. apply prefix_app_r. exact Hx.
  - split; assumption.
Qed.

Lemma splitAValues_reach b gs :
  splitAValues b = Ok gs ->
  exists s0 s, split_init b = Ok s0 /\ reach s0 s /\ gs = s_ags s ++ [s_ag s] /\
    s_ags s0 = [] /\ attributes (s_ag s0) = [] /\ s_v s0 = NewAttribute.
Proof.
  unfold splitAValues. intros H.
  destruct (split_init_spec b) as (it & bt & Hi & _). rewrite Hi, go_bind_Ok in H.
  destruct (split_loop _ _) as [r|] eqn:Hl; simpl in H; [|discriminate].
  injection H as <-. exists (mkSplit it [] (mkGroup bt []) NewAttribute 0), (loop_state r).
  repeat split; auto. eapply split_loop_reach; exact Hl.
Qed.

(** C13. The decoder's loop terminates: from the state [split_init]
  builds, the bound [splitAValues] gives the loop (one more than the
  input length) is never exhausted; the loop ends by reading the end tag,
  by a [break] or by a panic. *)
Theorem splitAValues_terminates b s' :
  (let? s := split_init b in split_loop (S (length b)) s) <> Ok (LoopFuel s').
Proof.
  destruct (split_init_spec b) as (it & bt & Hi & Hw & Hr). rewrite Hi, go_bind_Ok.
  apply split_loop_no_fuel_out; simpl; [exact Hw | lia].
Qed.

Lemma splitAValues_shape b gs :
  splitAValues b = Ok gs ->
  exists gs0 g, gs = gs0 ++ [g] /\ attributes g = [] /\
    Forall (fun g => length (attributes g) = 1%nat) gs0.
Proof.
  intros H. destruct (splitAValues_reach b gs H) as (s0 & s & _ & Hr & -> & Ha & Hg & _).
  assert (Hinv : one_attr_groups s).
  { apply (reach_invariant one_attr_groups one_attr_groups_step s0); [exact Hr|].
    split; [rewrite Ha; constructor | exact Hg]. }
  destruct Hinv as [Hf Hl]. exists (s_ags s), (s_ag s). auto.
Qed.

(** C5. Shape of the decoded groups: every group [splitAValues] returns
  holds exactly one attribute, except the last, which holds none. A
  group's attributes are only pushed when the next delimiter arrives, and
  then only the one pending attribute. *)
Theorem splitAValues_group_shape b gs :
  splitAValues b = Ok gs ->
  exists gs0 g, gs = gs0 ++ [g] /\ attributes g = [] /\
    Forall (fun g => length (attributes g) = 1%nat) gs0.
Proof. exact (splitAValues_shape b gs). Qed.

Lemma splitAValues_group_shape_witness :
  splitAValues [1; 3] = Ok [mkGroup 1 [mkAttr []]; mkGroup 3 []] /\
  exists gs0 g, [mkGroup 1 [mkAttr []]; mkGroup 3 []] = gs0 ++ [g] /\ attributes g = [] /\
    Forall (fun g => length (attributes g) = 1%nat) gs0.
Proof.
  split; [reflexivity|]. apply (splitAValues_group_shape [1; 3]). reflexivity.
Defined.

(** C4. The decoder never resets its pending attribute: the attributes
  it returns, in order, form a prefix chain, each an extension of every
  earlier one. (The reset sits behind [cnt.GTEq(1)] on a counter created
  by [Start(1)] in the same iteration, which is always false.) *)
Theorem splitAValues_prefix_chain b gs :
  splitAValues b = Ok gs -> prefix_chain (attr_values gs).
Proof.
  intros H. destruct (splitAValues_reach b gs H) as (s0 & s & _ & Hr & -> & Ha & Hg & _).
  assert (Hinv : chain_inv s).
  { apply (reach_invariant chain_inv chain_inv_step s0); [exact Hr|].
    unfold chain_inv, attr_values. rewrite Ha. simpl. rewrite Hg. simpl.
    split; [intros i j x y _ Hi; discriminate | constructor]. }
  apply Hinv.
Qed.

Definition chain_example_charset : attributeValue :=
  mkAV 0x47 "TAG_CHARSET" 1 [97] 0 (VCharset [98]).

Definition chain_example_keyword : attributeValue :=
  mkAV 0x44 "TAG_KEYWORD" 1 [99] 0 (VKeyword [100]).

Lemma splitAValues_prefix_chain_witness :
  splitAValues [1; 0x47; 0; 1; 97; 0; 1; 98; 2; 0x44; 0; 1; 99; 0; 1; 100; 3] =
    Ok [mkGroup 1 [mkAttr [chain_example_charset]];
        mkGroup 2 [mkAttr [chain_example_charset; chain_example_keyword]];
        mkGroup 3 []] /\
  prefix_chain (attr_values
    [mkGroup 1 [mkAttr [chain_example_charset]];
     mkGroup 2 [mkAttr [chain_example_charset; chain_example_keyword]];
     mkGroup 3 []]).
Proof.
  split; [reflexivity|].
  apply (splitAValues_prefix_chain [1; 0x47; 0; 1; 97; 0; 1; 98; 2; 0x44; 0; 1; 99; 0; 1; 100; 3]).
  reflexivity.
Defined.

End Decoder.
