(* ===== verification/Codec.v ===== *)
(** * Codec: what the decoder makes of the encoder's output

  [Decoder.splitAValues] applied to the attribute section written by
  [Encoder.marshallAtrib] does not give back the message's groups: it
  gives one operation group holding a single attribute with every value
  of every attribute of the message, followed by an empty group with the
  end tag. Each value comes back as [UnMarshallattribute] decodes its
  bytes (first values keep their name). The theorem holds for every
  message whose frames are self-consistent ([frame_ok]): a one-byte
  value tag that is not a delimiter, a stored value length equal to the
  number of bytes written, and lengths below [2^15] so that the
  [int16] reads give them back. The same analysis gives the decoder's
  result when the end tag is missing ([splitAValues_missing_end]), the
  whole message read back by [ParseMessage] ([ParseMessage_marshallMsg])
  and the messages for which it does not panic
  ([ParseMessage_marshallMsg_ok]). *)

From Stdlib Require Import ZArith Lia String.
From stdpp Require Import base list.
From S2P Require Import Prelude GoBinary Tags Utils Values Model Encoder Decoder.
Import Tags Values Model Iterator Encoder Decoder.

Local Open Scope Z_scope.
Local Open Scope go_scope.

Module Codec.

(** A frame: a value with the flag telling whether it is the first of
  its attribute (written with its name). *)
Definition frame := (bool * attributeValue)%type.

Definition frame_index (f : bool) : nat := if f then 0%nat else 1%nat.

Definition frame_bytes (fr : frame) : list Z := marshal_value_bytes (frame_index fr.1) fr.2.

Definition payload (fr : frame) : list Z := value_bytes fr.1 (value fr.2).

Definition frames_of_attr (a : attribute) : list frame :=
  match values a with
  | [] => []
  | v :: vs => (true, v) :: map (pair false) vs
  end.

Definition all_frames (m : Message) : list frame :=
  concat (map frames_of_attr (all_attributes m)).

(** The frame conditions under which the encoder returns and the
  decoder reads back what it wrote: an additional value is not nil
  (its [binary.Write] would panic), the tag is one byte and not a
  delimiter, the declared lengths are the lengths written and fit in
  an [int16]. *)
Definition frame_ok (fr : frame) : Prop :=
  0 <= valueTag fr.2 < 256 /\ is_delimiter (valueTag fr.2) = false /\
  valueLength fr.2 = Z.of_nat (length (payload fr)) /\
  Z.of_nat (length (payload fr)) < 32768 /\
  (fr.1 = true -> nameLength fr.2 = Z.of_nat (length (name fr.2)) /\
                  Z.of_nat (length (name fr.2)) < 32768) /\
  (fr.1 = false -> is_nil (value fr.2) = false).

Definition msg_frames_ok (m : Message) : Prop := Forall frame_ok (all_frames m).

#[export] Instance frame_ok_dec fr : Decision (frame_ok fr).
Proof. unfold frame_ok. apply _. Defined.

#[export] Instance msg_frames_ok_dec m : Decision (msg_frames_ok m).
Proof. unfold msg_frames_ok. apply _. Defined.

(** What the decoder makes of one frame. *)
Definition decode_frame (fr : frame) : goRes attributeValue :=
  let? av := UnMarshallattribute (valueTag fr.2) (payload fr) in
  Ok (if fr.1 && negb (nameLength fr.2 =? 0)
      then with_name av (name fr.2) (nameLength fr.2)
      else with_name av [] 0).

Fixpoint decode_frames (fs : list frame) : goRes (list attributeValue) :=
  match fs with
  | [] => Ok []
  | fr :: fs' =>
      let? av := decode_frame fr in
      let? avs := decode_frames fs' in
      Ok (av :: avs)
  end.

(** ** The encoder's attribute section as a list of frames *)

(** The request [cups.go]'s [GetPrinters] sends. *)
Definition cups_get_printers : Message :=
  match GetPrinters_request with Ok m => m | Panic _ => newMessage 0 end.

Lemma marshal_value_S k v : marshal_value_bytes (S k) v = marshal_value_bytes 1 v.
Proof. reflexivity. Qed.

Lemma marshal_values_S k vs :
  marshal_values_bytes (S k) vs = concat (map (fun v => frame_bytes (false, v)) vs).
Proof.
  revert k. induction vs as [|v vs IH]; intros k; [reflexivity|].
  cbn [marshal_values_bytes]. rewrite IH, marshal_value_S. reflexivity.
Qed.

Lemma marshal_attribute_frames a :
  marshal_attribute_bytes a = concat (map frame_bytes (frames_of_attr a)).
Proof.
  unfold marshal_attribute_bytes, frames_of_attr. destruct (values a) as [|v vs]; [reflexivity|].
  cbn [marshal_values_bytes]. rewrite marshal_values_S. cbn [map concat].
  rewrite map_map. reflexivity.
Qed.

Lemma marshal_attributes_frames attrs :
  concat (map marshal_attribute_bytes attrs) = concat (map frame_bytes (concat (map frames_of_attr attrs))).
Proof.
  induction attrs as [|a attrs IH]; [reflexivity|].
  simpl. rewrite IH, marshal_attribute_frames, map_app, concat_app. reflexivity.
Qed.

Lemma marshallMsg_frames m :
  marshallMsg_bytes m = header_bytes m ++ [TAG_OPERATION] ++
                  concat (map frame_bytes (all_frames m)) ++ [TAG_END] ++ Data m.
Proof. rewrite marshallMsg_eq. unfold all_frames. rewrite marshal_attributes_frames. reflexivity. Qed.

(** ** One frame through one iteration of the decoder loop *)

Lemma be_bytes_1_byte x : 0 <= x < 256 -> be_bytes 1 x = [x].
Proof. intros. simpl. rewrite land_255, Z.mod_small by lia. reflexivity. Qed.

Lemma read_i16_two x : 0 <= x < 32768 -> read_i16 (be_bytes 2 x) = Some x.
Proof.
  intros Hx. rewrite <- (app_nil_r (be_bytes 2 x)), read_i16_be_bytes.
  rewrite i16_small by lia. reflexivity.
Qed.

Lemma read_value_frame d it ags ag v t nm nl pl more :
  iter_wf it -> rest it = be_bytes 2 (Z.of_nat (length pl)) ++ pl ++ more ->
  Z.of_nat (length pl) < 32768 ->
  match UnMarshallattribute t pl with
  | Ok av => exists it', read_value d it ags ag v t nm nl =
               Ok (Continue (mkSplit it' ags ag (appendValue v (with_name av nm nl)) t)) /\
             iter_wf it' /\ rest it' = more
  | Panic r => read_value d it ags ag v t nm nl = Panic r
  end.
Proof.
  intros Hw Hr Hl.
  destruct (GetNextN_prefix it 2 _ _ Hw Hr) as (it1 & H1 & Hw1 & Hr1);
    [rewrite length_be_bytes; reflexivity|].
  assert (Hw1' : iter_wf (if d then DeBug it1 else it1)) by (destruct d; auto using DeBug_wf).
  assert (Hr1' : rest (if d then DeBug it1 else it1) = pl ++ more) by (destruct d; assumption).
  destruct (GetNextN_prefix _ (Z.of_nat (length pl)) _ _ Hw1' Hr1' eq_refl) as (it2 & H2 & Hw2 & Hr2).
  unfold read_value. rewrite H1, go_bind_Ok. cbv beta iota.
  rewrite read_i16_two by lia. cbv zeta. rewrite H2, go_bind_Ok. cbv beta iota. simpl negb. cbv iota.
  destruct (UnMarshallattribute t pl); simpl; eauto.
Qed.

Lemma split_body_frame s fr more :
  frame_ok fr -> iter_wf (s_it s) -> rest (s_it s) = frame_bytes fr ++ more ->
  match decode_frame fr with
  | Ok av => exists it', split_body s =
               Ok (Continue (mkSplit it' (s_ags s) (s_ag s) (appendValue (s_v s) av) (valueTag fr.2))) /\
             iter_wf it' /\ rest it' = more
  | Panic r => split_body s = Panic r
  end.
Proof.
  destruct fr as [f v]. intros (Ht & Hd & Hvl & Hpl & Hn & _) Hw Hr. cbn [fst snd] in *.
  unfold frame_bytes, payload in *. cbn [fst snd] in *.
  destruct f; unfold marshal_value_bytes in Hr; cbn [frame_index Nat.eqb] in Hr; rewrite Hvl in Hr;
    rewrite be_bytes_1_byte in Hr by lia; rewrite <- !app_assoc in Hr; cbn [app] in Hr;
    destruct (GetNextOne_cons (DeBug (s_it s)) _ _ (DeBug_wf _ Hw) (eq_trans (rest_DeBug _) Hr))
      as (it1 & H1 & Hw1 & Hr1);
    unfold split_body; rewrite GTEq_Start_1, H1, go_bind_Ok; cbv beta iota; rewrite Hd;
    cbn [negb];
    (destruct (GetNextN_prefix it1 2 _ _ Hw1 Hr1) as (it2 & H2 & Hw2 & Hr2);
      [rewrite length_be_bytes; reflexivity|]);
    rewrite H2, go_bind_Ok; cbv beta iota; cbn [negb].
  - destruct (Hn eq_refl) as [Hnl Hnm]. rewrite read_i16_two by lia. cbn [default id].
    unfold decode_frame. cbn [fst snd andb].
    destruct (Z.eqb_spec (nameLength v) 0) as [H0|H0]; cbn [negb].
    + assert (Hnil : name v = []) by (destruct (name v); simpl in *; [reflexivity | lia]).
      rewrite Hnil in Hr2. cbn [app] in Hr2.
      pose proof (read_value_frame false it2 (s_ags s) (s_ag s) (s_v s) (valueTag v) [] 0 _ _ Hw2 Hr2 Hpl) as Hv.
      destruct (UnMarshallattribute _ _); cbn [go_bind andb negb]; exact Hv.
    + destruct (GetNextN_prefix it2 (nameLength v) _ _ Hw2 Hr2 Hnl) as (it3 & H3 & Hw3 & Hr3).
      rewrite H3, go_bind_Ok. cbv beta iota. cbn [negb].
      pose proof (read_value_frame true it3 (s_ags s) (s_ag s) (s_v s) (valueTag v) (name v) (nameLength v)
                    _ _ Hw3 Hr3 Hpl) as Hv.
      destruct (UnMarshallattribute _ _); cbn [go_bind andb negb]; exact Hv.
  - rewrite read_i16_two by lia. cbn [default id Z.eqb negb].
    pose proof (read_value_frame false it2 (s_ags s) (s_ag s) (s_v s) (valueTag v) [] 0 _ _ Hw2 Hr2 Hpl) as Hv.
    unfold decode_frame. cbn [fst snd andb].
    destruct (UnMarshallattribute _ _); cbn [go_bind andb negb]; exact Hv.
Qed.

Lemma split_body_end s more :
  iter_wf (s_it s) -> rest (s_it s) = TAG_END :: more ->
  exists it', split_body s =
    Ok (Continue (mkSplit it' (s_ags s ++ [close_group (s_ag s) (s_v s)]) (mkGroup TAG_END []) (s_v s) TAG_END)).
Proof.
  intros Hw Hr.
  destruct (GetNextOne_cons (DeBug (s_it s)) _ _ (DeBug_wf _ Hw) (eq_trans (rest_DeBug _) Hr))
    as (it1 & H1 & _ & _).
  unfold split_body. rewrite H1, go_bind_Ok. cbv beta iota. eexists. reflexivity.
Qed.

Lemma is_delimiter_not_end t : is_delimiter t = false -> t <> TAG_END.
Proof. intros H ->. discriminate. Qed.

(** The loop over a run of consistent frames: it appends their decoded
  values to the pending attribute and stops in front of [tl]. *)
Lemma split_loop_frames_gen fs s tl fuel :
  Forall frame_ok fs -> iter_wf (s_it s) ->
  rest (s_it s) = concat (map frame_bytes fs) ++ tl ->
  s_vTag s <> TAG_END -> (length fs <= fuel)%nat ->
  match decode_frames fs with
  | Ok avs => exists it' t', iter_wf it' /\ rest it' = tl /\ t' <> TAG_END /\
      split_loop fuel s =
      split_loop (fuel - length fs) (mkSplit it' (s_ags s) (s_ag s) (mkAttr (values (s_v s) ++ avs)) t')
  | Panic r => split_loop fuel s = Panic r
  end.
Proof.
  revert s fuel. induction fs as [|fr fs IH]; intros s fuel Hok Hw Hr Ht Hf.
  - simpl. exists (s_it s), (s_vTag s). rewrite app_nil_r, Nat.sub_0_r.
    split; [exact Hw|]. split; [exact Hr|]. split; [exact Ht|].
    destruct s as [? ? ? [] ?]; reflexivity.
  - inversion Hok as [|? ? Hfr Hfs]; subst.
    destruct fuel as [|f]; [simpl in Hf; lia|].
    simpl in Hr. rewrite <- app_assoc in Hr.
    pose proof (split_body_frame s fr _ Hfr Hw Hr) as Hb.
    simpl decode_frames. cbn [split_loop].
    destruct (Z.eqb_spec (s_vTag s) TAG_END); [contradiction|].
    destruct (decode_frame fr) as [av|r]; cbn [go_bind]; [|rewrite Hb; reflexivity].
    destruct Hb as (it1 & Hb & Hw1 & Hr1). rewrite Hb, go_bind_Ok.
    destruct Hfr as (_ & Hd & _).
    specialize (IH (mkSplit it1 (s_ags s) (s_ag s) (appendValue (s_v s) av) (valueTag fr.2)) f
                  Hfs Hw1 Hr1 (is_delimiter_not_end _ Hd) ltac:(simpl in Hf; lia)).
    destruct (decode_frames fs) as [avs|r]; cbn [go_bind]; [|exact IH].
    destruct IH as (it' & t' & Hw' & Hr' & Ht' & IH). exists it', t'.
    split; [exact Hw'|]. split; [exact Hr'|]. split; [exact Ht'|].
    rewrite IH. simpl. rewrite <- app_assoc. reflexivity.
Qed.

Lemma split_loop_frames fs s more fuel :
  Forall frame_ok fs -> iter_wf (s_it s) ->
  rest (s_it s) = concat (map frame_bytes fs) ++ [TAG_END] ++ more ->
  s_vTag s <> TAG_END -> (length fs < fuel)%nat ->
  match decode_frames fs with
  | Ok avs => exists it', split_loop fuel s =
      Ok (LoopDone (mkSplit it' (s_ags s ++ [close_group (s_ag s) (mkAttr (values (s_v s) ++ avs))])
                     (mkGroup TAG_END []) (mkAttr (values (s_v s) ++ avs)) TAG_END))
  | Panic r => split_loop fuel s = Panic r
  end.
Proof.
  intros Hok Hw Hr Ht Hf.
  pose proof (split_loop_frames_gen fs s _ fuel Hok Hw Hr Ht ltac:(lia)) as Hg.
  destruct (decode_frames fs) as [avs|r]; [|exact Hg].
  destruct Hg as (it' & t' & Hw' & Hr' & Ht' & ->).
  destruct (fuel - length fs)%nat as [|k] eqn:Hk; [lia|]. cbn [split_loop]. simpl s_vTag.
  destruct (Z.eqb_spec t' TAG_END); [contradiction|].
  destruct (split_body_end (mkSplit it' (s_ags s) (s_ag s) (mkAttr (values (s_v s) ++ avs)) t') more Hw' Hr')
    as (it1 & H1). rewrite H1, go_bind_Ok.
  destruct k; eexists; reflexivity.
Qed.

(** At the end of the input the iteration breaks: the tag reads as 0. *)
Lemma split_body_eof s :
  iter_wf (s_it s) -> rest (s_it s) = [] ->
  exists it', split_body s = Ok (Break (mkSplit it' (s_ags s) (s_ag s) (s_v s) 0)).
Proof.
  intros Hw Hr. unfold split_body.
  rewrite (GetNextOne_eq _ (DeBug_wf _ Hw)), rest_DeBug, Hr, go_bind_Ok.
  eexists. reflexivity.
Qed.

Lemma split_loop_frames_eof fs s fuel :
  Forall frame_ok fs -> iter_wf (s_it s) -> rest (s_it s) = concat (map frame_bytes fs) ->
  s_vTag s <> TAG_END -> (length fs < fuel)%nat ->
  match decode_frames fs with
  | Ok avs => exists it', split_loop fuel s =
      Ok (LoopDone (mkSplit it' (s_ags s) (s_ag s) (mkAttr (values (s_v s) ++ avs)) 0))
  | Panic r => split_loop fuel s = Panic r
  end.
Proof.
  intros Hok Hw Hr Ht Hf. rewrite <- (app_nil_r (concat _)) in Hr.
  pose proof (split_loop_frames_gen fs s [] fuel Hok Hw Hr Ht ltac:(lia)) as Hg.
  destruct (decode_frames fs) as [avs|r]; [|exact Hg].
  destruct Hg as (it' & t' & Hw' & Hr' & Ht' & ->).
  destruct (fuel - length fs)%nat as [|k] eqn:Hk; [lia|]. cbn [split_loop]. simpl s_vTag.
  destruct (Z.eqb_spec t' TAG_END); [contradiction|].
  destruct (split_body_eof (mkSplit it' (s_ags s) (s_ag s) (mkAttr (values (s_v s) ++ avs)) t') Hw' Hr')
    as (it1 & H1). rewrite H1, go_bind_Ok.
  eexists. reflexivity.
Qed.

(** A message whose additional values are not nil is one
  [marshallMsg] returns on. *)
Lemma frames_writable m :
  Forall (fun fr => fr.1 = false -> is_nil (value fr.2) = false) (all_frames m) -> writable m = true.
Proof.
  unfold all_frames, writable. induction (all_attributes m) as [|a As IH]; [reflexivity|].
  cbn [map concat forallb]. intros H. apply Forall_app in H as [Ha HAs].
  rewrite (IH HAs), andb_true_r. unfold writable_attr, frames_of_attr in *.
  destruct (values a) as [|v vs]; [reflexivity|]. cbn [tail].
  inversion Ha as [|? ? _ Hvs]; subst. apply Forall_map in Hvs.
  apply forallb_forall. intros w Hw. rewrite List.Forall_forall in Hvs.
  cbn in Hvs. rewrite (Hvs w Hw eq_refl). reflexivity.
Qed.

Lemma msg_frames_ok_writable m : msg_frames_ok m -> writable m = true.
Proof.
  intros H. apply frames_writable. eapply Forall_impl; [exact H|].
  intros fr Hfr. exact (proj2 (proj2 (proj2 (proj2 (proj2 Hfr))))).
Qed.

Lemma marshallAtrib_Ok m : msg_frames_ok m -> marshallAtrib m = Ok (marshallAtrib_bytes m).
Proof. intros H. rewrite marshallAtrib_spec, (msg_frames_ok_writable m H). reflexivity. Qed.

Lemma marshallMsg_Ok m : msg_frames_ok m -> marshallMsg m = Ok (marshallMsg_bytes m).
Proof. intros H. rewrite marshallMsg_spec, (msg_frames_ok_writable m H). reflexivity. Qed.

Lemma marshallAtrib_frames m :
  marshallAtrib_bytes m = [TAG_OPERATION] ++ concat (map frame_bytes (all_frames m)).
Proof.
  unfold marshallAtrib_bytes. rewrite marshal_groups_flat. unfold all_frames, all_attributes.
  rewrite marshal_attributes_frames. reflexivity.
Qed.

Lemma length_frame_bytes fr : (1 <= length (frame_bytes fr))%nat.
Proof.
  destruct fr as [[|] v]; unfold frame_bytes, marshal_value_bytes; cbn [frame_index fst snd Nat.eqb];
    rewrite length_app, length_be_bytes; lia.
Qed.

Lemma length_frames fs : (length fs <= length (concat (map frame_bytes fs)))%nat.
Proof.
  induction fs as [|fr fs IH]; simpl; [lia|].
  rewrite length_app. pose proof (length_frame_bytes fr). lia.
Qed.

(** The first byte [marshallAtrib_bytes] writes is the operation-attributes
  tag, which [splitAValues] reads before its loop. *)
Lemma split_init_frames fs tl :
  exists it, split_init ([TAG_OPERATION] ++ concat (map frame_bytes fs) ++ tl) =
    Ok (mkSplit it [] (mkGroup TAG_OPERATION []) NewAttribute 0) /\
    iter_wf it /\ rest it = concat (map frame_bytes fs) ++ tl.
Proof. apply split_init_cons. Qed.

Lemma splitAValues_marshallAtrib_eq m more :
  msg_frames_ok m ->
  splitAValues (marshallAtrib_bytes m ++ [TAG_END] ++ more) =
    (let? avs := decode_frames (all_frames m) in
     Ok [mkGroup TAG_OPERATION [mkAttr avs]; mkGroup TAG_END []]).
Proof.
  intros Hok. rewrite marshallAtrib_frames, <- app_assoc. unfold splitAValues.
  destruct (split_init_frames (all_frames m) ([TAG_END] ++ more)) as (it1 & -> & Hw1 & Hr1).
  rewrite go_bind_Ok. pose proof (length_frames (all_frames m)) as Hl.
  pose proof (split_loop_frames (all_frames m) (mkSplit it1 [] (mkGroup TAG_OPERATION []) NewAttribute 0)
                more (S (length ([TAG_OPERATION] ++ concat (map frame_bytes (all_frames m)) ++ [TAG_END] ++ more)))
                Hok Hw1 Hr1 ltac:(discriminate) ltac:(rewrite !length_app; simpl; lia)) as Hs.
  destruct (decode_frames (all_frames m)) as [avs|r]; cbn [go_bind]; [|rewrite Hs; reflexivity].
  destruct Hs as (it' & Hs). rewrite Hs, go_bind_Ok. reflexivity.
Qed.

(** C1. Decoding what the encoder writes: for every message whose
  frames are well formed ([msg_frames_ok]: each value tag is a byte that
  is not a delimiter, each declared value length is the number of bytes
  written and below 2^15, each first value's name length is its name's
  length and below 2^15, and no additional value is nil, so that
  [marshallAtrib] returns), [splitAValues] applied to the attribute
  section [marshallAtrib] writes (and the end tag, and any data after it) does
  not return the message's groups but one operation-attributes group
  holding one attribute with all the values of all the attributes, in
  order, each decoded by [UnMarshallattribute], then an empty group with
  the end tag; a value whose tag [UnMarshallattribute] cannot decode
  makes the whole decoding panic. *)
Theorem splitAValues_marshallAtrib m more :
  msg_frames_ok m ->
  (let? x := marshallAtrib m in splitAValues (x ++ [TAG_END] ++ more)) =
    (let? avs := decode_frames (all_frames m) in
     Ok [mkGroup TAG_OPERATION [mkAttr avs]; mkGroup TAG_END []]).
Proof.
  intros Hok. rewrite (marshallAtrib_Ok m Hok), go_bind_Ok.
  exact (splitAValues_marshallAtrib_eq m more Hok).
Qed.

(** C2. A truncated attribute section: for a message whose frames are
  well formed ([msg_frames_ok], as in C1), when the end-of-attributes tag
  is missing, [splitAValues] on the bytes [marshallAtrib] writes does not
  report an error; it returns one empty operation-attributes group, all
  the values having been collected into an attribute that is never
  stored in a group. *)
Theorem splitAValues_missing_end m :
  msg_frames_ok m ->
  (let? x := marshallAtrib m in splitAValues x) =
    (let? _ := decode_frames (all_frames m) in Ok [mkGroup TAG_OPERATION []]).
Proof.
  intros Hok. rewrite (marshallAtrib_Ok m Hok), go_bind_Ok, marshallAtrib_frames. unfold splitAValues.
  rewrite <- (app_nil_r (concat _)).
  destruct (split_init_frames (all_frames m) []) as (it1 & -> & Hw1 & Hr1).
  rewrite go_bind_Ok, app_nil_r in *. pose proof (length_frames (all_frames m)) as Hl.
  pose proof (split_loop_frames_eof (all_frames m) (mkSplit it1 [] (mkGroup TAG_OPERATION []) NewAttribute 0)
                (S (length ([TAG_OPERATION] ++ concat (map frame_bytes (all_frames m)))))
                Hok Hw1 Hr1 ltac:(discriminate) ltac:(rewrite !length_app; simpl; lia)) as Hs.
  destruct (decode_frames (all_frames m)) as [avs|r]; cbn [go_bind]; [|rewrite Hs; reflexivity].
  destruct Hs as (it' & Hs). rewrite Hs, go_bind_Ok. reflexivity.
Qed.

Lemma splitAValues_missing_end_witness :
  msg_frames_ok cups_get_printers /\
  (let? x := marshallAtrib cups_get_printers in splitAValues x) =
    (let? _ := decode_frames (all_frames cups_get_printers) in Ok [mkGroup TAG_OPERATION []]).
Proof.
  assert (H : msg_frames_ok cups_get_printers) by (apply (bool_decide_unpack _); vm_compute; reflexivity).
  split; [exact H | apply (splitAValues_missing_end cups_get_printers H)].
Defined.

Lemma splitAValues_marshallAtrib_witness :
  msg_frames_ok cups_get_printers /\
  (let? x := marshallAtrib cups_get_printers in splitAValues (x ++ [TAG_END] ++ [])) =
    (let? avs := decode_frames (all_frames cups_get_printers) in
     Ok [mkGroup TAG_OPERATION [mkAttr avs]; mkGroup TAG_END []]).
Proof.
  assert (H : msg_frames_ok cups_get_printers) by (apply (bool_decide_unpack _); vm_compute; reflexivity).
  split; [exact H | apply (splitAValues_marshallAtrib cups_get_printers [] H)].
Defined.

Lemma marshallMsg_split m :
  marshallMsg_bytes m = header_bytes m ++ (marshallAtrib_bytes m ++ [TAG_END] ++ Data m).
Proof. unfold marshallMsg_bytes, header_bytes. rewrite <- !app_assoc. reflexivity. Qed.

(** The header fields as [ParseMessage] reads them back from the bytes
  [marshallMsg_bytes] writes: varints over the one-byte version slices, an
  unsigned varint over the low byte of the operation id, a varint over
  the four request-id bytes. *)
Definition parsed_header (m : Message) (ags : list attributeGroup) : Message :=
  let ii := fst (Uvarint (be_bytes 1 (operationIdStatusCode m))) in
  mkMsg (i8 (fst (Varint (be_bytes 1 (majorVer m))))) (i8 (fst (Varint (be_bytes 1 (minorVer m)))))
        (u16 ii) 0 (i32 (fst (Varint (be_bytes 4 (requestId m))))) ags 0 [] (typeCheck (u16 ii)).

Lemma header_slices m :
  go_slice (header_bytes m) 0 1 = Ok (be_bytes 1 (majorVer m)) /\
  go_slice (header_bytes m) 1 2 = Ok (be_bytes 1 (minorVer m)) /\
  go_slice (header_bytes m) 3 4 = Ok (be_bytes 1 (operationIdStatusCode m)) /\
  go_slice (header_bytes m) 4 8 = Ok (be_bytes 4 (requestId m)).
Proof. unfold header_bytes. repeat split; reflexivity. Qed.

Lemma ParseMessage_marshallMsg_decode m :
  msg_frames_ok m ->
  Decoder.ParseMessage (marshallMsg_bytes m) =
    (let? avs := decode_frames (all_frames m) in
     Ok (parsed_header m [mkGroup TAG_OPERATION [mkAttr avs]; mkGroup TAG_END []])).
Proof.
  intros Hok. unfold Decoder.ParseMessage. rewrite marshallMsg_split.
  pose proof (length_header_bytes m) as Hh.
  rewrite !go_slice_app_l by lia.
  destruct (header_slices m) as (-> & -> & -> & ->). rewrite !go_bind_Ok.
  rewrite go_slice_suffix by (rewrite ?Hh; reflexivity). rewrite go_bind_Ok.
  rewrite splitAValues_marshallAtrib_eq by exact Hok.
  destruct (decode_frames (all_frames m)); reflexivity.
Qed.

(** C6. [ParseMessage] of [marshallMsg], for a message whose frames
  are well formed ([msg_frames_ok], as in C1): the header fields come back
  through the varint readers ([parsed_header]), the groups as in
  [splitAValues_marshallAtrib], and the end tag, the document data and
  the operation-or-status byte are not read back at all. *)
Theorem ParseMessage_marshallMsg m :
  msg_frames_ok m ->
  (let? b := marshallMsg m in Decoder.ParseMessage b) =
    (let? avs := decode_frames (all_frames m) in
     Ok (parsed_header m [mkGroup TAG_OPERATION [mkAttr avs]; mkGroup TAG_END []])).
Proof.
  intros Hok. rewrite (marshallMsg_Ok m Hok), go_bind_Ok.
  exact (ParseMessage_marshallMsg_decode m Hok).
Qed.

Lemma decode_frames_ok fs :
  is_ok (decode_frames fs) = forallb (fun fr => decodable_tag (valueTag fr.2)) fs.
Proof.
  induction fs as [|fr fs IH]; [reflexivity|]. cbn [decode_frames forallb]. unfold decode_frame.
  rewrite <- (UnMarshallattribute_ok (valueTag fr.2) (payload fr)).
  destruct (UnMarshallattribute _ _); [|reflexivity]. cbn [go_bind is_ok andb].
  rewrite <- IH. destruct (decode_frames fs); reflexivity.
Qed.

(** C8. Which requests the client can read back: for a message with
  well-formed frames ([msg_frames_ok], as in C1), [ParseMessage] of
  [marshallMsg] returns a message
  exactly when every value's tag is one [UnMarshallattribute] decodes
  (boolean, enum, rangeOfInteger, charset, naturalLanguage, keyword,
  mimeMediaType); a single integer, uri, text or name value makes it
  panic. *)
Theorem ParseMessage_marshallMsg_ok m :
  msg_frames_ok m ->
  is_ok (let? b := marshallMsg m in Decoder.ParseMessage b) =
    forallb (fun fr => decodable_tag (valueTag fr.2)) (all_frames m).
Proof.
  intros Hok. rewrite (marshallMsg_Ok m Hok), go_bind_Ok.
  rewrite (ParseMessage_marshallMsg_decode m Hok), <- decode_frames_ok.
  destruct (decode_frames (all_frames m)); reflexivity.
Qed.

(** The request [cups.go]'s [GetPrinterAttributes] sends. *)
Definition cups_get_printer_attributes : Message :=
  match GetPrinterAttributes_request with Ok m => m | Panic _ => newMessage 0 end.

Lemma ParseMessage_marshallMsg_ok_witness :
  msg_frames_ok cups_get_printer_attributes /\
  is_ok (let? b := marshallMsg cups_get_printer_attributes in Decoder.ParseMessage b) =
    forallb (fun fr => decodable_tag (valueTag fr.2)) (all_frames cups_get_printer_attributes).
Proof.
  assert (H : msg_frames_ok cups_get_printer_attributes)
    by (apply (bool_decide_unpack _); vm_compute; reflexivity).
  split; [exact H | exact (ParseMessage_marshallMsg_ok _ H)].
Defined.

Lemma ParseMessage_marshallMsg_witness :
  msg_frames_ok cups_get_printers /\
  (let? b := marshallMsg cups_get_printers in Decoder.ParseMessage b) =
    (let? avs := decode_frames (all_frames cups_get_printers) in
     Ok (parsed_header cups_get_printers [mkGroup TAG_OPERATION [mkAttr avs]; mkGroup TAG_END []])).
Proof.
  assert (H : msg_frames_ok cups_get_printers) by (apply (bool_decide_unpack _); vm_compute; reflexivity).
  split; [exact H | apply (ParseMessage_marshallMsg cups_get_printers H)].
Defined.

End Codec.
