(* ===== verification/Robustness.v ===== *)
(** * Robustness: what the decoder does with bytes it did not write

  [ParseMessage] and [splitAValues] ([src/ipp/unMarshall.go]) on
  arbitrary input: a header shorter than eight bytes, a length field
  with its sign bit set ([binary.Read] into an [int16], then
  [GetNextN(int(...))]), an empty group, and the header fields as the
  varint readers see them. The theorems state the Go behaviour, panics
  included; the spec's error taxonomy (framing, malformed header) has
  no counterpart in the code. *)

From Stdlib Require Import ZArith Lia String.
From stdpp Require Import base list.
From S2P Require Import Prelude GoBinary Tags Utils Values Model Decoder.
Import Tags Values Model Iterator Counter Decoder.

Local Open Scope Z_scope.
Local Open Scope go_scope.

Module Robustness.

(** ** Reading a tag and a length field *)

Section Scan.

Variable s : split_state.
Hypothesis Hw : iter_wf (s_it s).

(** The first two reads of an iteration on a value tag. *)
Lemma split_body_value_tag t h l more :
  rest (s_it s) = t :: h :: l :: more -> is_delimiter t = false ->
  exists it2, iter_wf it2 /\ rest it2 = more /\
    split_body s =
      (let cnt := Start 1 in
       let nLength := default 0 (read_i16 [h; l]) in
       if negb (nLength =? 0) then
         let '(ag, v) :=
           if GTEq cnt 1
           then (mkGroup (beginAttributeGroupTag (s_ag s)) (attributes (s_ag s) ++ [s_v s]), NewAttribute)
           else (s_ag s, s_v s) in
         let? '(n, ok, it) := GetNextN it2 nLength in
         if negb ok then Ok (Break (mkSplit it (s_ags s) ag v t))
         else read_value true it (s_ags s) ag v t n nLength
       else read_value false it2 (s_ags s) (s_ag s) (s_v s) t [] 0).
Proof.
  intros Hr Hd.
  destruct (GetNextOne_cons (DeBug (s_it s)) _ _ (DeBug_wf _ Hw) (eq_trans (rest_DeBug _) Hr))
    as (it1 & H1 & Hw1 & Hr1).
  destruct (GetNextN_prefix it1 2 [h; l] more Hw1 Hr1 eq_refl) as (it2 & H2 & Hw2 & Hr2).
  exists it2. split; [exact Hw2|]. split; [exact Hr2|].
  unfold split_body. rewrite H1, go_bind_Ok. cbv beta iota. rewrite Hd. cbn [negb].
  rewrite H2, go_bind_Ok. reflexivity.
Qed.

(** A name length with the sign bit set is a negative [int16]: the name
  read [GetNextN(int(nLength))] panics. *)
Lemma split_body_negative_name t h l more :
  rest (s_it s) = t :: h :: l :: more -> is_delimiter t = false ->
  128 <= h < 256 -> 0 <= l < 256 -> split_body s = Panic SliceBounds.
Proof.
  intros Hr Hd Hh Hl.
  destruct (split_body_value_tag t h l more Hr Hd) as (it2 & Hw2 & _ & ->).
  rewrite read_i16_bytes, i16_high by lia. cbn [default id].
  destruct (Z.eqb_spec (h * 256 + l - 65536) 0); [lia|]. cbn [negb]. rewrite GTEq_Start_1.
  cbv beta iota. rewrite GetNextN_neg by (exact Hw2 || lia). reflexivity.
Qed.

End Scan.

(** The value-length read of [read_value]: with the sign bit set it is a
  negative [int16] and the value read panics. *)
Lemma read_value_negative d it ags ag v t nm nl h l more :
  iter_wf it -> rest it = h :: l :: more -> 128 <= h < 256 -> 0 <= l < 256 ->
  read_value d it ags ag v t nm nl = Panic SliceBounds.
Proof.
  intros Hw Hr Hh Hl.
  destruct (GetNextN_prefix it 2 [h; l] more Hw Hr eq_refl) as (it2 & H2 & Hw2 & _).
  unfold read_value. rewrite H2, go_bind_Ok. cbv beta iota.
  rewrite read_i16_bytes, i16_high by lia.
  rewrite GetNextN_neg; [reflexivity | destruct d; [apply DeBug_wf|]; exact Hw2 | lia].
Qed.

Lemma split_body_sign_bit s t n nm h l more :
  iter_wf (s_it s) -> is_delimiter t = false -> 128 <= h < 256 -> 0 <= l < 256 ->
  n = Z.of_nat (length nm) -> n < 32768 ->
  rest (s_it s) = t :: h :: l :: more \/ rest (s_it s) = t :: be_bytes 2 n ++ nm ++ h :: l :: more ->
  split_body s = Panic SliceBounds.
Proof.
  intros Hw Hd Hh Hl Hn Hsmall [Hr|Hr]; [exact (split_body_negative_name s Hw t h l more Hr Hd Hh Hl)|].
  assert (Hb : be_bytes 2 n = [n / 256; n mod 256]).
  { cbn. rewrite !land_255, shiftr_8. f_equal. f_equal. apply Z.mod_small. split; [apply Z.div_pos|apply Z.div_lt_upper_bound]; lia. }
  rewrite Hb in Hr. simpl app in Hr.
  assert (Hd1 : 0 <= n / 256 < 256) by (split; [apply Z.div_pos|apply Z.div_lt_upper_bound]; lia).
  assert (Hd2 : 0 <= n mod 256 < 256) by (apply Z.mod_pos_bound; lia).
  destruct (split_body_value_tag s Hw _ _ _ _ Hr Hd) as (it2 & Hw2 & Hr2 & ->).
  rewrite read_i16_bytes by lia. cbn [default id].
  replace (n / 256 * 256 + n mod 256) with n by (rewrite Z.mul_comm; apply Z.div_mod; lia).
  rewrite i16_small by lia.
  destruct (Z.eqb_spec n 0) as [Hz|Hz]; cbn [negb].
  - destruct nm; [|simpl in Hn; lia]. exact (read_value_negative _ _ _ _ _ _ _ _ _ _ _ Hw2 Hr2 Hh Hl).
  - rewrite GTEq_Start_1. cbv beta iota.
    destruct (GetNextN_prefix it2 n nm (h :: l :: more) Hw2 Hr2 Hn) as (it3 & -> & Hw3 & Hr3).
    rewrite go_bind_Ok. cbv beta iota. cbn [negb].
    exact (read_value_negative _ _ _ _ _ _ _ _ _ _ _ Hw3 Hr3 Hh Hl).
Qed.

(** C19. A length field of an attribute with its sign bit set makes an
  iteration of the decoder panic (slice bounds out of range) instead of
  reporting a framing error: a name length [>= 0x8000], or the value
  length after a name length [n < 0x8000] and a name of [n] bytes. *)
Theorem split_body_negative_length s t n nm h l more :
  iter_wf (s_it s) -> is_delimiter t = false -> 128 <= h < 256 -> 0 <= l < 256 ->
  n = Z.of_nat (length nm) -> n < 32768 ->
  rest (s_it s) = t :: h :: l :: more \/ rest (s_it s) = t :: be_bytes 2 n ++ nm ++ h :: l :: more ->
  split_body s = Panic SliceBounds.
Proof. exact (split_body_sign_bit s t n nm h l more). Qed.

(** ** The entry point on malformed input *)

(** C21. A reply shorter than the eight header bytes makes [ParseMessage]
  panic on a header slice, instead of reporting a malformed header. *)
Theorem ParseMessage_short b :
  (length b < 8)%nat -> ParseMessage b = Panic SliceBounds.
Proof.
  intros Hl. unfold ParseMessage.
  do 3 slice_step. rewrite go_slice_bad by lia. reflexivity.
Qed.

Lemma ParseMessage_body hdr body :
  length hdr = 8%nat ->
  ParseMessage (hdr ++ body) =
    (let? s0 := go_slice hdr 0 1 in
     let? s1 := go_slice hdr 1 2 in
     let? s3 := go_slice hdr 3 4 in
     let? s4 := go_slice hdr 4 8 in
     let? ags := splitAValues body in
     let ii := fst (Uvarint s3) in
     Ok (mkMsg (i8 (fst (Varint s0))) (i8 (fst (Varint s1))) (u16 ii) 0 (i32 (fst (Varint s4)))
               ags 0 [] (typeCheck (u16 ii)))).
Proof.
  intros Hl. unfold ParseMessage.
  rewrite (go_slice_suffix hdr body 8) by (rewrite ?Hl; reflexivity).
  rewrite !go_slice_app_l by (rewrite ?Hl; lia). reflexivity.
Qed.

(** A reply whose first attribute has a name length of [0x8000] or
  more crashes [ParseMessage] with a slice-bounds panic, whatever the
  header and the group tag. *)
Theorem ParseMessage_negative_name hdr g t h l more :
  length hdr = 8%nat -> is_delimiter t = false -> 128 <= h < 256 -> 0 <= l < 256 ->
  ParseMessage (hdr ++ g :: t :: h :: l :: more) = Panic SliceBounds.
Proof.
  intros Hl Hd Hh Hl'. rewrite ParseMessage_body by exact Hl.
  do 4 slice_step. unfold splitAValues.
  destruct (split_init_cons g (t :: h :: l :: more)) as (it & -> & Hw & Hr).
  rewrite go_bind_Ok. cbn [split_loop s_vTag]. change (0 =? TAG_END) with false. cbv iota.
  rewrite (split_body_negative_name (mkSplit it [] (mkGroup g []) NewAttribute 0) Hw t h l more Hr Hd Hh Hl').
  reflexivity.
Qed.

(** The same for the value length of a first attribute whose name
  length is below [0x8000]. *)
Lemma ParseMessage_negative_value hdr g t n nm h l more :
  length hdr = 8%nat -> is_delimiter t = false -> 128 <= h < 256 -> 0 <= l < 256 ->
  n = Z.of_nat (length nm) -> n < 32768 ->
  ParseMessage (hdr ++ g :: t :: be_bytes 2 n ++ nm ++ h :: l :: more) = Panic SliceBounds.
Proof.
  intros Hl Hd Hh Hl' Hn Hs. rewrite ParseMessage_body by exact Hl.
  do 4 slice_step. unfold splitAValues.
  destruct (split_init_cons g (t :: be_bytes 2 n ++ nm ++ h :: l :: more)) as (it & -> & Hw & Hr).
  rewrite go_bind_Ok. cbn [split_loop s_vTag]. change (0 =? TAG_END) with false. cbv iota.
  rewrite (split_body_sign_bit (mkSplit it [] (mkGroup g []) NewAttribute 0) t n nm h l more Hw Hd Hh Hl'
             Hn Hs (or_intror Hr)).
  reflexivity.
Qed.

(** C16. The header as [ParseMessage] reads it, when the two version
  bytes, the low byte of the operation id and the first request-id
  byte are below [0x80]: the version bytes and the request-id byte go
  through the zig-zag reader [binary.Varint] (a version 2.1 header
  reads back as 1 and -1), the operation-id byte through the unsigned
  [binary.Uvarint] (it is read as itself), the high byte of the
  operation id and the last three request-id bytes are ignored, and
  [IsResponse] is always true. *)
Theorem ParseMessage_header h0 h1 h2 h3 h4 h5 h6 h7 body :
  0 <= h0 < 128 -> 0 <= h1 < 128 -> 0 <= h3 < 128 -> 0 <= h4 < 128 ->
  ParseMessage ([h0; h1; h2; h3; h4; h5; h6; h7] ++ body) =
    (let? ags := splitAValues body in
     Ok (mkMsg (zigzag h0) (zigzag h1) h3 0 (zigzag h4) ags 0 [] true)).
Proof.
  intros H0 H1 H3 H4. rewrite ParseMessage_body by reflexivity.
  set (hdr := [h0; h1; h2; h3; h4; h5; h6; h7]).
  assert (E0 : go_slice hdr 0 1 = Ok [h0]) by reflexivity.
  assert (E1 : go_slice hdr 1 2 = Ok [h1]) by reflexivity.
  assert (E3 : go_slice hdr 3 4 = Ok [h3]) by reflexivity.
  assert (E4 : go_slice hdr 4 8 = Ok [h4; h5; h6; h7]) by reflexivity.
  rewrite E0, E1, E3, E4, !go_bind_Ok. cbv zeta.
  rewrite !Varint_small, Uvarint_small by lia.
  pose proof (zigzag_bound h0 H0). pose proof (zigzag_bound h1 H1). pose proof (zigzag_bound h4 H4).
  cbn [fst]. rewrite !i8_small, i32_small, u16_small by lia.
  replace (typeCheck h3) with true by (unfold typeCheck; symmetry; apply andb_true_intro; split; apply Z.leb_le; lia).
  reflexivity.
Qed.

(** C18. Two consecutive delimiters: the spec asks for one empty group;
  [splitAValues] returns the group with one attribute without values,
  then a group opened by the end tag. *)
Theorem splitAValues_empty_group g more :
  splitAValues (g :: TAG_END :: more) = Ok [mkGroup g [NewAttribute]; mkGroup TAG_END []].
Proof.
  unfold splitAValues. destruct (split_init_cons g (TAG_END :: more)) as (it & -> & Hw & Hr).
  rewrite go_bind_Ok. cbn [split_loop s_vTag]. change (0 =? TAG_END) with false. cbv iota.
  destruct (GetNextOne_cons (DeBug it) TAG_END more (DeBug_wf _ Hw) Hr) as (it1 & H1 & _ & _).
  unfold split_body. cbn [s_it]. rewrite H1, go_bind_Ok. reflexivity.
Qed.

(** ** Instances *)

(** A cursor in front of a keyword attribute named "name" whose value
  length has the sign bit set. *)
Definition negative_value_state : split_state :=
  mkSplit (NewIterator [0x44; 0; 4; 110; 97; 109; 101; 0x80; 0]) [] (mkGroup 1 []) NewAttribute 0.

Lemma split_body_negative_length_witness :
  iter_wf (s_it negative_value_state) /\ is_delimiter 0x44 = false /\ 128 <= 128 < 256 /\
  0 <= 0 < 256 /\ 4 = Z.of_nat (length [110; 97; 109; 101]) /\ 4 < 32768 /\
  (rest (s_it negative_value_state) = 0x44 :: 128 :: 0 :: [] \/
   rest (s_it negative_value_state) = 0x44 :: be_bytes 2 4 ++ [110; 97; 109; 101] ++ 128 :: 0 :: []) /\
  split_body negative_value_state = Panic SliceBounds.
Proof.
  assert (H1 : iter_wf (s_it negative_value_state)) by apply NewIterator_wf.
  assert (H2 : is_delimiter 0x44 = false) by reflexivity.
  assert (H3 : 128 <= 128 < 256) by lia.
  assert (H4 : 0 <= 0 < 256) by lia.
  assert (H5 : 4 = Z.of_nat (length [110; 97; 109; 101])) by reflexivity.
  assert (H6 : 4 < 32768) by lia.
  assert (H7 : rest (s_it negative_value_state) = 0x44 :: 128 :: 0 :: [] \/
               rest (s_it negative_value_state) = 0x44 :: be_bytes 2 4 ++ [110; 97; 109; 101] ++ 128 :: 0 :: [])
    by (right; reflexivity).
  repeat (split; [assumption|]).
  exact (split_body_negative_length _ _ _ _ _ _ _ H1 H2 H3 H4 H5 H6 H7).
Defined.

(** Three bytes of a header. *)
Definition short_reply : list Z := [2; 1; 0].

(** The header of a Print-Job request, version 1.1, request id 1. *)
Definition print_job_header : list Z := [1; 1; 0; 2; 0; 0; 0; 1].

Lemma ParseMessage_short_witness :
  (length short_reply < 8)%nat /\ ParseMessage short_reply = Panic SliceBounds.
Proof.
  assert (H : (length short_reply < 8)%nat) by (simpl; lia).
  split; [exact H | exact (ParseMessage_short _ H)].
Defined.

Lemma ParseMessage_negative_name_witness :
  length print_job_header = 8%nat /\ is_delimiter 0x47 = false /\
  128 <= 0xFF < 256 /\ 0 <= 0xFF < 256 /\
  ParseMessage (print_job_header ++ 1 :: 0x47 :: 0xFF :: 0xFF :: []) = Panic SliceBounds.
Proof.
  assert (H1 : length print_job_header = 8%nat) by reflexivity.
  assert (H2 : is_delimiter 0x47 = false) by reflexivity.
  assert (H3 : 128 <= 0xFF < 256) by lia.
  assert (H4 : 0 <= 0xFF < 256) by lia.
  repeat (split; [assumption|]).
  exact (ParseMessage_negative_name _ _ _ _ _ _ H1 H2 H3 H4).
Defined.

(** The header of the CUPS-Get-Printers request with request id 1. *)
Lemma ParseMessage_header_witness :
  0 <= 2 < 128 /\ 0 <= 1 < 128 /\ 0 <= 2 < 128 /\ 0 <= 0 < 128 /\
  ParseMessage ([2; 1; 0x40; 2; 0; 0; 0; 1] ++ [1; 3]) =
    (let? ags := splitAValues [1; 3] in
     Ok (mkMsg (zigzag 2) (zigzag 1) 2 0 (zigzag 0) ags 0 [] true)).
Proof.
  assert (H1 : 0 <= 2 < 128) by lia. assert (H2 : 0 <= 1 < 128) by lia.
  assert (H3 : 0 <= 0 < 128) by lia.
  repeat (split; [assumption|]).
  exact (ParseMessage_header 2 1 0x40 2 0 0 0 1 [1; 3] H1 H2 H1 H3).
Defined.

End Robustness.
