(* ===== verification/Overflow.v ===== *)
(** * Overflow: the 16-bit length fields from the builder to the decoder

  [attribute.addValue] ([src/ipp/ippMsg.go]) stores the name length as
  [int16(len(name))], [marshallAtrib] ([src/IppGenerator.go]) writes it
  as two big-endian bytes, and [splitAValues] ([src/ipp/unMarshall.go])
  reads it back into an [int16] and slices with it. This file follows
  a long name through the three: the conversion wraps, and the library
  cannot read the message it built. *)

From Stdlib Require Import ZArith Lia String.
From stdpp Require Import base list.
From S2P Require Import Prelude Tags Values Model Encoder Decoder Robustness.
Import Tags Values Model Encoder Decoder Robustness.

Local Open Scope Z_scope.
Local Open Scope go_scope.

Module Overflow.

(** A tag [refer] installs a [Length] closure for is one byte and not a
  delimiter. *)
Lemma refer_Length_Ok_tag t v len :
  refer_Length t v = Ok len -> Z.land t 255 = t /\ is_delimiter t = false.
Proof.
  intros H. destruct (mem t refer_tags) eqn:Em.
  - unfold mem, refer_tags in Em. apply existsb_exists in Em as (c & Hc & Ec).
    apply Z.eqb_eq in Ec. subst c. simpl in Hc.
    destruct_or! Hc; try contradiction; subst t; split; reflexivity.
  - assert (E : refer_error t v = Some NilFuncCall) by (unfold refer_error; rewrite Em; reflexivity).
    apply refer_Length_Panic in E. congruence.
Qed.

(** The high byte of a name length that [int16] wraps negative. *)
Lemma i16_high_byte n :
  32768 <= n < 65536 -> 128 <= Z.land (Z.shiftr (i16 n) 8) 255 < 256.
Proof.
  intros Hn. rewrite i16_high by exact Hn. rewrite land_255, shiftr_8.
  assert (E : (n - 65536) / 256 = n / 256 + -1 * 256).
  { replace (n - 65536) with (n + -256 * 256) by lia. apply Z.div_add. lia. }
  assert (Hq : 128 <= n / 256 < 256)
    by (split; [apply Z.div_le_lower_bound | apply Z.div_lt_upper_bound]; lia).
  rewrite E, Z.mod_add, Z.mod_small by lia. exact Hq.
Qed.

(** The high byte of a 16-bit length with its sign bit set. *)
Lemma high_byte n :
  32768 <= n < 65536 -> 128 <= Z.land (Z.shiftr n 8) 255 < 256.
Proof.
  intros Hn. rewrite land_255, shiftr_8.
  assert (Hq : 128 <= n / 256 < 256)
    by (split; [apply Z.div_le_lower_bound | apply Z.div_lt_upper_bound]; lia).
  rewrite Z.mod_small by lia. exact Hq.
Qed.

Lemma byte_bound x : 0 <= Z.land x 255 < 256.
Proof. rewrite land_255. apply Z.mod_pos_bound. lia. Qed.

Lemma be_bytes_2 x : be_bytes 2 x = [Z.land (Z.shiftr x 8) 255; Z.land x 255].
Proof. reflexivity. Qed.

(** Every declared length is a [uint16]. *)
Lemma refer_Length_range t v len : refer_Length t v = Ok len -> 0 <= len < 65536.
Proof.
  unfold refer_Length.
  repeat match goal with |- context [if t =? ?c then _ else _] => destruct (t =? c) end;
  try destruct v; intros H; try discriminate; injection H as <-;
  first [lia | apply (Z.mod_pos_bound _ (2 ^ 16)); reflexivity].
Qed.

(** The bytes of a fresh request holding one attribute: the header,
  the operation-attributes tag, then the attribute's tag, name length,
  name, value length and value, then the end tag and the data. *)
Lemma marshallMsg_one_attribute m0 tag nm v m len :
  attributeGroups m0 = [] -> addAttribute m0 tag nm v = Ok m -> refer_Length tag v = Ok len ->
  marshallMsg m =
    Ok (header_bytes m ++ TAG_OPERATION :: tag :: be_bytes 2 (i16 (Z.of_nat (length nm))) ++ nm ++
        be_bytes 2 len ++ value_bytes true v ++ TAG_END :: Data m0).
Proof.
  intros Hg H Hl. unfold addAttribute in H. rewrite (addValue_spec _ _ _ _ _ Hl) in H.
  injection H as <-. destruct (refer_Length_Ok_tag _ _ _ Hl) as [Ht _].
  assert (E1 : be_bytes 1 tag = [tag]) by (cbn; rewrite Ht; reflexivity).
  rewrite marshallMsg_spec.
  replace (writable _) with true
    by (unfold writable, all_attributes; cbn [with_groups attributeGroups]; rewrite Hg; reflexivity).
  f_equal. rewrite marshallMsg_eq. f_equal. unfold all_attributes.
  cbn [with_groups attributeGroups Data]. rewrite Hg.
  cbn [app map concat newAg attributes marshal_attribute_bytes values marshal_values_bytes marshal_value_bytes Nat.eqb].
  unfold added_value, NewAttribute. cbn [values valueTag nameLength name valueLength value].
  rewrite E1, <- !app_assoc. reflexivity.
Qed.

(** C20. The 16-bit length fields overflow between the builder and the
  decoder. [addAttribute] on a message without groups (a fresh request)
  builds a message when the name has 2^15 to 2^16 - 1 bytes, since
  [int16(len(name))] wraps to a negative length without complaint, and
  when the value's declared [uint16] length reaches 2^15; [marshallMsg]
  returns the message's bytes with either length's sign bit set, and
  [ParseMessage] of them panics on a slice bound, whatever the tag, the value
  and the header. *)
Theorem long_length_crashes_decoder m0 tag nm v m len :
  attributeGroups m0 = [] -> addAttribute m0 tag nm v = Ok m -> refer_Length tag v = Ok len ->
  32768 <= Z.of_nat (length nm) < 65536 \/ (Z.of_nat (length nm) < 32768 /\ 32768 <= len) ->
  (let? b := marshallMsg m in ParseMessage b) = Panic SliceBounds.
Proof.
  intros Hg H Hl Hn. rewrite (marshallMsg_one_attribute _ _ _ _ _ _ Hg H Hl), go_bind_Ok.
  destruct (refer_Length_Ok_tag _ _ _ Hl) as [_ Hd]. pose proof (refer_Length_range _ _ _ Hl) as Hr.
  destruct Hn as [Hn | [Hn Hv]].
  - rewrite be_bytes_2. cbn [app].
    apply ParseMessage_negative_name;
      [apply length_header_bytes | exact Hd | apply i16_high_byte; exact Hn | apply byte_bound].
  - rewrite i16_small by lia. rewrite (be_bytes_2 len). cbn [app].
    apply ParseMessage_negative_value;
      [apply length_header_bytes | exact Hd | apply high_byte; lia | apply byte_bound | reflexivity | exact Hn].
Qed.

(** A Get-Printers-like request whose charset attribute has a name of
  40000 bytes. *)
Definition long_name : list Z := repeat 97 (Z.to_nat 40000).

Definition long_name_msg : Message :=
  match addAttribute (newMessage CUPS_GET_PRINTERS) TAG_CHARSET long_name (VCharset (str "utf-8")) with
  | Ok m => m
  | Panic _ => newMessage 0
  end.

Lemma long_length_crashes_decoder_witness :
  attributeGroups (newMessage CUPS_GET_PRINTERS) = [] /\
  addAttribute (newMessage CUPS_GET_PRINTERS) TAG_CHARSET long_name (VCharset (str "utf-8")) =
    Ok long_name_msg /\
  32768 <= Z.of_nat (length long_name) < 65536 /\
  (let? b := marshallMsg long_name_msg in ParseMessage b) = Panic SliceBounds.
Proof.
  assert (H1 : attributeGroups (newMessage CUPS_GET_PRINTERS) = []) by reflexivity.
  assert (H2 : addAttribute (newMessage CUPS_GET_PRINTERS) TAG_CHARSET long_name (VCharset (str "utf-8")) =
                 Ok long_name_msg) by reflexivity.
  assert (H3 : 32768 <= Z.of_nat (length long_name) < 65536)
    by (unfold long_name; rewrite repeat_length, Z2Nat.id by lia; lia).
  split; [exact H1|]. split; [exact H2|]. split; [exact H3|].
  exact (long_length_crashes_decoder _ _ _ _ _ _ H1 H2 eq_refl (or_introl H3)).
Defined.

End Overflow.
