(* ===== verification/Spec.v ===== *)
(** * Spec: the wire encoding the IPP specification asks for, and how
  the encoder refines it

  An abstract message model (groups of named, multi-valued attributes
  whose values are a tag and bytes) with the encoding of RFC 8010
  section 3.1 as the spec describes it: header, then for each group its
  delimiter tag followed by its attributes, the first value of an
  attribute with its name and the others as additional values, the end
  tag 3, the trailing data. [abs_msg] maps a [Message] of the code to
  this model (each value to its tag and the bytes [binary.Write] emits
  for it). The theorems show that [marshallMsg] implements this
  encoding on the message whose groups are merged into one
  operation-attributes group, that it is exact on a message with one
  operation group, and that it writes one group tag where the spec
  writes one per group. *)

From Stdlib Require Import ZArith Lia String.
From stdpp Require Import base list.
From S2P Require Import Prelude Tags Values Model Encoder Codec.
Import Tags Values Model Encoder Codec.

Local Open Scope Z_scope.

Module Spec.

(** ** The abstract message model *)

Record sValue := mkSV { sv_tag : Z; sv_bytes : list Z }.
Record sAttribute := mkSA { sa_name : list Z; sa_values : list sValue }.
Record sGroup := mkSG { sg_tag : Z; sg_attrs : list sAttribute }.
Record sMessage := mkSM {
  sm_major : Z; sm_minor : Z; sm_op : Z; sm_rid : Z;
  sm_groups : list sGroup; sm_data : list Z
}.

(** ** The encoding of the spec (section 4.3, Encode) *)

Definition len (l : list Z) : Z := Z.of_nat (length l).

Definition enc_first (nm : list Z) (v : sValue) : list Z :=
  [sv_tag v] ++ be_bytes 2 (len nm) ++ nm ++ be_bytes 2 (len (sv_bytes v)) ++ sv_bytes v.

Definition enc_additional (v : sValue) : list Z :=
  [sv_tag v] ++ [0; 0] ++ be_bytes 2 (len (sv_bytes v)) ++ sv_bytes v.

Definition enc_attribute (a : sAttribute) : list Z :=
  match sa_values a with
  | [] => []
  | v :: vs => enc_first (sa_name a) v ++ concat (map enc_additional vs)
  end.

Definition enc_group (g : sGroup) : list Z :=
  [sg_tag g] ++ concat (map enc_attribute (sg_attrs g)).

Definition encode (m : sMessage) : list Z :=
  be_bytes 1 (sm_major m) ++ be_bytes 1 (sm_minor m) ++ be_bytes 2 (sm_op m) ++
  be_bytes 4 (sm_rid m) ++ concat (map enc_group (sm_groups m)) ++ [TAG_END] ++ sm_data m.

(** ** Abstraction of the code's messages *)

Definition abs_value (first : bool) (v : attributeValue) : sValue :=
  mkSV (valueTag v) (value_bytes first (value v)).

Definition abs_attribute (a : attribute) : sAttribute :=
  match values a with
  | [] => mkSA [] []
  | v :: vs => mkSA (name v) (abs_value true v :: map (abs_value false) vs)
  end.

Definition abs_group (g : attributeGroup) : sGroup :=
  mkSG (beginAttributeGroupTag g) (map abs_attribute (attributes g)).

Definition abs_msg (m : Message) : sMessage :=
  mkSM (majorVer m) (minorVer m) (operationIdStatusCode m) (requestId m)
       (map abs_group (attributeGroups m)) (Data m).

(** The message with all its attributes in one operation group. *)
Definition flatten (m : Message) : Message :=
  with_groups m [mkGroup TAG_OPERATION (all_attributes m)].

(** The spec's invariant on a value: a one-byte tag, the declared value
  length is the length of the bytes written, the first value of an
  attribute declares the length of its name, and an additional value
  is not nil (the encoder's [binary.Write] of it would panic). *)
Definition frame_consistent (fr : frame) : Prop :=
  0 <= valueTag fr.2 < 256 /\ valueLength fr.2 = len (payload fr) /\
  (fr.1 = true -> nameLength fr.2 = len (name fr.2)) /\
  (fr.1 = false -> is_nil (value fr.2) = false).

Definition consistent (m : Message) : Prop := Forall frame_consistent (all_frames m).

#[export] Instance frame_consistent_dec fr : Decision (frame_consistent fr).
Proof. unfold frame_consistent. apply _. Defined.

#[export] Instance consistent_dec m : Decision (consistent m).
Proof. unfold consistent. apply _. Defined.

(** ** Refinement *)

Lemma frame_bytes_first v :
  frame_consistent (true, v) -> frame_bytes (true, v) = enc_first (name v) (abs_value true v).
Proof.
  intros (Ht & Hv & Hn & _). specialize (Hn eq_refl). cbn in Ht, Hv, Hn.
  unfold frame_bytes, marshal_value_bytes, enc_first, abs_value. cbn [frame_index fst snd Nat.eqb sv_tag sv_bytes].
  rewrite (be_bytes_1_byte _ Ht), Hn, Hv. reflexivity.
Qed.

Lemma frame_bytes_additional v :
  frame_consistent (false, v) -> frame_bytes (false, v) = enc_additional (abs_value false v).
Proof.
  intros (Ht & Hv & _ & _). cbn in Ht, Hv. unfold frame_bytes, marshal_value_bytes, enc_additional, abs_value.
  cbn [frame_index fst snd Nat.eqb sv_tag sv_bytes].
  rewrite (be_bytes_1_byte _ Ht), Hv. reflexivity.
Qed.

Lemma marshal_attribute_refines a :
  Forall frame_consistent (frames_of_attr a) -> marshal_attribute_bytes a = enc_attribute (abs_attribute a).
Proof.
  rewrite marshal_attribute_frames. unfold frames_of_attr, abs_attribute, enc_attribute.
  destruct (values a) as [|v vs]; [reflexivity|]. cbn [sa_values sa_name].
  intros Hf. inversion Hf as [|? ? H0 Hs]; subst. cbn [map concat].
  rewrite frame_bytes_first by exact H0. f_equal. clear Hf.
  induction vs as [|w vs IH]; [reflexivity|].
  inversion Hs as [|? ? Hw Hs']; subst. cbn [map concat].
  rewrite frame_bytes_additional by exact Hw. f_equal. exact (IH Hs').
Qed.

Lemma marshal_attributes_refines attrs :
  Forall frame_consistent (concat (map frames_of_attr attrs)) ->
  concat (map marshal_attribute_bytes attrs) = concat (map enc_attribute (map abs_attribute attrs)).
Proof.
  induction attrs as [|a attrs IH]; intros H; [reflexivity|].
  cbn [map concat] in *. apply Forall_app in H as [Ha Hs].
  rewrite marshal_attribute_refines, IH by assumption. reflexivity.
Qed.

Lemma marshallMsg_flatten m :
  consistent m -> marshallMsg_bytes m = encode (abs_msg (flatten m)).
Proof.
  intros Hc. rewrite marshallMsg_eq. unfold encode, abs_msg, flatten, header_bytes. cbn.
  rewrite <- (marshal_attributes_refines _ Hc), app_nil_r. reflexivity.
Qed.

(** A consistent message is one [marshallMsg] returns on. *)
Lemma marshallMsg_consistent m : consistent m -> marshallMsg m = Ok (marshallMsg_bytes m).
Proof.
  intros Hc. rewrite marshallMsg_spec, frames_writable; [reflexivity|].
  eapply Forall_impl; [exact Hc|]. intros fr Hfr. exact (proj2 (proj2 (proj2 Hfr))).
Qed.

(** C7. The encoder implements the spec's encoding of the message whose
  groups are merged into one operation-attributes group: [marshallMsg]
  returns exactly the spec's bytes for [flatten m], for every consistent
  message ([consistent]: each tag is a byte, each declared value or name
  length is the length of what is written, and no additional value is
  nil, the condition under which the encoder returns). *)
Theorem marshallMsg_refines m :
  consistent m -> marshallMsg m = Ok (encode (abs_msg (flatten m))).
Proof. intros Hc. rewrite (marshallMsg_consistent m Hc). f_equal. exact (marshallMsg_flatten m Hc). Qed.

Lemma flatten_consistent m : consistent (flatten m) <-> consistent m.
Proof. unfold consistent, all_frames, flatten, all_attributes. cbn. rewrite app_nil_r. reflexivity. Qed.

Lemma abs_group_attrs gs :
  concat (map sg_attrs (map abs_group gs)) = map abs_attribute (concat (map attributes gs)).
Proof.
  induction gs as [|g gs IH]; [reflexivity|]. cbn. rewrite IH, map_app. reflexivity.
Qed.

Lemma length_enc_groups gs :
  length (concat (map enc_group gs)) =
    (length gs + length (concat (map enc_attribute (concat (map sg_attrs gs)))))%nat.
Proof.
  induction gs as [|g gs IH]; [reflexivity|].
  cbn [map concat length]. rewrite !length_app, IH, map_app, concat_app, length_app. unfold enc_group.
  rewrite length_app. simpl. lia.
Qed.

(** On a message with one operation-attributes group, the encoder is
  exactly the spec's encoding. *)
Lemma marshallMsg_single_group m attrs :
  consistent m -> attributeGroups m = [mkGroup TAG_OPERATION attrs] ->
  marshallMsg m = Ok (encode (abs_msg m)).
Proof.
  intros Hc Hg. rewrite (marshallMsg_consistent m Hc). f_equal. rewrite (marshallMsg_flatten m Hc).
  unfold abs_msg, flatten, all_attributes. cbn. rewrite Hg. cbn. rewrite !app_nil_r. reflexivity.
Qed.

(** C15. The encoder writes one group tag in all: for every consistent
  message (as in C7), [marshallMsg] returns, and the spec's encoding is
  longer than its output by the
  number of groups minus one (a message with two groups or more is
  never encoded as the spec asks). *)
Theorem marshallMsg_group_tags m :
  consistent m ->
  exists b, marshallMsg m = Ok b /\
    (length (encode (abs_msg m)) + 1 = length b + length (attributeGroups m))%nat.
Proof.
  intros Hc. exists (marshallMsg_bytes m). split; [exact (marshallMsg_consistent m Hc)|].
  rewrite (marshallMsg_flatten m Hc). unfold encode, abs_msg, flatten. cbn [sm_groups sm_major sm_minor sm_op sm_rid sm_data].
  rewrite !length_app, !length_enc_groups, !abs_group_attrs, length_map. cbn.
  unfold all_attributes. rewrite app_nil_r. lia.
Qed.

(** ** The spec's Print-Job scenario (section 8, property 6) *)

(** An attribute made by [addValue] on a fresh attribute. *)
Definition first_value (tag : Z) (nm : string) (v : goValue) : attribute :=
  match addValue NewAttribute tag (str nm) v with Ok a => a | Panic _ => NewAttribute end.

Definition print_job : Message :=
  mkMsg 1 1 PRINT_JOB 0 1
    [mkGroup TAG_OPERATION
       [first_value TAG_CHARSET "attributes-charset" (VCharset (str "us-ascii"));
        first_value TAG_LANGUAGE "attributes-natural-language" (VNaturalLanguage (str "en-us"))];
     mkGroup TAG_JOB
       [first_value TAG_INTEGER "copies" (VInteger 20);
        first_value TAG_KEYWORD "sides" (VKeyword (str "two-sided-long-edge"))]]
    TAG_END [] false.

(** The bytes of the scenario as RFC 2910 section 13.1 lays them out. *)
Definition rfc_header : list Z := [1; 1; 0; 2; 0; 0; 0; 1].
Definition rfc_operation_attributes : list Z :=
  [0x47; 0; 18] ++ str "attributes-charset" ++ [0; 8] ++ str "us-ascii" ++
  [0x48; 0; 27] ++ str "attributes-natural-language" ++ [0; 5] ++ str "en-us".
Definition rfc_job_attributes : list Z :=
  [0x21; 0; 6] ++ str "copies" ++ [0; 4; 0; 0; 0; 20] ++
  [0x44; 0; 5] ++ str "sides" ++ [0; 19] ++ str "two-sided-long-edge".

Lemma print_job_spec :
  encode (abs_msg print_job) =
    rfc_header ++ [1] ++ rfc_operation_attributes ++ [2] ++ rfc_job_attributes ++ [3].
Proof. vm_compute. reflexivity. Qed.

Lemma marshallMsg_group_tags_witness :
  consistent print_job /\
  exists b, marshallMsg print_job = Ok b /\
    (length (encode (abs_msg print_job)) + 1 = length b + length (attributeGroups print_job))%nat.
Proof.
  assert (H : consistent print_job) by (apply (bool_decide_unpack _); vm_compute; reflexivity).
  split; [exact H | exact (marshallMsg_group_tags _ H)].
Defined.

Lemma marshallMsg_refines_witness :
  consistent print_job /\ marshallMsg print_job = Ok (encode (abs_msg (flatten print_job))).
Proof.
  assert (H : consistent print_job) by (apply (bool_decide_unpack _); vm_compute; reflexivity).
  split; [exact H | exact (marshallMsg_refines _ H)].
Defined.

End Spec.
