(* ===== verification/Client.v ===== *)
(** * Client: the CUPS client of [src/ipp/cups.go] end to end

  [CupsServer.DoRequest] composes the whole library: it encodes the
  request with [marshallMsg] (after creating the dump file; a nil
  additional value makes the encoder panic there), writes the bytes to
  the file, posts them over HTTP, decodes the reply body with [ParseMessage] and prints
  [x.attributeGroups[1].attributes[0]]. The transport is an input of
  the model: [None] when [http.Post] fails (its response is then nil
  and [resp.Body] dereferences it), [Some body] for the bytes
  [ioutil.ReadAll] returns. The I/O the method performs is an explicit
  trace of events, in the order the code performs it; the printing is
  output only, but the index expressions of the last [Println] are
  evaluated and can panic. *)

From Stdlib Require Import ZArith Lia String.
From stdpp Require Import base list.
From S2P Require Import Prelude GoBinary Tags Utils Values Model Encoder Decoder Codec.
Import Tags Values Model Encoder Decoder Codec.

Local Open Scope Z_scope.
Local Open Scope go_scope.

Module Client.

(** [CupsServer] (fields [uri], [username], [password],
  [requestCounter]): [SetServer] sets the uri, no method reads the
  fields; [DoRequest] posts to a fixed address. *)
Record CupsServer := mkServer {
  c_uri : string; c_username : string; c_password : string; c_requestCounter : Z
}.

Definition SetServer (c : CupsServer) (server : string) : CupsServer :=
  mkServer server (c_username c) (c_password c) (c_requestCounter c).

(** The effects of [DoRequest] that leave the process. *)
Inductive io_event :=
| FileCreate (path : string)
| FileWrite (path : string) (bs : list Z)
| HttpPost (url ctype : string) (bs : list Z).

Definition dump_path : string := "/Users/tmartino/aC".
Definition printer_url : string := "http://192.168.1.8:631/ipp/printer".

(** [DoRequest m] with the transport's answer [reply]: the trace of
  effects and the decoded reply, or the panic that ends the method. *)
Definition DoRequest (m : Message) (reply : option (list Z)) : list io_event * goRes Message :=
  match marshallMsg m with
  | Panic r => ([FileCreate dump_path], Panic r)
  | Ok s =>
      ([FileCreate dump_path; FileWrite dump_path s; HttpPost printer_url "application/ipp" s],
       match reply with
       | None => Panic NilDeref
       | Some body =>
           let? x := ParseMessage body in
           let? g := go_nth (attributeGroups x) 1 in
           let? _ := go_nth (attributes g) 0 in
           Ok x
       end)
  end.

(** The three client methods: build the request (a panic of a builder
  ends the method before any I/O), then [DoRequest]. *)
Definition run_request (req : goRes Message) (reply : option (list Z))
  : list io_event * goRes Message :=
  match req with
  | Ok m => DoRequest m reply
  | Panic r => ([], Panic r)
  end.

Definition GetPrinters := run_request GetPrinters_request.
Definition GetPrinterAttributes := run_request GetPrinterAttributes_request.
Definition PrintTestPage := run_request PrintTestPage_request.

(** ** Lemmas *)

Lemma ParseMessage_groups b x :
  ParseMessage b = Ok x -> exists body, splitAValues body = Ok (attributeGroups x).
Proof.
  unfold ParseMessage. intros H.
  do 5 (apply go_bind_Ok_inv in H as (? & _ & H)).
  apply go_bind_Ok_inv in H as (ags & Ha & H). injection H as <-. eauto.
Qed.

Lemma go_nth_Ok {A} (l : list A) i x : go_nth l i = Ok x -> 0 <= i /\ l !! Z.to_nat i = Some x.
Proof.
  unfold go_nth. destruct (Z.leb_spec 0 i) as [Hi|]; [|discriminate].
  destruct (l !! Z.to_nat i) eqn:E; [intros Hx; injection Hx as <-; auto | discriminate].
Qed.

(** A decoded reply the method survives has a second group that holds
  an attribute. *)
Lemma DoRequest_Ok m body x :
  snd (DoRequest m (Some body)) = Ok x ->
  ParseMessage body = Ok x /\
  exists g a, attributeGroups x !! 1%nat = Some g /\ attributes g !! 0%nat = Some a.
Proof.
  unfold DoRequest. destruct (marshallMsg m) as [s|r]; cbn [snd]; [|discriminate]. intros H.
  apply go_bind_Ok_inv in H as (x' & Hp & H).
  apply go_bind_Ok_inv in H as (g & Hg & H).
  apply go_bind_Ok_inv in H as (a & Ha & H). injection H as <-.
  apply go_nth_Ok in Hg as [_ Hg]. apply go_nth_Ok in Ha as [_ Ha].
  split; [exact Hp|]. exists g, a. split; assumption.
Qed.

Lemma snoc_lookup_1 {A} (l : list A) y z :
  (l ++ [y]) !! 1%nat = Some z -> (length (l ++ [y]) <= 2)%nat -> z = y.
Proof.
  intros H Hl. destruct l as [|a [|b l]]; [discriminate | simpl in H; congruence |].
  rewrite length_app in Hl. simpl in Hl. lia.
Qed.

(** C9. The client cannot read a reply written the way this library
  writes messages: for any request [m], when the printer answers with
  the bytes [marshallMsg] returns for a consistent message [m'],
  [DoRequest] panics: with the encoder's own panic if [m] holds a nil
  additional value, else with an index out of range at
  [x.attributeGroups[1].attributes[0]] if the reply decodes (the decoder
  gives back a merged group and an empty end group), or with the
  decoder's panic if it does not; when the request encodes, the file is
  created and written and the bytes posted before the panic. *)
Theorem DoRequest_own_reply m m' b' :
  msg_frames_ok m' -> marshallMsg m' = Ok b' ->
  snd (DoRequest m (Some b')) =
    (let? _ := marshallMsg m in let? _ := decode_frames (all_frames m') in Panic IndexOutOfRange) /\
  (forall s, marshallMsg m = Ok s ->
     fst (DoRequest m (Some b')) =
       [FileCreate dump_path; FileWrite dump_path s; HttpPost printer_url "application/ipp" s]).
Proof.
  intros Hok Hb. rewrite (marshallMsg_Ok m' Hok) in Hb. injection Hb as <-.
  unfold DoRequest. destruct (marshallMsg m) as [s|r]; cbn [snd fst go_bind].
  - split; [|intros s' E; injection E as <-; reflexivity].
    rewrite (ParseMessage_marshallMsg_decode m' Hok).
    destruct (decode_frames (all_frames m')); reflexivity.
  - split; [reflexivity | discriminate].
Qed.

(** C11. What the client survives: if [DoRequest] returns, the transport
  delivered a body, [ParseMessage] decoded it, and the decoded reply has
  at least three groups: by the shape of the decoder's result, the
  second of two groups is the last, which never holds an attribute. *)
Theorem DoRequest_survivors m reply x :
  snd (DoRequest m reply) = Ok x ->
  exists body, reply = Some body /\ ParseMessage body = Ok x /\
    (3 <= length (attributeGroups x))%nat.
Proof.
  destruct reply as [body|]; [|intros H; unfold DoRequest in H; destruct (marshallMsg m); discriminate H]. intros H.
  destruct (DoRequest_Ok m body x H) as (Hp & g & a & Hg & Ha).
  exists body. split; [reflexivity|]. split; [exact Hp|].
  destruct (ParseMessage_groups body x Hp) as (b & Hs).
  destruct (splitAValues_shape b _ Hs) as (gs0 & gl & Heq & Hgl & _).
  destruct (Nat.le_gt_cases 3 (length (attributeGroups x))) as [|Hlt]; [assumption|].
  rewrite Heq in Hg, Hlt. rewrite (snoc_lookup_1 gs0 gl g Hg ltac:(lia)), Hgl in Ha. discriminate.
Qed.

(** A reply with three delimiters and no value: it decodes to three
  groups, the first two holding an empty attribute. *)
Definition reply3 : list Z := [2; 1; 0; 0; 0; 0; 0; 1; 1; 2; 3].

Definition reply3_msg : Message :=
  match ParseMessage reply3 with Ok x => x | Panic _ => newMessage 0 end.

Lemma DoRequest_survivors_witness :
  snd (DoRequest cups_get_printers (Some reply3)) = Ok reply3_msg /\
  exists body, Some reply3 = Some body /\ ParseMessage body = Ok reply3_msg /\
    (3 <= length (attributeGroups reply3_msg))%nat.
Proof.
  assert (H : snd (DoRequest cups_get_printers (Some reply3)) = Ok reply3_msg) by (vm_compute; reflexivity).
  split; [exact H|]. destruct (DoRequest_survivors _ _ _ H) as (body & Hb & Hp & Hl).
  exists body. auto.
Defined.

Definition cups_get_printers_bytes : list Z := marshallMsg_bytes cups_get_printers.

Lemma DoRequest_own_reply_witness :
  msg_frames_ok cups_get_printers /\ marshallMsg cups_get_printers = Ok cups_get_printers_bytes /\
  snd (DoRequest cups_get_printers (Some cups_get_printers_bytes)) = Panic IndexOutOfRange /\
  fst (DoRequest cups_get_printers (Some cups_get_printers_bytes)) =
    [FileCreate dump_path; FileWrite dump_path cups_get_printers_bytes;
     HttpPost printer_url "application/ipp" cups_get_printers_bytes].
Proof.
  assert (H : msg_frames_ok cups_get_printers) by (apply (bool_decide_unpack _); vm_compute; reflexivity).
  assert (Hb : marshallMsg cups_get_printers = Ok cups_get_printers_bytes) by (vm_compute; reflexivity).
  destruct (DoRequest_own_reply cups_get_printers _ _ H Hb) as [H1 H2].
  split; [exact H|]. split; [exact Hb|]. split; [rewrite H1; vm_compute; reflexivity | exact (H2 _ Hb)].
Defined.

End Client.
