(* ===== verification/Legacy.v ===== *)
(** * Legacy: the older top-level copies [src/ippParser.go] and [src/ipp.go]

  The top-level directory holds an earlier version of the package's
  value types and CUPS client next to [src/IppGenerator.go]. The copies
  differ from [src/ipp/] in a few methods, which this file models:
  - [refer] has no case for [TAG_URI], so a uri value's [Length] is nil
    ([legacy_refer_Length]);
  - [octetString.length] is the later [len];
  - [nameWithLanguage.MarshalIPP] and [ippBoolean.MarshalIPP] call
    themselves, like [integer] and [enum] do in both copies;
  - [NewDateTime] takes a [time.Time] and is the later [DateTime];
  - [DoRequest] posts to [localhost:631] and prints the reply without
    decoding it.
  The other methods of the copy are written as in [src/ipp/]; they are
  modelled here too (the byte accessors, the [LegacyMarshler] class and
  its instances, the writers, both closures of [refer], and the client
  [SetServer], [CreateRequest], [GetPrinters] of [src/ipp.go], built on
  [src/ipp/]'s [Message] and [addAttribute], which the copy's package
  lacks). The equivalence theorems state the copies against the
  modelled [src/ipp/] definitions: the [LegacyRefines] instances for the
  writers, [legacy_refer_Length_equiv] and [legacy_refer_Marshal_equiv]
  for [refer]. *)

From Stdlib Require Import ZArith Lia String.
From stdpp Require Import base list.
From S2P Require Import Prelude Tags Values ValueMethods Model Encoder Client.
Import Tags Values Methods Model Encoder Client.

Local Open Scope Z_scope.
Local Open Scope go_scope.

Module Legacy.

(** ** The accessors of the value types

  The byte-slice types return the slice itself (a [[]byte] conversion
  of the receiver) and its length; the integer types write themselves with
  [binary.Write(buf, binary.LittleEndian, i)]. *)
Definition legacy_textWithoutLanguage_bytes (i : list Z) : list Z := i.
Definition legacy_textWithoutLanguage_len (i : list Z) : Z :=
  Z.of_nat (length (legacy_textWithoutLanguage_bytes i)).
Definition legacy_nameWithoutLanguage_bytes (i : list Z) : list Z := i.
Definition legacy_nameWithoutLanguage_len (i : list Z) : Z :=
  Z.of_nat (length (legacy_nameWithoutLanguage_bytes i)).
Definition legacy_signedShort_bytes (i : Z) : list Z := le_bytes 2 i.
Definition legacy_signedShort_len (s : Z) : Z := Z.of_nat (length (legacy_signedShort_bytes s)).
Definition legacy_signedByte_bytes (i : Z) : list Z := le_bytes 1 i.
Definition legacy_charset_len (i : list Z) : Z := Z.of_nat (length i).
Definition legacy_naturalLanguage_bytes (i : list Z) : list Z := i.
Definition legacy_naturalLanguage_len (i : list Z) : Z :=
  Z.of_nat (length (legacy_naturalLanguage_bytes i)).
Definition legacy_mimeMediaType_bytes (i : list Z) : list Z := i.
Definition legacy_keyword_bytes (i : list Z) : list Z := i.
Definition legacy_keyword_len (i : list Z) : Z := Z.of_nat (length (legacy_keyword_bytes i)).
Definition legacy_uri_bytes (i : list Z) : list Z := i.
Definition legacy_uriScheme_bytes (i : list Z) : list Z := i.
Definition legacy_signedInteger_bytes (i : Z) : list Z := le_bytes 4 i.

(** [octetString.length] of the old copy: the four [len()]s summed as
  an [int] and converted to [uint16]. *)
Definition legacy_octetString_length (o : octetString) : Z :=
  u16 (legacy_signedShort_len (os_nameLength o) + legacy_signedShort_len (os_valueLength o) +
       legacy_naturalLanguage_len (os_name o) + legacy_textWithoutLanguage_len (os_value o)).

(** The old [refer] followed by [Length()]. *)
Definition legacy_refer_Length (tag : Z) (v : goValue) : goRes Z :=
  if tag =? TAG_STRING then
    match v with
    | VOctetString o => Ok (legacy_octetString_length o)
    | _ => Panic TypeAssertion
    end
  else if tag =? TAG_DATE then Ok 9
  else if tag =? TAG_RESOLUTION then Ok 11
  else if tag =? TAG_RANGE then Ok 8
  else if tag =? TAG_TEXTLANG then
    match v with
    | VTextWithLanguage o => Ok (u16 (i16 (4 + os_nameLength o + os_valueLength o)))
    | _ => Panic TypeAssertion
    end
  else if tag =? TAG_LANGUAGE then
    match v with VNaturalLanguage b => Ok (u16 (Z.of_nat (length b))) | _ => Panic TypeAssertion end
  else if tag =? TAG_KEYWORD then
    match v with VKeyword b => Ok (u16 (Z.of_nat (length b))) | _ => Panic TypeAssertion end
  else if tag =? TAG_NAMELANG then
    match v with
    | VNameWithLanguage o => Ok (u16 (i16 (4 + os_nameLength o + os_valueLength o)))
    | _ => Panic TypeAssertion
    end
  else if tag =? TAG_INTEGER then Ok 4
  else if tag =? TAG_BOOLEAN then Ok 1
  else if tag =? TAG_ENUM then Ok 4
  else if tag =? TAG_CHARSET then
    match v with VCharset b => Ok (u16 (Z.of_nat (length b))) | _ => Panic TypeAssertion end
  else Panic NilFuncCall.

(** The self-calls of the old [nameWithLanguage] and [ippBoolean]
  writers, with the stack depth as fuel. *)
Fixpoint legacy_nameWithLanguage_MarshalIPP (depth : nat) (t : nameWithLanguage) : option (list Z) :=
  match depth with
  | O => None
  | S d => legacy_nameWithLanguage_MarshalIPP d t
  end.

Fixpoint legacy_ippBoolean_MarshalIPP (depth : nat) (i : ippBoolean) : option (list Z) :=
  match depth with
  | O => None
  | S d => legacy_ippBoolean_MarshalIPP d i
  end.

(** ** The old [Marshler] and its implementations

  The copy's interface has [MarshalIPP] only. Its value types are the
  ones of [src/ipp/] (same names, same fields); the byte accessors
  [bytes()] return the slice itself, and the integer ones write the
  value with [binary.Write(buf, binary.LittleEndian, i)]. *)
Class LegacyMarshler (T : Type) := legacy_MarshalIPP : nat -> T -> option (list Z).


Definition legacy_naturalLanguage_MarshalIPP (i : naturalLanguage) : list Z := [] ++ naturalLanguage_b i.
Definition legacy_keyword_MarshalIPP (i : keyword) : list Z := [] ++ keyword_b i.

Definition legacy_octetString_MarshalIPP (o : octetString) : list Z :=
  [] ++ legacy_signedShort_bytes (os_nameLength o) ++ os_name o ++
  legacy_signedShort_bytes (os_valueLength o) ++ os_value o.

(** [4+o.nameLength.len()+o.valueLength.len() == o.nameLength.len()]. *)
Definition legacy_octetString_validate (o : octetString) : bool :=
  4 + legacy_signedShort_len (os_nameLength o) + legacy_signedShort_len (os_valueLength o) =?
  legacy_signedShort_len (os_nameLength o).

(** [uint16(4 + o.nameLength + o.valueLength)], the sum in [signedShort]. *)
Definition legacy_textWithLanguage_length (o : textWithLanguage) : Z :=
  u16 (i16 (4 + os_nameLength (twl o) + os_valueLength (twl o))).

Definition legacy_textWithLanguage_MarshalIPP (t : textWithLanguage) : list Z :=
  [] ++ legacy_signedShort_bytes (os_nameLength (twl t)) ++ os_name (twl t) ++
  legacy_signedShort_bytes (os_valueLength (twl t)) ++ os_value (twl t).

Definition legacy_nameWithLanguage_length (o : nameWithLanguage) : Z :=
  u16 (i16 (4 + os_nameLength (nwl o) + os_valueLength (nwl o))).

Fixpoint legacy_integer_MarshalIPP (depth : nat) (i : integer) : option (list Z) :=
  match depth with
  | O => None
  | S d => legacy_integer_MarshalIPP d i
  end.

Fixpoint legacy_enum_MarshalIPP (depth : nat) (e : enum) : option (list Z) :=
  match depth with
  | O => None
  | S d => legacy_enum_MarshalIPP d e
  end.

Definition legacy_dateTime_MarshalIPP (o : dateTime) : list Z :=
  [] ++ legacy_signedShort_bytes (year o) ++ legacy_signedByte_bytes (month o) ++
  legacy_signedByte_bytes (day o) ++ legacy_signedByte_bytes (hour o) ++
  legacy_signedByte_bytes (minutes o) ++ legacy_signedByte_bytes (seconds o) ++
  legacy_signedByte_bytes (deciSeconds o) ++ legacy_signedByte_bytes (UTC o) ++
  legacy_signedByte_bytes (hoursFrUTC o).

(** [NewResolution(crossFdDirection, feedDirection int, unit int8)]:
  the [int]s converted to [signedInteger]; the error is always nil. *)
Definition legacy_NewResolution (crossFdDirection feedDirection unit : Z) : resolution :=
  mkResolution (i32 crossFdDirection) (i32 feedDirection) (i8 unit).

Definition legacy_resolution_MarshalIPP (o : resolution) : list Z :=
  [] ++ legacy_signedInteger_bytes (crossFeedDirection o) ++
  legacy_signedInteger_bytes (feedDirection o) ++ legacy_signedByte_bytes (units o).

Definition legacy_rangeOfInteger_MarshalIPP (o : rangeOfInteger) : list Z :=
  [] ++ legacy_signedInteger_bytes (lowerBound o) ++ legacy_signedInteger_bytes (upperBound o).

#[export] Instance legacy_naturalLanguage_marshler : LegacyMarshler naturalLanguage :=
  fun _ i => Some (legacy_naturalLanguage_MarshalIPP i).
#[export] Instance legacy_keyword_marshler : LegacyMarshler keyword :=
  fun _ i => Some (legacy_keyword_MarshalIPP i).
#[export] Instance legacy_octetString_marshler : LegacyMarshler octetString :=
  fun _ o => Some (legacy_octetString_MarshalIPP o).
#[export] Instance legacy_textWithLanguage_marshler : LegacyMarshler textWithLanguage :=
  fun _ t => Some (legacy_textWithLanguage_MarshalIPP t).
#[export] Instance legacy_nameWithLanguage_marshler : LegacyMarshler nameWithLanguage :=
  fun d t => legacy_nameWithLanguage_MarshalIPP d t.
#[export] Instance legacy_ippBoolean_marshler : LegacyMarshler ippBoolean :=
  fun d i => legacy_ippBoolean_MarshalIPP d i.
#[export] Instance legacy_integer_marshler : LegacyMarshler integer := legacy_integer_MarshalIPP.
#[export] Instance legacy_enum_marshler : LegacyMarshler enum := legacy_enum_MarshalIPP.
#[export] Instance legacy_dateTime_marshler : LegacyMarshler dateTime :=
  fun _ o => Some (legacy_dateTime_MarshalIPP o).
#[export] Instance legacy_resolution_marshler : LegacyMarshler resolution :=
  fun _ o => Some (legacy_resolution_MarshalIPP o).
#[export] Instance legacy_rangeOfInteger_marshler : LegacyMarshler rangeOfInteger :=
  fun _ o => Some (legacy_rangeOfInteger_MarshalIPP o).

(** The old [refer]'s [Marshal] closures: as in [src/ipp/], with no
  uri case, [charset] through [b.bytes()], and the old writers. *)
Definition legacy_refer_Marshal (depth : nat) (tag : Z) (v : goValue) : option (goRes (list Z)) :=
  let call r := option_map Ok r in
  let bad := Some (Panic TypeAssertion) in
  if tag =? TAG_STRING then
    match v with VOctetString o => call (legacy_MarshalIPP depth o) | _ => bad end
  else if tag =? TAG_DATE then
    match v with VDateTime d => call (legacy_MarshalIPP depth d) | _ => bad end
  else if tag =? TAG_RESOLUTION then
    match v with VResolution r => call (legacy_MarshalIPP depth r) | _ => bad end
  else if tag =? TAG_RANGE then
    match v with VRangeOfInteger r => call (legacy_MarshalIPP depth r) | _ => bad end
  else if tag =? TAG_TEXTLANG then
    match v with VTextWithLanguage o => call (legacy_MarshalIPP depth (TextWithLanguage o)) | _ => bad end
  else if tag =? TAG_LANGUAGE then
    match v with VNaturalLanguage b => call (legacy_MarshalIPP depth (NaturalLanguage b)) | _ => bad end
  else if tag =? TAG_KEYWORD then
    match v with VKeyword b => call (legacy_MarshalIPP depth (Keyword b)) | _ => bad end
  else if tag =? TAG_NAMELANG then
    match v with VNameWithLanguage o => call (legacy_MarshalIPP depth (NameWithLanguage o)) | _ => bad end
  else if tag =? TAG_INTEGER then
    match v with VInteger i => call (legacy_MarshalIPP depth (Integer i)) | _ => bad end
  else if tag =? TAG_BOOLEAN then
    match v with VBoolean b => call (legacy_MarshalIPP depth (IppBoolean b)) | _ => bad end
  else if tag =? TAG_ENUM then
    match v with VEnum e => call (legacy_MarshalIPP depth (Enum e)) | _ => bad end
  else if tag =? TAG_CHARSET then
    match v with VCharset b => Some (Ok b) | _ => bad end
  else Some (Panic NilFuncCall).

(** The old [NewDateTime(d time.Time) dateTime]. *)
Definition legacy_NewDateTime (d : time) : dateTime :=
  mkDateTime (i16 (t_year d)) (i8 (t_month d)) (i8 (t_day d)) (i8 (t_hour d))
             (i8 (t_minute d)) (i8 (t_second d)) (i8 (t_nanosecond d)) (i8 0x002d)
             (i8 (Z.quot (zone_offset d) 60)).

Definition legacy_url : string := "http://localhost:631".

(** The old [DoRequest]: create the dump file, encode (a nil additional
  value panics there), write, post, read and print; the reply is not
  decoded. The [Println(s)] of the buffer is output only. *)
Definition legacy_DoRequest (m : Message) (reply : option (list Z)) : list io_event * goRes (list Z) :=
  match marshallMsg m with
  | Panic r => ([FileCreate dump_path], Panic r)
  | Ok s =>
      ([FileCreate dump_path; FileWrite dump_path s; HttpPost legacy_url "application/ipp" s],
       match reply with
       | None => Panic NilDeref
       | Some body => Ok body
       end)
  end.

(** ** The old client of [src/ipp.go]

  [CupsServer] has the fields of [cups.go]'s, the record of [Client].
  [GetPrinters] builds the request of [cups.go]'s method with
  [addAttribute] (which [AddAttribute] calls; the copy's package does
  not declare [Message], and the model uses the one of [ippMsg.go]),
  then calls the old [DoRequest]. *)
Definition legacy_SetServer (c : CupsServer) (server : string) : CupsServer :=
  mkServer server (c_username c) (c_password c) (c_requestCounter c).

Definition legacy_CreateRequest (operationId : Z) : Message := newMessage operationId.

Definition legacy_GetPrinters_request : goRes Message :=
  let m := legacy_CreateRequest CUPS_GET_PRINTERS in
  let? m := addAttribute m TAG_CHARSET (str "attributes-charset") (VCharset (str "utf-8")) in
  let? m := addAttribute m TAG_LANGUAGE (str "attributes-natural-language")
                         (VNaturalLanguage (str "en-us")) in
  let? m := addAttribute m TAG_KEYWORD (str "requested-attributes") (VKeyword (str "printer-name")) in
  let? m := addAttribute m TAG_ENUM (str "printer-type") (VEnum 0) in
  addAttribute m TAG_ENUM (str "printer-type-mask") (VEnum 1).

Definition legacy_GetPrinters (reply : option (list Z)) : list io_event * goRes (list Z) :=
  match legacy_GetPrinters_request with
  | Ok m => legacy_DoRequest m reply
  | Panic r => ([], Panic r)
  end.

(** ** Equivalences with [src/ipp/] *)

Lemma legacy_octetString_length_len o : legacy_octetString_length o = octetString_len o.
Proof. reflexivity. Qed.

(** C27. The old [refer] is the new one without its uri case: for every
  tag but [TAG_URI] the two [Length] closures answer the same for every
  value, and for [TAG_URI] the old one is nil, so any uri attribute
  (the printer-uri of Get-Printer-Attributes among them) makes the old
  [addValue] panic. *)
Theorem legacy_refer_Length_equiv tag v :
  legacy_refer_Length tag v =
    if tag =? TAG_URI then Panic NilFuncCall else refer_Length tag v.
Proof.
  unfold legacy_refer_Length, refer_Length.
  repeat match goal with |- context [if tag =? ?c then _ else _] =>
    destruct (Z.eqb_spec tag c) as [->|]; [reflexivity|] end.
  reflexivity.
Qed.

Lemma legacy_MarshalIPP_diverges d t i :
  legacy_nameWithLanguage_MarshalIPP d t = None /\ legacy_ippBoolean_MarshalIPP d i = None.
Proof. induction d; [split; reflexivity | exact IHd]. Qed.

Lemma legacy_NewDateTime_DateTime d : legacy_NewDateTime d = DateTime d.
Proof. reflexivity. Qed.

Lemma legacy_integer_enum_diverge d i e :
  legacy_integer_MarshalIPP d i = None /\ legacy_enum_MarshalIPP d e = None.
Proof. induction d; [split; reflexivity | exact IHd]. Qed.

(** Where an old writer returns, the new one returns the same bytes. *)
Class LegacyRefines (T : Type) `{Marshler T} `{LegacyMarshler T} :=
  legacy_refines d x bs : legacy_MarshalIPP d x = Some bs -> MarshalIPP d x = Some bs.

Ltac legacy_same := intros ? ? ? H; exact H.

#[export] Instance naturalLanguage_legacy : LegacyRefines naturalLanguage.
Proof. legacy_same. Qed.
#[export] Instance keyword_legacy : LegacyRefines keyword.
Proof. legacy_same. Qed.
#[export] Instance octetString_legacy : LegacyRefines octetString.
Proof. legacy_same. Qed.
#[export] Instance textWithLanguage_legacy : LegacyRefines textWithLanguage.
Proof. legacy_same. Qed.
#[export] Instance dateTime_legacy : LegacyRefines dateTime.
Proof. legacy_same. Qed.
#[export] Instance resolution_legacy : LegacyRefines resolution.
Proof. legacy_same. Qed.
#[export] Instance rangeOfInteger_legacy : LegacyRefines rangeOfInteger.
Proof. legacy_same. Qed.
#[export] Instance nameWithLanguage_legacy : LegacyRefines nameWithLanguage.
Proof.
  intros d x bs H. assert (E : legacy_MarshalIPP d x = None) by
    exact (proj1 (legacy_MarshalIPP_diverges d x (IppBoolean 0))).
  congruence.
Qed.
#[export] Instance ippBoolean_legacy : LegacyRefines ippBoolean.
Proof.
  intros d x bs H. assert (E : legacy_MarshalIPP d x = None) by
    exact (proj2 (legacy_MarshalIPP_diverges d (NameWithLanguage os_example) x)). congruence.
Qed.
#[export] Instance integer_legacy : LegacyRefines integer.
Proof.
  intros d x bs H. assert (E : legacy_MarshalIPP d x = None) by
    exact (proj1 (legacy_integer_enum_diverge d x (Enum 0))).
  congruence.
Qed.
#[export] Instance enum_legacy : LegacyRefines enum.
Proof.
  intros d x bs H. assert (E : legacy_MarshalIPP d x = None) by
    exact (proj2 (legacy_integer_enum_diverge d (Integer 0) x)).
  congruence.
Qed.

(** C28. The old [Marshal] closures against the new ones, at every
  stack depth, tag and value: the uri tag has none (a nil call), a
  nameWithLanguage or boolean value under its own tag sends the call
  into the self-calling old writer, which never returns where the new
  one returns its bytes, and every other call does what the new
  closure does, bytes, divergence and panics alike. *)
Theorem legacy_refer_Marshal_equiv d t v :
  legacy_refer_Marshal d t v =
    if t =? TAG_URI then Some (Panic NilFuncCall)
    else if ((t =? TAG_NAMELANG) || (t =? TAG_BOOLEAN)) && (syntax_tag v =? t) then None
    else refer_Marshal d t v.
Proof.
  unfold legacy_refer_Marshal, refer_Marshal.
  repeat match goal with
  | |- context [if t =? ?c then _ else _] =>
      let E := fresh "E" in destruct (t =? c) eqn:E; [apply Z.eqb_eq in E; subst t|rewrite ?E]
  end; cbn [orb andb]; try reflexivity;
  destruct v; cbn; try reflexivity;
  rewrite ?(proj1 (legacy_MarshalIPP_diverges _ _ (IppBoolean 0))),
    ?(proj2 (legacy_MarshalIPP_diverges _ (NameWithLanguage os_example) _)),
    ?(proj1 (legacy_integer_enum_diverge _ _ (Enum 0))), ?(proj2 (legacy_integer_enum_diverge _ (Integer 0) _)),
    ?integer_MarshalIPP_diverges, ?enum_MarshalIPP_diverges; reflexivity.
Qed.

End Legacy.
